(** * Verification of the si web-app stores, icon registry and
      external-provider migration

    The development embeds, module by module, the TypeScript, SQL and
    serverless fragments of the repository and proves the properties the
    specification states about them.

    - [IconRegistry]       : [getIconByName] and the frozen icon tables.
    - [ApplicationContext] : the Vuex module [applicationContext].
    - [lodash]             : the lodash helpers the editor store calls.
    - [Editor]             : the Vuex module [editor].
    - [ExternalProviders]  : the stored procedure [external_provider_create_v1].
    - [ExistsCheck]        : the [exists] qualification check.
    - [ApplicationContextRegistry], [EditorOps], [ExternalProviderCalls],
      [ModifiedNodes]      : more of the same files, and the query for the
                             nodes a change set modifies. *)

From Stdlib Require Import ZArith Lia Bool Ascii String.
From stdpp Require Import base option list strings gmap sorting.

Local Open Scope string_scope.
Local Open Scope list_scope.

#[local] Set Warnings "-register-all".

(** ** JavaScript property lookup

    An object literal inherits from [Object.prototype]; [obj[key]] walks the
    prototype chain, so a key that is not an own property may still resolve to
    an inherited member. *)

(** The result of [obj[key]]: [undefined], an own property of the object
    literal, or a member inherited from [Object.prototype]. *)
Inductive Lookup (A : Type) : Type :=
| Undefined
| Own (a : A)
| Inherited (member : string).
Arguments Undefined {A}.
Arguments Own {A} a.
Arguments Inherited {A} member.

(** The property names every ordinary object inherits from
    [Object.prototype] (ECMAScript 20.1.3 and Annex B.2.2). *)
Definition OBJECT_PROTOTYPE : list string :=
  [ "constructor"; "hasOwnProperty"; "isPrototypeOf"; "propertyIsEnumerable";
    "toLocaleString"; "toString"; "valueOf"; "__proto__";
    "__defineGetter__"; "__defineSetter__"; "__lookupGetter__";
    "__lookupSetter__" ].

Definition inherited (key : string) : bool :=
  bool_decide (key ∈ OBJECT_PROTOTYPE).

(** Own properties of an object literal, in source order. *)
Fixpoint own {A} (obj : list (string * A)) (key : string) : option A :=
  match obj with
  | [] => None
  | (k, v) :: rest => if String.eqb k key then Some v else own rest key
  end.

(** [obj[key]] for an object literal [obj]. *)
Definition get {A} (obj : list (string * A)) (key : string) : Lookup A :=
  match own obj key with
  | Some v => Own v
  | None => if inherited key then Inherited key else Undefined
  end.

(** ** Store actions

    A Vuex action reads and mutates the store, leaves a trace of what it
    committed, dispatched or sent, and either returns or throws.  Mutations
    committed before a throw stay committed.  An action is run on its own:
    nothing else writes to the store while it waits for the backend. *)

Inductive Exception : Type :=
| Error (message : string)
| TypeError (message : string).

Inductive Outcome (A : Type) : Type :=
| Returned (a : A)
| Thrown (e : Exception).
Arguments Returned {A} a.
Arguments Thrown {A} e.

Definition Action (S E A : Type) : Type := S -> Outcome A * S * list E.

Definition ret {S E A} (a : A) : Action S E A :=
  fun s => (Returned a, s, []).

Definition throw {S E A} (e : Exception) : Action S E A :=
  fun s => (Thrown e, s, []).

Definition bind {S E A B} (m : Action S E A) (k : A -> Action S E B)
  : Action S E B :=
  fun s =>
    match m s with
    | (Returned a, s1, t1) => let '(r, s2, t2) := k a s1 in (r, s2, t1 ++ t2)
    | (Thrown e, s1, t1) => (Thrown e, s1, t1)
    end.

(** Read the store ([state] in the action context). *)
Definition read {S E} : Action S E S :=
  fun s => (Returned s, s, []).

(** Leave an entry in the trace. *)
Definition emit {S E} (e : E) : Action S E unit :=
  fun s => (Returned tt, s, [e]).

(** Apply a mutation handler to the store. *)
Definition modify {S E} (f : S -> S) : Action S E unit :=
  fun s => (Returned tt, f s, []).

(** [await p] for a promise that settles with the given outcome. *)
Definition await {S E A} (p : Outcome A) : Action S E A :=
  fun s => (p, s, []).

Declare Scope action_scope.
Delimit Scope action_scope with action.
Notation "x <~ m ;; k" := (bind m (fun x => k))
  (at level 100, m at next level, right associativity) : action_scope.
Notation "m ;; k" := (bind m (fun _ => k))
  (at level 100, right associativity) : action_scope.

Definition outcome {S E A} (r : Outcome A * S * list E) : Outcome A := r.1.1.
Definition store {S E A} (r : Outcome A * S * list E) : S := r.1.2.
Definition trace {S E A} (r : Outcome A * S * list E) : list E := r.2.

Module IconRegistry.

(** The imported icon assets.  Each is a compiled component or the raw text of
    a non-empty svg file, hence truthy. *)
Inductive Asset : Set :=
| Loader | Check | CheckCircle | CheckSquare
| AlertCircle | AlertSquare | AlertTriangle
| X | XCircle | XSquare
| Minus | MinusCircle | Plus | PlusCircle
| Tilde | TildeCircle | QuestionMarkCircle | Play
| Arrow | Chevron | Save | Trash
| PlayCircle | Beaker | Link | Moon | Sun | Eye | EyeOff
| ClipboardCopy | Refresh | Pencil | Cube | Clock
| ExclamationCircle | CreditCard | Bell | CheckBadge
| DotsHorizontal | DotsVertical | Search | Selector
| Lock | LockOpen | Diagram
| GitBranch | GitCommit | GitMerge | Tools | ExternalLink.

Definition ICONS : list (string * Asset) :=
  [ ("alert-circle", AlertCircle);
    ("alert-square", AlertSquare);
    ("alert-triangle", AlertTriangle);
    ("beaker", Beaker);
    ("bell", Bell);
    ("check", Check);
    ("check-badge", CheckBadge);
    ("check-circle", CheckCircle);
    ("check-square", CheckSquare);
    ("clipboard-copy", ClipboardCopy);
    ("clock", Clock);
    ("component", Cube);
    ("credit-card", CreditCard);
    ("diagram", Diagram);
    ("dots-horizontal", DotsHorizontal);
    ("dots-vertical", DotsVertical);
    ("edit", Pencil);
    ("exclamation-circle", ExclamationCircle);
    ("external-link", ExternalLink);
    ("eye", Eye);
    ("git-branch", GitBranch);
    ("git-commit", GitCommit);
    ("git-merge", GitMerge);
    ("help-circle", QuestionMarkCircle);
    ("hide", EyeOff);
    ("link", Link);
    ("loader", Loader);
    ("lock", Lock);
    ("lock-open", LockOpen);
    ("minus", Minus);
    ("minus-circle", MinusCircle);
    ("moon", Moon);
    ("play", Play);
    ("play-circle", PlayCircle);
    ("plus", Plus);
    ("plus-circle", PlusCircle);
    ("refresh", Refresh);
    ("refresh-active", Refresh);
    ("save", Save);
    ("search", Search);
    ("selector", Selector);
    ("show", Eye);
    ("sun", Sun);
    ("tilde", Tilde);
    ("tilde-circle", TildeCircle);
    ("tools", Tools);
    ("trash", Trash);
    ("x", X);
    ("x-circle", XCircle);
    ("x-square", XSquare) ].

Definition SPINNABLE_ICONS : list (string * Asset) :=
  [ ("arrow", Arrow); ("chevron", Chevron) ].

Definition ICON_NAME_ALIASES : list (string * string) := [].

(** [name.split("--")]: the pieces of [name] between the successive,
    non-overlapping occurrences of the separator, scanning from the left. *)
Definition cons_head (c : ascii) (pieces : list string) : list string :=
  match pieces with
  | piece :: more => String c piece :: more
  | [] => [String c EmptyString]
  end.

Fixpoint split (name : string) : list string :=
  match name with
  | EmptyString => [EmptyString]
  | String c tl =>
      match tl with
      | String d rest =>
          if Ascii.eqb c "-" && Ascii.eqb d "-"
          then EmptyString :: split rest
          else cons_head c (split tl)
      | EmptyString => cons_head c (split tl)
      end
  end.

(** Whether [name] begins with the separator. *)
Definition starts_with_separator (name : string) : bool :=
  match name with
  | String c (String d _) => Ascii.eqb c "-" && Ascii.eqb d "-"
  | _ => false
  end.

(** [pieces[0]], used as a property key: an absent element is [undefined],
    whose key is the string "undefined". *)
Definition first_key (pieces : list string) : string :=
  match pieces with
  | piece :: _ => piece
  | [] => "undefined"
  end.

(** ToPropertyKey of the result of a lookup in a table of strings.  An
    inherited member is the prototype object itself under [__proto__] and a
    native function otherwise; [constructor] is the function [Object]. *)
Definition to_key (v : Lookup string) : string :=
  match v with
  | Undefined => "undefined"
  | Own s => s
  | Inherited member =>
      if String.eqb member "__proto__" then "[object Object]"
      else if String.eqb member "constructor"
      then "function Object() { [native code] }"
      else "function " +:+ member +:+ "() { [native code] }"
  end.

(** Truthiness: [undefined] is falsy, assets and inherited members (functions,
    and the prototype object itself) are truthy. *)
Definition truthy {A} (v : Lookup A) : bool :=
  match v with
  | Undefined => false
  | _ => true
  end.

(** [a || b] *)
Definition or_else {A} (a b : Lookup A) : Lookup A :=
  if truthy a then a else b.

Definition nameWithoutModifiers (name : string) : string :=
  first_key (split name).

Definition getIconByName (name : string) : Lookup Asset :=
  let base := nameWithoutModifiers name in
  or_else (get SPINNABLE_ICONS base)
    (or_else (get ICONS base)
       (or_else (get ICONS (to_key (get ICON_NAME_ALIASES base)))
          (get ICONS "help-circle"))).

End IconRegistry.

Module ApplicationContext.

Local Open Scope action_scope.

(** *** Model types of [@/api/sdf] and [@/store] read by the module *)

Record ChangeSet : Type := { id : string; name : string }.

Record EditSession : Type := { editSessionId : string }.

(** An entry of a select list. *)
Record Entry : Type := { value : string; label : string }.

(** An instance store context with the results of its two methods. *)
Record InstanceStoreContext : Type := {
  activateName : string;
  dispatchPath : option string -> string
}.

(** A field declared [T | null] and optional: unset, null or set. *)
Inductive Optional (A : Type) : Type :=
| Unset
| Null
| Present (a : A).
Arguments Unset {A}.
Arguments Null {A}.
Arguments Present {A} a.

Definition is_set {A} (o : Optional A) : bool :=
  match o with
  | Present _ => true
  | _ => false
  end.

Record ApplicationContextStore : Type := {
  applicationId : option string;
  activatedBy : gset string;
  applicationName : option string;
  systemsList : list Entry;
  currentSystem : option string;
  openChangeSetsList : list Entry;
  currentChangeSet : option ChangeSet;
  currentEditSession : option EditSession;
  statusBarCtx : Optional InstanceStoreContext;
  editMode : bool
}.

Definition state : ApplicationContextStore := {|
  applicationId := None;
  activatedBy := ∅;
  applicationName := None;
  systemsList := [];
  currentSystem := None;
  openChangeSetsList := [];
  currentChangeSet := None;
  currentEditSession := None;
  statusBarCtx := Null;
  editMode := false
|}.

(** *** Replies of [ApplicationContextDal] *)

Record DalError : Type := { code : Z; message : string }.

(** A reply either carries [error] or the fields of the success case. *)
Inductive Reply (A : Type) : Type :=
| Failure (error : DalError)
| Success (payload : A).
Arguments Failure {A} error.
Arguments Success {A} payload.

Record IGetApplicationContextReplySuccess : Type := {
  reply_applicationName : string;
  reply_systemsList : list Entry;
  reply_openChangeSetsList : list Entry
}.

Record ChangeSetAndEditSession : Type := {
  changeSet : ChangeSet;
  editSession : EditSession
}.

Record IGetApplicationContextRequest : Type := { applicationId_ : string }.
Record IGetChangeSetAndEditSessionRequest : Type :=
  { get_changeSetId : string; get_editSessionId : string }.
Record ICreateEditSessionAndGetChangeSetRequest : Type :=
  { cesgcs_changeSetId : string }.
Record ICreateChangeSetAndEditSessionRequest : Type :=
  { changeSetName : string }.
Record ICreateEditSessionRequest : Type := { create_changeSetId : string }.
Record ICancelEditSessionRequest : Type := { cancel_editSessionId : string }.

(** The backend, as the replies it gives. *)
Record ApplicationContextDal : Type := {
  getApplicationContext :
    IGetApplicationContextRequest -> Reply IGetApplicationContextReplySuccess;
  getChangeSetAndEditSession :
    IGetChangeSetAndEditSessionRequest -> Reply ChangeSetAndEditSession;
  createEditSessionAndGetChangeSet :
    ICreateEditSessionAndGetChangeSetRequest -> Reply ChangeSetAndEditSession;
  createChangeSetAndEditSession :
    ICreateChangeSetAndEditSessionRequest -> Reply ChangeSetAndEditSession;
  createEditSession : ICreateEditSessionRequest -> Reply EditSession;
  cancelEditSession : ICancelEditSessionRequest -> Reply unit
}.

(** [payload.openChangeSetsList.push({ label: "", value: "" })]: the array is
    the reply's own, so the reply sees the new entry too. *)
Definition pushed (payload : IGetApplicationContextReplySuccess)
  : IGetApplicationContextReplySuccess := {|
  reply_applicationName := reply_applicationName payload;
  reply_systemsList := reply_systemsList payload;
  reply_openChangeSetsList :=
    reply_openChangeSetsList payload ++ [ {| value := ""; label := "" |} ]
|}.

Module mutations.

Definition setCurrentChangeSetAndEditSession
    (payload : option ChangeSet * option EditSession)
    (state : ApplicationContextStore) : ApplicationContextStore := {|
  applicationId := applicationId state;
  activatedBy := activatedBy state;
  applicationName := applicationName state;
  systemsList := systemsList state;
  currentSystem := currentSystem state;
  openChangeSetsList := openChangeSetsList state;
  currentChangeSet := payload.1;
  currentEditSession := payload.2;
  statusBarCtx := statusBarCtx state;
  editMode := editMode state
|}.

Definition setCurrentChangeSet (payload : option ChangeSet)
    (state : ApplicationContextStore) : ApplicationContextStore := {|
  applicationId := applicationId state;
  activatedBy := activatedBy state;
  applicationName := applicationName state;
  systemsList := systemsList state;
  currentSystem := currentSystem state;
  openChangeSetsList := openChangeSetsList state;
  currentChangeSet := payload;
  currentEditSession := currentEditSession state;
  statusBarCtx := statusBarCtx state;
  editMode := editMode state
|}.

Definition setCurrentEditSession (payload : option EditSession)
    (state : ApplicationContextStore) : ApplicationContextStore := {|
  applicationId := applicationId state;
  activatedBy := activatedBy state;
  applicationName := applicationName state;
  systemsList := systemsList state;
  currentSystem := currentSystem state;
  openChangeSetsList := openChangeSetsList state;
  currentChangeSet := currentChangeSet state;
  currentEditSession := payload;
  statusBarCtx := statusBarCtx state;
  editMode := editMode state
|}.

(** [_.union(payload, state.openChangeSetsList)] compares entries by
    reference; the entries of the payload are fresh objects and the list in
    the store holds no object twice, so nothing is dropped. *)
Definition updateOpenChangeSetsList (payload : list Entry)
    (state : ApplicationContextStore) : ApplicationContextStore := {|
  applicationId := applicationId state;
  activatedBy := activatedBy state;
  applicationName := applicationName state;
  systemsList := systemsList state;
  currentSystem := currentSystem state;
  openChangeSetsList := payload ++ openChangeSetsList state;
  currentChangeSet := currentChangeSet state;
  currentEditSession := currentEditSession state;
  statusBarCtx := statusBarCtx state;
  editMode := editMode state
|}.

Definition setApplicationContext (payload : IGetApplicationContextReplySuccess)
    (state : ApplicationContextStore) : ApplicationContextStore := {|
  applicationId := applicationId state;
  activatedBy := activatedBy state;
  applicationName := Some (reply_applicationName payload);
  systemsList := reply_systemsList payload;
  currentSystem := currentSystem state;
  openChangeSetsList := reply_openChangeSetsList (pushed payload);
  currentChangeSet := currentChangeSet state;
  currentEditSession := currentEditSession state;
  statusBarCtx := statusBarCtx state;
  editMode := editMode state
|}.

Definition setEditMode (payload : bool)
    (state : ApplicationContextStore) : ApplicationContextStore := {|
  applicationId := applicationId state;
  activatedBy := activatedBy state;
  applicationName := applicationName state;
  systemsList := systemsList state;
  currentSystem := currentSystem state;
  openChangeSetsList := openChangeSetsList state;
  currentChangeSet := currentChangeSet state;
  currentEditSession := currentEditSession state;
  statusBarCtx := statusBarCtx state;
  editMode := payload
|}.

Definition addToActivatedBy (payload : string)
    (state : ApplicationContextStore) : ApplicationContextStore := {|
  applicationId := applicationId state;
  activatedBy := activatedBy state ∪ {[ payload ]};
  applicationName := applicationName state;
  systemsList := systemsList state;
  currentSystem := currentSystem state;
  openChangeSetsList := openChangeSetsList state;
  currentChangeSet := currentChangeSet state;
  currentEditSession := currentEditSession state;
  statusBarCtx := statusBarCtx state;
  editMode := editMode state
|}.

Definition removeFromActivatedBy (payload : string)
    (state : ApplicationContextStore) : ApplicationContextStore := {|
  applicationId := applicationId state;
  activatedBy := activatedBy state ∖ {[ payload ]};
  applicationName := applicationName state;
  systemsList := systemsList state;
  currentSystem := currentSystem state;
  openChangeSetsList := openChangeSetsList state;
  currentChangeSet := currentChangeSet state;
  currentEditSession := currentEditSession state;
  statusBarCtx := statusBarCtx state;
  editMode := editMode state
|}.

Definition clearCurrentChangeSetAndCurrentEditSession
    (state : ApplicationContextStore) : ApplicationContextStore := {|
  applicationId := applicationId state;
  activatedBy := activatedBy state;
  applicationName := applicationName state;
  systemsList := systemsList state;
  currentSystem := currentSystem state;
  openChangeSetsList := openChangeSetsList state;
  currentChangeSet := None;
  currentEditSession := None;
  statusBarCtx := statusBarCtx state;
  editMode := editMode state
|}.

Definition clear (state : ApplicationContextStore)
  : ApplicationContextStore := {|
  applicationId := None;
  activatedBy := activatedBy state;
  applicationName := None;
  systemsList := [];
  currentSystem := None;
  openChangeSetsList := [];
  currentChangeSet := None;
  currentEditSession := currentEditSession state;
  statusBarCtx := Unset;
  editMode := editMode state
|}.

Definition setStatusBarCtx (payload : Optional InstanceStoreContext)
    (state : ApplicationContextStore) : ApplicationContextStore := {|
  applicationId := applicationId state;
  activatedBy := activatedBy state;
  applicationName := applicationName state;
  systemsList := systemsList state;
  currentSystem := currentSystem state;
  openChangeSetsList := openChangeSetsList state;
  currentChangeSet := currentChangeSet state;
  currentEditSession := currentEditSession state;
  statusBarCtx := payload;
  editMode := editMode state
|}.

End mutations.

(** A committed mutation: its type and payload. *)
Inductive Mutation : Type :=
| SetCurrentChangeSetAndEditSession
    (changeSet : option ChangeSet) (editSession : option EditSession)
| SetCurrentChangeSet (payload : option ChangeSet)
| SetCurrentEditSession (payload : option EditSession)
| UpdateOpenChangeSetsList (payload : list Entry)
| SetApplicationContext (payload : IGetApplicationContextReplySuccess)
| SetEditMode (payload : bool)
| AddToActivatedBy (payload : string)
| RemoveFromActivatedBy (payload : string)
| ClearCurrentChangeSetAndCurrentEditSession
| Clear
| SetStatusBarCtx (payload : Optional InstanceStoreContext).

Definition handler (m : Mutation)
  : ApplicationContextStore -> ApplicationContextStore :=
  match m with
  | SetCurrentChangeSetAndEditSession cs es =>
      mutations.setCurrentChangeSetAndEditSession (cs, es)
  | SetCurrentChangeSet p => mutations.setCurrentChangeSet p
  | SetCurrentEditSession p => mutations.setCurrentEditSession p
  | UpdateOpenChangeSetsList p => mutations.updateOpenChangeSetsList p
  | SetApplicationContext p => mutations.setApplicationContext p
  | SetEditMode p => mutations.setEditMode p
  | AddToActivatedBy p => mutations.addToActivatedBy p
  | RemoveFromActivatedBy p => mutations.removeFromActivatedBy p
  | ClearCurrentChangeSetAndCurrentEditSession =>
      mutations.clearCurrentChangeSetAndCurrentEditSession
  | Clear => mutations.clear
  | SetStatusBarCtx p => mutations.setStatusBarCtx p
  end.

(** What an action leaves behind besides the new store. *)
Inductive Effect : Type :=
| Commit (m : Mutation)
| DispatchEditMode (path : string) (payload : bool)
| DispatchApplicationName (path : string) (payload : string)
| Publish (currentChangeSet : option ChangeSet)
| Register (kind path : string).

Definition Act (A : Type) : Type := Action ApplicationContextStore Effect A.

Definition commit (m : Mutation) : Act unit :=
  emit (Commit m) ;; modify (handler m).

Module actions.

Definition activate (payload : InstanceStoreContext) : Act unit :=
  commit (AddToActivatedBy (activateName payload)) ;;
  emit (Register "Entity" (dispatchPath payload None)).

Definition deactivate (payload : InstanceStoreContext) : Act unit :=
  commit (RemoveFromActivatedBy (activateName payload)) ;;
  state <~ read ;;
  if Nat.eqb (size (activatedBy state)) 0 then commit Clear else ret tt.

Definition setStatusBarCtx (payload : InstanceStoreContext) : Act unit :=
  commit (SetStatusBarCtx (Present payload)).

Definition setEditMode (payload : bool) : Act unit :=
  commit (SetEditMode payload) ;;
  state <~ read ;;
  match statusBarCtx state with
  | Present ctx =>
      emit (DispatchEditMode (dispatchPath ctx (Some "setEditMode")) payload)
  | _ => ret tt
  end.

Definition loadApplicationContext (dal : ApplicationContextDal)
    (request : IGetApplicationContextRequest)
  : Act (Reply IGetApplicationContextReplySuccess) :=
  let reply := getApplicationContext dal request in
  match reply with
  | Failure _ => ret reply
  | Success payload =>
      commit (SetApplicationContext payload) ;;
      state <~ read ;;
      match statusBarCtx state with
      | Present ctx =>
          emit (DispatchApplicationName
                  (dispatchPath ctx (Some "setApplicationName"))
                  (reply_applicationName payload))
      | _ => ret tt
      end ;;
      ret (Success (pushed payload))
  end.

Definition loadChangeSetAndEditSession (dal : ApplicationContextDal)
    (request : IGetChangeSetAndEditSessionRequest)
  : Act (Reply ChangeSetAndEditSession) :=
  let reply := getChangeSetAndEditSession dal request in
  match reply with
  | Failure _ => ret reply
  | Success payload =>
      commit (SetCurrentChangeSetAndEditSession
                (Some (changeSet payload)) (Some (editSession payload))) ;;
      emit (Publish (Some (changeSet payload))) ;;
      ret reply
  end.

Definition createEditSessionAndLoadChangeSet (dal : ApplicationContextDal)
    (request : ICreateEditSessionAndGetChangeSetRequest)
  : Act (Reply ChangeSetAndEditSession) :=
  let reply := createEditSessionAndGetChangeSet dal request in
  match reply with
  | Failure _ => ret reply
  | Success payload =>
      commit (SetCurrentChangeSetAndEditSession
                (Some (changeSet payload)) (Some (editSession payload))) ;;
      emit (Publish (Some (changeSet payload))) ;;
      ret reply
  end.

Definition clearCurrentChangeSetAndCurrentEditSession : Act unit :=
  commit ClearCurrentChangeSetAndCurrentEditSession ;;
  state <~ read ;;
  if is_set (statusBarCtx state) then emit (Publish None) else ret tt.

Definition createChangeSetAndEditSession (dal : ApplicationContextDal)
    (request : ICreateChangeSetAndEditSessionRequest)
  : Act (Reply ChangeSetAndEditSession) :=
  let reply := createChangeSetAndEditSession dal request in
  match reply with
  | Failure _ => ret reply
  | Success payload =>
      commit (UpdateOpenChangeSetsList
                [ {| value := id (changeSet payload);
                     label := name (changeSet payload) |} ]) ;;
      commit (SetCurrentChangeSet (Some (changeSet payload))) ;;
      state <~ read ;;
      (if is_set (statusBarCtx state)
       then emit (Publish (Some (changeSet payload)))
       else ret tt) ;;
      commit (SetCurrentEditSession (Some (editSession payload))) ;;
      ret reply
  end.

Definition createEditSession (dal : ApplicationContextDal)
    (request : ICreateEditSessionRequest) : Act (Reply EditSession) :=
  let reply := createEditSession dal request in
  match reply with
  | Failure _ => ret reply
  | Success payload =>
      commit (SetCurrentEditSession (Some payload)) ;;
      ret reply
  end.

Definition cancelEditSession (dal : ApplicationContextDal)
    (request : ICancelEditSessionRequest) : Act (Reply unit) :=
  let reply := cancelEditSession dal request in
  match reply with
  | Failure _ => ret reply
  | Success payload =>
      commit (SetCurrentEditSession None) ;;
      ret reply
  end.

End actions.

(** *** Scenarios *)

(** A backend that refuses every request. *)
Definition refusing (error : DalError) : ApplicationContextDal := {|
  getApplicationContext := fun _ => Failure error;
  getChangeSetAndEditSession := fun _ => Failure error;
  createEditSessionAndGetChangeSet := fun _ => Failure error;
  createChangeSetAndEditSession := fun _ => Failure error;
  createEditSession := fun _ => Failure error;
  cancelEditSession := fun _ => Failure error
|}.

Definition unauthorized : DalError :=
  {| code := 401%Z; message := "unauthorized" |}.

(** A store in the middle of an edit: one activator, a change set and an
    edit session selected, edit mode on. *)
Definition editing : ApplicationContextStore := {|
  applicationId := Some "application:1";
  activatedBy := {[ "editor" ]};
  applicationName := Some "demo";
  systemsList := [ {| value := "system:1"; label := "production" |} ];
  currentSystem := Some "system:1";
  openChangeSetsList := [ {| value := "changeSet:1"; label := "first" |} ];
  currentChangeSet := Some {| id := "changeSet:1"; name := "first" |};
  currentEditSession := Some {| editSessionId := "editSession:1" |};
  statusBarCtx := Null;
  editMode := true
|}.

Definition editor_ctx : InstanceStoreContext := {|
  activateName := "editor";
  dispatchPath := fun action => "editor/" +:+ default "" action
|}.

End ApplicationContext.

(** ** lodash

    The collection helpers the editor store calls, with the semantics of
    lodash 4: [unionBy] keeps the first element seen for each iteratee value,
    [orderBy] is a stable sort, [remove] drops every match. *)
Module lodash.

Inductive Order : Set := asc | desc.

Section Collections.
Context {A K : Type} `{EqDecision K}.
Variable iteratee : A -> K.

(** [baseUniq]: walk the array, keeping an element when its computed value
    has not been seen. *)
Fixpoint baseUniq (seen : list K) (array : list A) : list A :=
  match array with
  | [] => []
  | x :: rest =>
      if bool_decide (iteratee x ∈ seen)
      then baseUniq seen rest
      else x :: baseUniq (iteratee x :: seen) rest
  end.

Definition unionBy (arrays : list (list A)) : list A :=
  baseUniq [] (concat arrays).

(** [_.remove(array, [path, value])]: the array without the elements whose
    property equals the value. *)
Definition remove (srcValue : K) (array : list A) : list A :=
  filter (fun x => iteratee x <> srcValue) array.

(** [_.find(array, [path, value])] *)
Fixpoint find (srcValue : K) (array : list A) : option A :=
  match array with
  | [] => None
  | x :: rest =>
      if bool_decide (iteratee x = srcValue) then Some x
      else find srcValue rest
  end.

(** [compareMultiple] for one iteratee: the ascending comparison of the
    computed values, negated for a descending order. *)
Variable compareAscending : K -> K -> comparison.

Definition compareMultiple (order : Order) (x y : A) : comparison :=
  match order with
  | asc => compareAscending (iteratee x) (iteratee y)
  | desc => CompOpp (compareAscending (iteratee x) (iteratee y))
  end.

(** Ties keep the original order of the elements: [x] stood before every
    element of [sorted], so it goes in front of the first one it does not
    have to follow. *)
Fixpoint place (order : Order) (x : A) (sorted : list A) : list A :=
  match sorted with
  | [] => [x]
  | y :: rest =>
      match compareMultiple order x y with
      | Gt => y :: place order x rest
      | _ => x :: y :: rest
      end
  end.

Definition orderBy (order : Order) (array : list A) : list A :=
  foldr (place order) [] array.

End Collections.

(** [x] may stand before [y] in an array in descending order of the
    iteratee. *)
Definition descending {A} (iteratee : A -> Z) (x y : A) : Prop :=
  (iteratee y <= iteratee x)%Z.

End lodash.

Module Editor.

Local Open Scope action_scope.

(** *** Model classes of [@/api/sdf/model], with the fields the store reads *)

Module ChangeSetStatus.
Inductive t : Type :=
| Open
| Other (status : string).
End ChangeSetStatus.

Module ChangeSet.
Record t : Type := {
  id : string;
  name : string;
  status : ChangeSetStatus.t
}.
End ChangeSet.

Module EditSession.
Record t : Type := { id : string; name : string; changeSetId : string }.
End EditSession.

Module Entity.
Record t : Type := { id : string; nodeId : string; head : bool }.
End Entity.

Module System.
Record t : Type := { id : string }.
End System.

Module Node.
Record t : Type := { id : string; objectType : string }.
End Node.

Module NodeObject.
Record t : Type := { nodeId : string; head : bool; deleted : bool }.
End NodeObject.

Module Edge.
Record t : Type := { tailNodeId : string; headNodeId : string }.
End Edge.

Module Resource.
Record t : Type := { id : string; nodeId : string; systemId : string }.
End Resource.

Module Secret.
Record t : Type := { id : string; name : string }.
End Secret.

Module RegistryProperty.
Record t : Type := { name : string; kind : string }.
End RegistryProperty.

Module Event.
Record t : Type := { id : string; startUnixTimestamp : Z }.
End Event.

Module EventLog.
Record t : Type := { id : string; unixTimestamp : Z }.
End EventLog.

Module User.
Record t : Type := { name : string }.
End User.

Module Workspace.
Record t : Type := { id : string }.
End Workspace.

Module Organization.
Record t : Type := { id : string }.
End Organization.

Record OutputLine : Type := { line : string }.

Record EventBarItem : Type := {
  id : string;
  event : Event.t;
  logs : list EventLog.t;
  output : gmap string OutputLine
}.

Record DiffResult : Type := { entries : list string; count : Z }.

Record InputType : Type := { value : option string; label : string }.

Inductive Mode : Set := view | edit.

Record EditorStore : Type := {
  mode : Mode;
  context : string;
  mouseTrackSelection : option string;
  isSaving : bool;
  editSaveError : option Exception;
  changeSetsOpen : list ChangeSet.t;
  changeSet : option ChangeSet.t;
  changeSetParticipantCount : Z;
  editSession : option EditSession.t;
  application : option Entity.t;
  system : option System.t;
  systems : list System.t;
  nodes : list Node.t;
  objects : gmap string NodeObject.t;
  edges : list Edge.t;
  node : option Node.t;
  directSuccessors : list Node.t;
  newConfiguresInputTypes : list InputType;
  propertyList : list RegistryProperty.t;
  secretList : option (list Secret.t);
  secretName : option string;
  editObject : option Entity.t;
  diff : DiffResult;
  eventBar : list EventBarItem;
  resources : list Resource.t;
  currentResource : option Resource.t
}.

Definition state : EditorStore := {|
  mode := view;
  context := "none";
  mouseTrackSelection := None;
  isSaving := false;
  editSaveError := None;
  changeSetsOpen := [];
  changeSet := None;
  changeSetParticipantCount := 0%Z;
  editSession := None;
  application := None;
  system := None;
  systems := [];
  nodes := [];
  objects := ∅;
  edges := [];
  node := None;
  directSuccessors := [];
  newConfiguresInputTypes := [];
  propertyList := [];
  secretList := None;
  secretName := None;
  editObject := None;
  diff := {| entries := []; count := 0%Z |};
  eventBar := [];
  resources := [];
  currentResource := None
|}.

Module mutations.

(** The second iteratee of the inner [orderBy], the property [asc], is
    undefined on every log and never decides a comparison. *)
Definition updateEventBar (event : Event.t) (logs : list EventLog.t)
    (state : EditorStore) : EditorStore := {|
  mode := mode state;
  context := context state;
  mouseTrackSelection := mouseTrackSelection state;
  isSaving := isSaving state;
  editSaveError := editSaveError state;
  changeSetsOpen := changeSetsOpen state;
  Editor.changeSet := Editor.changeSet state;
  Editor.changeSetParticipantCount := Editor.changeSetParticipantCount state;
  Editor.editSession := Editor.editSession state;
  application := application state;
  system := system state;
  systems := systems state;
  nodes := nodes state;
  objects := objects state;
  edges := edges state;
  Editor.node := Editor.node state;
  directSuccessors := directSuccessors state;
  newConfiguresInputTypes := newConfiguresInputTypes state;
  propertyList := propertyList state;
  secretList := secretList state;
  secretName := secretName state;
  editObject := editObject state;
  diff := diff state;
  eventBar :=
    take 60
      (lodash.orderBy (fun item => Event.startUnixTimestamp (Editor.event item))
         Z.compare lodash.desc
         (lodash.unionBy Editor.id
            [ [ {| id := Event.id event;
                   event := event;
                   logs := lodash.orderBy EventLog.unixTimestamp Z.compare
                             lodash.asc logs;
                   output := ∅ |} ];
              eventBar state ]));
  resources := resources state;
  currentResource := currentResource state
|}.

Definition updateResources (payload : Resource.t)
    (state : EditorStore) : EditorStore := {|
  mode := mode state;
  context := context state;
  mouseTrackSelection := mouseTrackSelection state;
  isSaving := isSaving state;
  editSaveError := editSaveError state;
  changeSetsOpen := changeSetsOpen state;
  Editor.changeSet := Editor.changeSet state;
  Editor.changeSetParticipantCount := Editor.changeSetParticipantCount state;
  Editor.editSession := Editor.editSession state;
  application := application state;
  system := system state;
  systems := systems state;
  nodes := nodes state;
  objects := objects state;
  edges := edges state;
  Editor.node := Editor.node state;
  directSuccessors := directSuccessors state;
  newConfiguresInputTypes := newConfiguresInputTypes state;
  propertyList := propertyList state;
  secretList := secretList state;
  secretName := secretName state;
  editObject := editObject state;
  diff := diff state;
  eventBar := eventBar state;
  resources := 
    lodash.orderBy Resource.id String.compare lodash.desc
      (lodash.unionBy Resource.id [ [payload]; resources state ]);
  currentResource := currentResource state
|}.

Definition node (payload : option Node.t)
    (state : EditorStore) : EditorStore := {|
  mode := mode state;
  context := context state;
  mouseTrackSelection := mouseTrackSelection state;
  isSaving := isSaving state;
  editSaveError := editSaveError state;
  changeSetsOpen := changeSetsOpen state;
  Editor.changeSet := Editor.changeSet state;
  Editor.changeSetParticipantCount := Editor.changeSetParticipantCount state;
  Editor.editSession := Editor.editSession state;
  application := application state;
  system := system state;
  systems := systems state;
  nodes := nodes state;
  objects := objects state;
  edges := edges state;
  Editor.node := payload;
  directSuccessors := directSuccessors state;
  newConfiguresInputTypes := newConfiguresInputTypes state;
  propertyList := propertyList state;
  secretList := secretList state;
  secretName := secretName state;
  editObject := editObject state;
  diff := diff state;
  eventBar := eventBar state;
  resources := resources state;
  currentResource := currentResource state
|}.

Definition updateNodes (payload : Node.t)
    (state : EditorStore) : EditorStore := {|
  mode := mode state;
  context := context state;
  mouseTrackSelection := mouseTrackSelection state;
  isSaving := isSaving state;
  editSaveError := editSaveError state;
  changeSetsOpen := changeSetsOpen state;
  Editor.changeSet := Editor.changeSet state;
  Editor.changeSetParticipantCount := Editor.changeSetParticipantCount state;
  Editor.editSession := Editor.editSession state;
  application := application state;
  system := system state;
  systems := systems state;
  nodes := lodash.unionBy Node.id [ [payload]; nodes state ];
  objects := objects state;
  edges := edges state;
  Editor.node := Editor.node state;
  directSuccessors := directSuccessors state;
  newConfiguresInputTypes := newConfiguresInputTypes state;
  propertyList := propertyList state;
  secretList := secretList state;
  secretName := secretName state;
  editObject := editObject state;
  diff := diff state;
  eventBar := eventBar state;
  resources := resources state;
  currentResource := currentResource state
|}.

Definition changeSetsOpenAdd (payload : ChangeSet.t)
    (state : EditorStore) : EditorStore := {|
  mode := mode state;
  context := context state;
  mouseTrackSelection := mouseTrackSelection state;
  isSaving := isSaving state;
  editSaveError := editSaveError state;
  changeSetsOpen := lodash.unionBy ChangeSet.id [ [payload]; changeSetsOpen state ];
  Editor.changeSet := Editor.changeSet state;
  Editor.changeSetParticipantCount := Editor.changeSetParticipantCount state;
  Editor.editSession := Editor.editSession state;
  application := application state;
  system := system state;
  systems := systems state;
  nodes := nodes state;
  objects := objects state;
  edges := edges state;
  Editor.node := Editor.node state;
  directSuccessors := directSuccessors state;
  newConfiguresInputTypes := newConfiguresInputTypes state;
  propertyList := propertyList state;
  secretList := secretList state;
  secretName := secretName state;
  editObject := editObject state;
  diff := diff state;
  eventBar := eventBar state;
  resources := resources state;
  currentResource := currentResource state
|}.

Definition changeSetsOpenRemove (payload : ChangeSet.t)
    (state : EditorStore) : EditorStore := {|
  mode := mode state;
  context := context state;
  mouseTrackSelection := mouseTrackSelection state;
  isSaving := isSaving state;
  editSaveError := editSaveError state;
  changeSetsOpen := lodash.remove ChangeSet.id (ChangeSet.id payload) (changeSetsOpen state);
  Editor.changeSet := Editor.changeSet state;
  Editor.changeSetParticipantCount := Editor.changeSetParticipantCount state;
  Editor.editSession := Editor.editSession state;
  application := application state;
  system := system state;
  systems := systems state;
  nodes := nodes state;
  objects := objects state;
  edges := edges state;
  Editor.node := Editor.node state;
  directSuccessors := directSuccessors state;
  newConfiguresInputTypes := newConfiguresInputTypes state;
  propertyList := propertyList state;
  secretList := secretList state;
  secretName := secretName state;
  editObject := editObject state;
  diff := diff state;
  eventBar := eventBar state;
  resources := resources state;
  currentResource := currentResource state
|}.

Definition changeSetParticipantCount (payload : Z)
    (state : EditorStore) : EditorStore := {|
  mode := mode state;
  context := context state;
  mouseTrackSelection := mouseTrackSelection state;
  isSaving := isSaving state;
  editSaveError := editSaveError state;
  changeSetsOpen := changeSetsOpen state;
  Editor.changeSet := Editor.changeSet state;
  Editor.changeSetParticipantCount := payload;
  Editor.editSession := Editor.editSession state;
  application := application state;
  system := system state;
  systems := systems state;
  nodes := nodes state;
  objects := objects state;
  edges := edges state;
  Editor.node := Editor.node state;
  directSuccessors := directSuccessors state;
  newConfiguresInputTypes := newConfiguresInputTypes state;
  propertyList := propertyList state;
  secretList := secretList state;
  secretName := secretName state;
  editObject := editObject state;
  diff := diff state;
  eventBar := eventBar state;
  resources := resources state;
  currentResource := currentResource state
|}.

Definition changeSet (payload : option ChangeSet.t)
    (state : EditorStore) : EditorStore := {|
  mode := mode state;
  context := context state;
  mouseTrackSelection := mouseTrackSelection state;
  isSaving := isSaving state;
  editSaveError := editSaveError state;
  changeSetsOpen := changeSetsOpen state;
  Editor.changeSet := payload;
  Editor.changeSetParticipantCount := Editor.changeSetParticipantCount state;
  Editor.editSession := Editor.editSession state;
  application := application state;
  system := system state;
  systems := systems state;
  nodes := nodes state;
  objects := objects state;
  edges := edges state;
  Editor.node := Editor.node state;
  directSuccessors := directSuccessors state;
  newConfiguresInputTypes := newConfiguresInputTypes state;
  propertyList := propertyList state;
  secretList := secretList state;
  secretName := secretName state;
  editObject := editObject state;
  diff := diff state;
  eventBar := eventBar state;
  resources := resources state;
  currentResource := currentResource state
|}.

Definition editSession (payload : option EditSession.t)
    (state : EditorStore) : EditorStore := {|
  mode := mode state;
  context := context state;
  mouseTrackSelection := mouseTrackSelection state;
  isSaving := isSaving state;
  editSaveError := editSaveError state;
  changeSetsOpen := changeSetsOpen state;
  Editor.changeSet := Editor.changeSet state;
  Editor.changeSetParticipantCount := Editor.changeSetParticipantCount state;
  Editor.editSession := payload;
  application := application state;
  system := system state;
  systems := systems state;
  nodes := nodes state;
  objects := objects state;
  edges := edges state;
  Editor.node := Editor.node state;
  directSuccessors := directSuccessors state;
  newConfiguresInputTypes := newConfiguresInputTypes state;
  propertyList := propertyList state;
  secretList := secretList state;
  secretName := secretName state;
  editObject := editObject state;
  diff := diff state;
  eventBar := eventBar state;
  resources := resources state;
  currentResource := currentResource state
|}.

End mutations.
(** A committed mutation: its type and payload. *)
Inductive Mutation : Type :=
| UpdateEventBar (event : Event.t) (logs : list EventLog.t)
| UpdateResources (payload : Resource.t)
| SetNode (payload : option Node.t)
| UpdateNodes (payload : Node.t)
| ChangeSetsOpenAdd (payload : ChangeSet.t)
| ChangeSetsOpenRemove (payload : ChangeSet.t)
| SetChangeSetParticipantCount (payload : Z)
| SetChangeSet (payload : option ChangeSet.t)
| SetEditSession (payload : option EditSession.t).

Definition handler (m : Mutation) : EditorStore -> EditorStore :=
  match m with
  | UpdateEventBar event logs => mutations.updateEventBar event logs
  | UpdateResources p => mutations.updateResources p
  | SetNode p => mutations.node p
  | UpdateNodes p => mutations.updateNodes p
  | ChangeSetsOpenAdd p => mutations.changeSetsOpenAdd p
  | ChangeSetsOpenRemove p => mutations.changeSetsOpenRemove p
  | SetChangeSetParticipantCount p => mutations.changeSetParticipantCount p
  | SetChangeSet p => mutations.changeSet p
  | SetEditSession p => mutations.editSession p
  end.

Record IEditSessionCreateRequest : Type := {
  request_name : string;
  workspaceId : string;
  organizationId : string
}.

Record ActionSetChangeSet : Type := { setChangeSet_id : option string }.

(** A request sent to the backend. *)
Inductive Request : Type :=
| EditSession_create (changeSetId : string) (request : IEditSessionCreateRequest)
| ChangeSet_get (id : string)
| Node_get (id : string)
| Entity_node (entity : Entity.t)
| Node_successors (node : Node.t)
| Resource_getByEntityIdAndSystemId (entityId systemId : string).

(** What an action leaves behind besides the new store. *)
Inductive Effect : Type :=
| Commit (m : Mutation)
| RouterReplace (query : string) (value : option string)
| Dispatch_setChangeSet (payload : ActionSetChangeSet)
| Call (r : Request)
| Suspend (action : string).

(** The backend, as the way each request settles, and the clock. *)
Record Backend : Type := {
  editSession_create :
    string -> IEditSessionCreateRequest -> Outcome EditSession.t;
  entity_node : Entity.t -> Outcome Node.t;
  node_successors : Node.t -> Outcome (list Node.t);
  resource_getByEntityIdAndSystemId : string -> string -> Outcome Resource.t;
  toISOString : string
}.

Record RootGetters : Type := {
  workspace_current : option Workspace.t;
  organization_current : option Organization.t;
  user_current : option User.t
}.

Definition Act (A : Type) : Type := Action EditorStore Effect A.

(** The mutations [node], [changeSet] and [editSession] also replace the
    matching entry of the route query. *)
Definition router (m : Mutation) : Act unit :=
  match m with
  | SetNode p => emit (RouterReplace "nodeId" (Node.id <$> p))
  | SetChangeSet p => emit (RouterReplace "changeSetId" (ChangeSet.id <$> p))
  | SetEditSession p =>
      emit (RouterReplace "editSessionId" (EditSession.id <$> p))
  | _ => ret tt
  end.

Definition commit (m : Mutation) : Act unit :=
  emit (Commit m) ;; modify (handler m) ;; router m.

(** [object.property] where [object] may be undefined. *)
Definition member {A B} (property : string) (object : option A)
    (project : A -> B) : Act B :=
  match object with
  | Some o => ret (project o)
  | None =>
      throw (TypeError
               ("Cannot read properties of undefined (reading '"
                  +:+ property +:+ "')"))
  end.

(** [a?.id == b] for a string [b] *)
Definition same_id (a : option string) (b : string) : bool :=
  match a with
  | Some a => String.eqb a b
  | None => false
  end.

(** Truthiness of [string | undefined] *)
Definition truthy (s : option string) : bool :=
  match s with
  | Some s => negb (String.eqb s "")
  | None => false
  end.

Module actions.

Definition editSessionCreate (api : Backend) (rootGetters : RootGetters)
  : Act unit :=
  state <~ read ;;
  match Editor.changeSet state with
  | None => throw (Error "cannot start an edit session without a change set!")
  | Some changeSet =>
      userName <~ member "name" (user_current rootGetters) User.name ;;
      let name := userName +:+ " " +:+ toISOString api in
      workspaceId <~
        member "id" (workspace_current rootGetters) Workspace.id ;;
      organizationId <~
        member "id" (organization_current rootGetters) Organization.id ;;
      let request :=
        {| request_name := name;
           workspaceId := workspaceId;
           organizationId := organizationId |} in
      emit (Call (EditSession_create (ChangeSet.id changeSet) request)) ;;
      editSession <~
        await (editSession_create api (ChangeSet.id changeSet) request) ;;
      commit (SetEditSession (Some editSession))
  end.

(** [setChangeSet] up to its first [await]: this is what has run when
    [dispatch] returns to a caller that does not wait for it. *)
Definition setChangeSet (payload : ActionSetChangeSet) : Act unit :=
  if truthy (setChangeSet_id payload) then
    emit (Call (ChangeSet_get (default "" (setChangeSet_id payload)))) ;;
    emit (Suspend "setChangeSet")
  else
    commit (SetChangeSet None) ;;
    commit (SetChangeSetParticipantCount 0) ;;
    state <~ read ;;
    match application state with
    | Some application =>
        emit (Call (Node_get (Entity.nodeId application))) ;;
        emit (Suspend "setChangeSet")
    | None => ret tt
    end.

Definition fromNode (api : Backend) (payload : Node.t) : Act unit :=
  state <~ read ;;
  match application state with
  | Some application =>
      emit (Call (Entity_node application)) ;;
      appNode <~ await (entity_node api application) ;;
      emit (Call (Node_successors appNode)) ;;
      successors <~ await (node_successors api appNode) ;;
      match lodash.find Node.id (Node.id payload) successors with
      | Some _ =>
          commit (UpdateNodes payload) ;;
          state <~ read ;;
          (if same_id (Node.id <$> Editor.node state) (Node.id payload)
           then commit (SetNode (Some payload))
           else ret tt) ;;
          state <~ read ;;
          match system state with
          | Some system =>
              emit (Call (Resource_getByEntityIdAndSystemId
                            (Node.id payload) (System.id system))) ;;
              resource <~
                await (resource_getByEntityIdAndSystemId api
                         (Node.id payload) (System.id system)) ;;
              commit (UpdateResources resource)
          | None => ret tt
          end
      | None => ret tt
      end
  | None => ret tt
  end.

Definition fromChangeSet (payload : ChangeSet.t) : Act unit :=
  match ChangeSet.status payload with
  | ChangeSetStatus.Open => commit (ChangeSetsOpenAdd payload)
  | ChangeSetStatus.Other _ =>
      state <~ read ;;
      (if same_id (ChangeSet.id <$> Editor.changeSet state)
            (ChangeSet.id payload)
       then
         emit (Dispatch_setChangeSet {| setChangeSet_id := None |}) ;;
         setChangeSet {| setChangeSet_id := None |}
       else ret tt) ;;
      commit (ChangeSetsOpenRemove payload)
  end.

End actions.

(** *** Notions used in the statements *)

Definition no_change_set : Exception :=
  Error "cannot start an edit session without a change set!".

(** The request the action builds once every getter has a value. *)
Definition create_request (api : Backend) (user : User.t)
    (workspace : Workspace.t) (organization : Organization.t)
  : IEditSessionCreateRequest := {|
  request_name := User.name user +:+ " " +:+ toISOString api;
  workspaceId := Workspace.id workspace;
  organizationId := Organization.id organization
|}.

(** The store once the dispatched [setChangeSet] has reached its first
    [await]. *)
Definition unselected (state : EditorStore) : EditorStore :=
  mutations.changeSetParticipantCount 0 (mutations.changeSet None state).

Definition startUnixTimestamp (item : EventBarItem) : Z :=
  Event.startUnixTimestamp (event item).

(** At most 60 items, one item for an event id, newest start first. *)
Definition event_bar_ok (bar : list EventBarItem) : Prop :=
  (length bar <= 60)%nat /\
  NoDup (id <$> bar) /\
  StronglySorted (lodash.descending startUnixTimestamp) bar.

(** The item [updateEventBar] builds for an event. *)
Definition item_of (event : Event.t) (logs : list EventLog.t) : EventBarItem := {|
  id := Event.id event;
  event := event;
  logs := lodash.orderBy EventLog.unixTimestamp Z.compare lodash.asc logs;
  output := ∅
|}.

(** Any run of [updateEventBar] mutations from the initial store. *)
Definition pushes (updates : list (Event.t * list EventLog.t)) : EditorStore :=
  foldl (fun state update => mutations.updateEventBar update.1 update.2 state)
    Editor.state updates.

(** *** Scenarios *)

Definition first : ChangeSet.t := {|
  ChangeSet.id := "changeSet:1";
  ChangeSet.name := "first";
  ChangeSet.status := ChangeSetStatus.Open
|}.

Definition first_closed : ChangeSet.t := {|
  ChangeSet.id := "changeSet:1";
  ChangeSet.name := "first";
  ChangeSet.status := ChangeSetStatus.Other "closed"
|}.

Definition second : ChangeSet.t := {|
  ChangeSet.id := "changeSet:2";
  ChangeSet.name := "second";
  ChangeSet.status := ChangeSetStatus.Open
|}.

Definition demo : Entity.t :=
  {| Entity.id := "entity:1"; Entity.nodeId := "node:1"; Entity.head := true |}.

Definition service : Node.t :=
  {| Node.id := "node:2"; Node.objectType := "service" |}.

Definition stranger : Node.t :=
  {| Node.id := "node:9"; Node.objectType := "service" |}.

(** An editor with an application and a change set selected. *)
Definition working : EditorStore := {|
  mode := view;
  context := "application.entity:1";
  mouseTrackSelection := None;
  isSaving := false;
  editSaveError := None;
  changeSetsOpen := [first];
  changeSet := Some first;
  changeSetParticipantCount := 1%Z;
  editSession := None;
  application := Some demo;
  system := None;
  systems := [];
  nodes := [service];
  objects := ∅;
  edges := [];
  node := None;
  directSuccessors := [];
  newConfiguresInputTypes := [];
  propertyList := [];
  secretList := None;
  secretName := None;
  editObject := None;
  diff := {| entries := []; count := 0%Z |};
  eventBar := [];
  resources := [];
  currentResource := None
|}.

Definition sdf : Backend := {|
  editSession_create := fun changeSetId request =>
    Returned {| EditSession.id := "editSession:1";
                EditSession.name := request_name request;
                EditSession.changeSetId := changeSetId |};
  entity_node := fun entity =>
    Returned {| Node.id := Entity.nodeId entity;
                Node.objectType := "application" |};
  node_successors := fun _ => Returned [service];
  resource_getByEntityIdAndSystemId := fun entityId systemId =>
    Returned {| Resource.id := "resource:1";
                Resource.nodeId := entityId;
                Resource.systemId := systemId |};
  toISOString := "2021-03-04T05:06:07.000Z"
|}.

Definition signed_in : RootGetters := {|
  workspace_current := Some {| Workspace.id := "workspace:1" |};
  organization_current := Some {| Organization.id := "organization:1" |};
  user_current := Some {| User.name := "alice" |}
|}.

Definition deploy : Event.t :=
  {| Event.id := "event:1"; Event.startUnixTimestamp := 1614834367%Z |}.

Definition sync : Event.t :=
  {| Event.id := "event:2"; Event.startUnixTimestamp := 1614834400%Z |}.

Definition deploy_again : Event.t :=
  {| Event.id := "event:1"; Event.startUnixTimestamp := 1614834500%Z |}.

End Editor.

Module ExternalProviders.

Inductive json : Type :=
| JNull
| JBool (b : bool)
| JNumber (n : Z)
| JString (s : string)
| JArray (items : list json)
| JObject (members : list (string * json)).

(** SQL values: [None] is NULL. *)
Definition bigint : Type := Z.
Definition timestamptz : Type := Z.

(** The composite types the two conversion functions return, with the
    fields the procedure reads from them. *)
Module tenancy_record_v1.
Record t : Type := {
  tenancy_universal : option bool;
  tenancy_billing_account_ids : option (list bigint);
  tenancy_organization_ids : option (list bigint);
  tenancy_workspace_ids : option (list bigint)
}.
End tenancy_record_v1.

Module visibility_record_v1.
Record t : Type := {
  visibility_change_set_pk : option bigint;
  visibility_edit_session_pk : option bigint;
  visibility_deleted_at : option timestamptz
}.
End visibility_record_v1.

(** [external_providers%ROWTYPE]; the columns declared NOT NULL carry a
    value, the others may be NULL. *)
Record external_providers_row : Type := {
  pk : bigint;
  id : bigint;
  tenancy_universal : bool;
  tenancy_billing_account_ids : option (list bigint);
  tenancy_organization_ids : option (list bigint);
  tenancy_workspace_ids : option (list bigint);
  visibility_change_set_pk : option bigint;
  visibility_edit_session_pk : option bigint;
  visibility_deleted_at : option timestamptz;
  attribute_context_prop_id : option bigint;
  attribute_context_schema_id : option bigint;
  attribute_context_schema_variant_id : option bigint;
  attribute_context_component_id : option bigint;
  attribute_context_system_id : option bigint;
  created_at : timestamptz;
  updated_at : timestamptz;
  prop_id : option bigint;
  schema_id : option bigint;
  schema_variant_id : option bigint;
  name : option string;
  type_definition : option string;
  attribute_prototype_id : option bigint
}.

Record standard_models_row : Type := {
  table_name : string;
  table_type : string;
  history_event_label_base : string;
  history_event_message_name : string
}.

(** The database: the table of the migration, the two sequences behind its
    [bigserial] columns (their last value), and every other table.  Of the
    constraints on [external_providers] the model has those of its CREATE
    TABLE: the NOT NULL columns and the primary key. *)
Record Database : Type := {
  external_providers : list external_providers_row;
  external_providers_pk_seq : bigint;
  external_providers_id_seq : bigint;
  standard_models : list standard_models_row;
  other_tables : gmap string (list json)
}.

Inductive SqlError : Type :=
| not_null_violation (column : string)
| unique_violation (constraint : string).

(** A statement either completes, or raises and leaves the tables as they
    were; a sequence keeps the values it handed out either way. *)
Inductive Result (A : Type) : Type :=
| Done (a : A) (db : Database)
| Raised (e : SqlError) (db : Database).
Arguments Done {A} a db.
Arguments Raised {A} e db.

Definition nullable {A} (render : A -> json) (v : option A) : json :=
  match v with
  | Some a => render a
  | None => JNull
  end.

Definition bigint_array (ids : list bigint) : json := JArray (JNumber <$> ids).

Section Procedure.

(** Defined by earlier migrations: the two conversions from json to
    columns, and the text form of a timestamp in the session's time zone. *)
Variable tenancy_json_to_columns_v1 : option json -> tenancy_record_v1.t.
Variable visibility_json_to_columns_v1 : option json -> visibility_record_v1.t.
Variable timestamptz_out : timestamptz -> string.

Definition timestamp (ts : timestamptz) : json := JString (timestamptz_out ts).

(** [row_to_json]: one member per column, in column order. *)
Definition row_to_json (r : external_providers_row) : json :=
  JObject
    [ ("pk", JNumber (pk r));
      ("id", JNumber (id r));
      ("tenancy_universal", JBool (tenancy_universal r));
      ("tenancy_billing_account_ids",
        nullable bigint_array (tenancy_billing_account_ids r));
      ("tenancy_organization_ids",
        nullable bigint_array (tenancy_organization_ids r));
      ("tenancy_workspace_ids",
        nullable bigint_array (tenancy_workspace_ids r));
      ("visibility_change_set_pk",
        nullable JNumber (visibility_change_set_pk r));
      ("visibility_edit_session_pk",
        nullable JNumber (visibility_edit_session_pk r));
      ("visibility_deleted_at", nullable timestamp (visibility_deleted_at r));
      ("attribute_context_prop_id",
        nullable JNumber (attribute_context_prop_id r));
      ("attribute_context_schema_id",
        nullable JNumber (attribute_context_schema_id r));
      ("attribute_context_schema_variant_id",
        nullable JNumber (attribute_context_schema_variant_id r));
      ("attribute_context_component_id",
        nullable JNumber (attribute_context_component_id r));
      ("attribute_context_system_id",
        nullable JNumber (attribute_context_system_id r));
      ("created_at", timestamp (created_at r));
      ("updated_at", timestamp (updated_at r));
      ("prop_id", nullable JNumber (prop_id r));
      ("schema_id", nullable JNumber (schema_id r));
      ("schema_variant_id", nullable JNumber (schema_variant_id r));
      ("name", nullable JString (name r));
      ("type_definition", nullable JString (type_definition r));
      ("attribute_prototype_id",
        nullable JNumber (attribute_prototype_id r)) ].

(** The state after both [nextval] calls of the column defaults. *)
Definition advance (db : Database) : Database := {|
  external_providers := external_providers db;
  external_providers_pk_seq := (external_providers_pk_seq db + 1)%Z;
  external_providers_id_seq := (external_providers_id_seq db + 1)%Z;
  standard_models := standard_models db;
  other_tables := other_tables db
|}.

Definition insert (r : external_providers_row) (db : Database) : Database := {|
  external_providers := external_providers db ++ [r];
  external_providers_pk_seq := external_providers_pk_seq db;
  external_providers_id_seq := external_providers_id_seq db;
  standard_models := standard_models db;
  other_tables := other_tables db
|}.

(** [now] is the value of [NOW()] in the calling transaction. *)
Definition external_provider_create_v1 (now : timestamptz)
    (this_tenancy this_visibility : option json)
    (this_prop_id this_schema_id this_schema_variant_id : option bigint)
    (this_name this_type_definition : option string)
    (this_attribute_prototype_id : option bigint)
    (db : Database) : Result json :=
  let this_tenancy_record := tenancy_json_to_columns_v1 this_tenancy in
  let this_visibility_record :=
    visibility_json_to_columns_v1 this_visibility in
  let db := advance db in
  match tenancy_record_v1.tenancy_universal this_tenancy_record with
  | None => Raised (not_null_violation "tenancy_universal") db
  | Some universal =>
      let this_new_row := {|
        pk := external_providers_pk_seq db;
        id := external_providers_id_seq db;
        tenancy_universal := universal;
        tenancy_billing_account_ids :=
          tenancy_record_v1.tenancy_billing_account_ids this_tenancy_record;
        tenancy_organization_ids :=
          tenancy_record_v1.tenancy_organization_ids this_tenancy_record;
        tenancy_workspace_ids :=
          tenancy_record_v1.tenancy_workspace_ids this_tenancy_record;
        visibility_change_set_pk :=
          visibility_record_v1.visibility_change_set_pk
            this_visibility_record;
        visibility_edit_session_pk :=
          visibility_record_v1.visibility_edit_session_pk
            this_visibility_record;
        visibility_deleted_at :=
          visibility_record_v1.visibility_deleted_at this_visibility_record;
        attribute_context_prop_id := None;
        attribute_context_schema_id := None;
        attribute_context_schema_variant_id := None;
        attribute_context_component_id := None;
        attribute_context_system_id := None;
        created_at := now;
        updated_at := now;
        prop_id := this_prop_id;
        schema_id := this_schema_id;
        schema_variant_id := this_schema_variant_id;
        name := this_name;
        type_definition := this_type_definition;
        attribute_prototype_id := this_attribute_prototype_id
      |} in
      if bool_decide (pk this_new_row ∈ pk <$> external_providers db)
      then Raised (unique_violation "external_providers_pkey") db
      else Done (row_to_json this_new_row) (insert this_new_row db)
  end.

End Procedure.

(** The primary key sequence has handed out every key in the table: rows
    get their [pk] from the column default only.  The procedure keeps this
    true. *)
Definition keys_from_sequence (db : Database) : Prop :=
  Forall (fun r => (pk r <= external_providers_pk_seq db)%Z)
    (external_providers db).

(** *** Scenario *)

Definition universal_tenancy (_ : option json) : tenancy_record_v1.t := {|
  tenancy_record_v1.tenancy_universal := Some true;
  tenancy_record_v1.tenancy_billing_account_ids := None;
  tenancy_record_v1.tenancy_organization_ids := None;
  tenancy_record_v1.tenancy_workspace_ids := None
|}.

Definition head_visibility (_ : option json) : visibility_record_v1.t := {|
  visibility_record_v1.visibility_change_set_pk := Some (-1)%Z;
  visibility_record_v1.visibility_edit_session_pk := Some (-1)%Z;
  visibility_record_v1.visibility_deleted_at := None
|}.

Definition epoch (_ : timestamptz) : string := "1970-01-01T00:00:00+00:00".

Definition migrated : Database := {|
  external_providers := [];
  external_providers_pk_seq := 0%Z;
  external_providers_id_seq := 0%Z;
  standard_models :=
    [ {| table_name := "external_providers";
         table_type := "model";
         history_event_label_base := "external_provider";
         history_event_message_name := "Output Provider" |} ];
  other_tables := ∅
|}.

(** A conversion in the manner of [jsonb_to_record]: a column is the member
    of its name, and NULL when the json has no such member. *)
Definition member (tenancy : option json) (column : string) : option json :=
  match tenancy with
  | Some (JObject members) => own members column
  | _ => None
  end.

Definition bigints (value : option json) : option (list bigint) :=
  match value with
  | Some (JArray items) =>
      Some (omap (fun item => match item with
                              | JNumber n => Some n
                              | _ => None
                              end) items)
  | _ => None
  end.

Definition tenancy_of_members (tenancy : option json) : tenancy_record_v1.t := {|
  tenancy_record_v1.tenancy_universal :=
    match member tenancy "tenancy_universal" with
    | Some (JBool universal) => Some universal
    | _ => None
    end;
  tenancy_record_v1.tenancy_billing_account_ids :=
    bigints (member tenancy "tenancy_billing_account_ids");
  tenancy_record_v1.tenancy_organization_ids :=
    bigints (member tenancy "tenancy_organization_ids");
  tenancy_record_v1.tenancy_workspace_ids :=
    bigints (member tenancy "tenancy_workspace_ids")
|}.

(** The table loaded with a row under an explicit key, the sequences left
    where they were. *)
Definition loaded : Database := {|
  external_providers :=
    [ {| pk := 1%Z; id := 1%Z;
         tenancy_universal := true;
         tenancy_billing_account_ids := None;
         tenancy_organization_ids := None;
         tenancy_workspace_ids := None;
         visibility_change_set_pk := Some (-1)%Z;
         visibility_edit_session_pk := Some (-1)%Z;
         visibility_deleted_at := None;
         attribute_context_prop_id := None;
         attribute_context_schema_id := None;
         attribute_context_schema_variant_id := None;
         attribute_context_component_id := None;
         attribute_context_system_id := None;
         created_at := 0%Z;
         updated_at := 0%Z;
         prop_id := None;
         schema_id := None;
         schema_variant_id := None;
         name := Some "loaded";
         type_definition := None;
         attribute_prototype_id := None |} ];
  external_providers_pk_seq := 0%Z;
  external_providers_id_seq := 0%Z;
  standard_models := standard_models migrated;
  other_tables := ∅
|}.

End ExternalProviders.

Module ExistsCheck.

(** A double, as far as its truthiness goes: not-a-number, an infinity, or
    a signed magnitude [mantissa * 2 ^ exponent]. *)
Inductive Number : Type :=
| NaN
| Infinity (negative : bool)
| Finite (negative : bool) (mantissa : N) (exponent : Z).

Inductive JsValue : Type :=
| JsUndefined
| JsNull
| JsBoolean (b : bool)
| JsNumber (n : Number)
| JsString (s : string)
| JsObject (properties : list (string * JsValue)).

Record Input : Type := {
  resource : JsValue;
  deleted_at : JsValue
}.

Record Output : Type := {
  success : bool;
  recommendedActions : list string
}.

Definition truthy (v : JsValue) : bool :=
  match v with
  | JsUndefined | JsNull => false
  | JsBoolean b => b
  | JsNumber NaN => false
  | JsNumber (Infinity _) => true
  | JsNumber (Finite _ mantissa _) => negb (N.eqb mantissa 0)
  | JsString s => negb (String.eqb s "")
  | JsObject _ => true
  end.

(** [resource?.value]: undefined for a nullish resource; otherwise the own
    property of that name.  Neither [Object.prototype] nor the prototype of a
    primitive's wrapper has a member called [value]. *)
Definition optional_value (resource : JsValue) : JsValue :=
  match resource with
  | JsUndefined | JsNull => JsUndefined
  | JsObject properties => default JsUndefined (own properties "value")
  | JsBoolean _ | JsNumber _ | JsString _ => JsUndefined
  end.

(** [a && b] *)
Definition and_then (a b : JsValue) : JsValue :=
  if truthy a then b else a.

Definition exists_ (input : Input) : Outcome Output :=
  if truthy (and_then (optional_value (resource input))
               (deleted_at input))
  then Returned {| success := false; recommendedActions := ["delete"] |}
  else Returned {| success := true; recommendedActions := [] |}.

(** The falsy values of the language: [undefined], [null], [false], [NaN],
    the zeros and the empty string.  Every other value is truthy. *)
Inductive Falsy : JsValue -> Prop :=
| falsy_undefined : Falsy JsUndefined
| falsy_null : Falsy JsNull
| falsy_false : Falsy (JsBoolean false)
| falsy_NaN : Falsy (JsNumber NaN)
| falsy_zero negative exponent : Falsy (JsNumber (Finite negative 0 exponent))
| falsy_empty : Falsy (JsString "").

End ExistsCheck.

(** ** Arrays of strings *)
Module JsArray.

(** [pieces.join(separator)] *)
Fixpoint join (separator : string) (pieces : list string) : string :=
  match pieces with
  | [] => ""
  | [piece] => piece
  | piece :: more => piece +:+ separator +:+ join separator more
  end.

End JsArray.

Module IconNames.

(** The icons a table holds. *)
Definition icons (table : list (string * IconRegistry.Asset))
  : list IconRegistry.Asset :=
  snd <$> table.

End IconNames.

(** ** Registering the application context module

    [registerApplicationContext] and [unregisterApplicationContext] work on
    the module tree of the Vuex store, addressed by paths. *)
Module ApplicationContextRegistry.
Import ApplicationContext.

Local Open Scope action_scope.

(** An instance store context with the two fields the registry reads. *)
Record Instance : Type := {
  ctx : InstanceStoreContext;
  storeName : string;
  instanceId : string
}.

(** The module tree: the paths that are registered, and the state of the
    application context modules among them. *)
Record SiVuexStore : Type := {
  registered : gset (list string);
  instances : gmap (list string) ApplicationContextStore
}.

Definition hasModule (path : list string) (store : SiVuexStore) : bool :=
  bool_decide (path ∈ registered store).

(** [store.registerModule(path, applicationContext)]: the module starts
    from [state()]. *)
Definition registerModule (path : list string) (store : SiVuexStore)
  : SiVuexStore := {|
  registered := registered store ∪ {[ path ]};
  instances := <[ path := ApplicationContext.state ]> (instances store)
|}.

Definition unregisterModule (path : list string) (store : SiVuexStore)
  : SiVuexStore := {|
  registered := registered store ∖ {[ path ]};
  instances := delete path (instances store)
|}.

(** A dispatch on the root store, with the action path it was given. *)
Inductive Dispatched : Type :=
| Dispatch (path : string) (payload : InstanceStoreContext).

(** The module tree with the [setStatusBarCtx] action of the module at
    [path] run: the action commits the mutation of that name on the
    module's own state. *)
Definition setStatusBarCtx_at (path : list string)
    (payload : InstanceStoreContext) (modules : SiVuexStore) : SiVuexStore := {|
  registered := registered modules;
  instances :=
    alter (fun state => store (actions.setStatusBarCtx payload state))
      path (instances modules)
|}.

(** [await store.dispatch(ctx.dispatchPath("setStatusBarCtx"), payload)].
    An instance store context addresses the actions of its own module, the
    one at [storeName, instanceId]: the dispatch is recorded with the path
    the context built, and the module's [setStatusBarCtx] has run when the
    promise resolves. *)
Definition dispatch_setStatusBarCtx (applicationContextCtx : Instance)
    (payload : InstanceStoreContext) : Action SiVuexStore Dispatched unit :=
  emit (Dispatch
          (dispatchPath (ctx applicationContextCtx) (Some "setStatusBarCtx"))
          payload) ;;
  modify (setStatusBarCtx_at [storeName applicationContextCtx;
                              instanceId applicationContextCtx] payload).

Definition registerApplicationContext
    (applicationContextCtx : Instance) (statusBarCtx : InstanceStoreContext)
  : Action SiVuexStore Dispatched unit :=
  store <~ read ;;
  if hasModule [storeName applicationContextCtx] store
     && negb (hasModule [storeName applicationContextCtx;
                         instanceId applicationContextCtx] store)
  then
    modify (registerModule [storeName applicationContextCtx;
                            instanceId applicationContextCtx]) ;;
    dispatch_setStatusBarCtx applicationContextCtx statusBarCtx
  else ret tt.

Definition unregisterApplicationContext (ctx : Instance)
  : Action SiVuexStore Dispatched unit :=
  store <~ read ;;
  if hasModule [storeName ctx; instanceId ctx] store
  then modify (unregisterModule [storeName ctx; instanceId ctx])
  else ret tt.

(** *** Scenarios *)

(** A backend that accepts every request. *)
Definition accepting : ApplicationContextDal := {|
  getApplicationContext := fun _ =>
    Success {| reply_applicationName := "demo";
               reply_systemsList :=
                 [ {| value := "system:1"; label := "production" |} ];
               reply_openChangeSetsList :=
                 [ {| value := "changeSet:1"; label := "first" |} ] |};
  getChangeSetAndEditSession := fun _ =>
    Success {| changeSet := {| id := "changeSet:1"; name := "first" |};
               editSession := {| editSessionId := "editSession:1" |} |};
  createEditSessionAndGetChangeSet := fun _ =>
    Success {| changeSet := {| id := "changeSet:1"; name := "first" |};
               editSession := {| editSessionId := "editSession:1" |} |};
  createChangeSetAndEditSession := fun _ =>
    Success {| changeSet := {| id := "changeSet:2"; name := "second" |};
               editSession := {| editSessionId := "editSession:2" |} |};
  createEditSession := fun _ =>
    Success {| editSessionId := "editSession:2" |};
  cancelEditSession := fun _ => Success tt
|}.

Definition attributes_ctx : InstanceStoreContext := {|
  activateName := "attributes";
  dispatchPath := fun action => "attributes/" +:+ default "" action
|}.

Definition application_instance : Instance := {|
  ctx := {| activateName := "applicationContext";
            dispatchPath := fun action =>
              "applicationContext/1/" +:+ default "" action |};
  storeName := "applicationContext";
  instanceId := "1"
|}.

(** A store with the static modules and no instance yet. *)
Definition booted : SiVuexStore := {|
  registered := {[ ["applicationContext"]; ["statusBar"] ]};
  instances := ∅
|}.

End ApplicationContextRegistry.

(** ** More of the editor module *)
Module EditorOps.
Import Editor.

Local Open Scope action_scope.

(** [_.isEqual] on edit sessions is equality of their fields. *)
#[global] Instance EditSession_eq_dec : EqDecision EditSession.t.
Proof. solve_decision. Defined.

(** An entity as the server pushes it. *)
Module PushedEntity.
Record t : Type := {
  id : string;
  nodeId : string;
  head : bool;
  changeSetId : string;
  deleted : bool
}.
End PushedEntity.

(** The entity as an entry of [state.objects]. *)
Definition as_object (entity : PushedEntity.t) : NodeObject.t := {|
  NodeObject.nodeId := PushedEntity.nodeId entity;
  NodeObject.head := PushedEntity.head entity;
  NodeObject.deleted := PushedEntity.deleted entity
|}.

Module mutations.

Definition currentResource (payload : option Resource.t)
    (state : EditorStore) : EditorStore := {|
  Editor.mode := Editor.mode state;
  Editor.context := Editor.context state;
  Editor.mouseTrackSelection := Editor.mouseTrackSelection state;
  Editor.isSaving := Editor.isSaving state;
  Editor.editSaveError := Editor.editSaveError state;
  Editor.changeSetsOpen := Editor.changeSetsOpen state;
  Editor.changeSet := Editor.changeSet state;
  Editor.changeSetParticipantCount := Editor.changeSetParticipantCount state;
  Editor.editSession := Editor.editSession state;
  Editor.application := Editor.application state;
  Editor.system := Editor.system state;
  Editor.systems := Editor.systems state;
  Editor.nodes := Editor.nodes state;
  Editor.objects := Editor.objects state;
  Editor.edges := Editor.edges state;
  Editor.node := Editor.node state;
  Editor.directSuccessors := Editor.directSuccessors state;
  Editor.newConfiguresInputTypes := Editor.newConfiguresInputTypes state;
  Editor.propertyList := Editor.propertyList state;
  Editor.secretList := Editor.secretList state;
  Editor.secretName := Editor.secretName state;
  Editor.editObject := Editor.editObject state;
  Editor.diff := Editor.diff state;
  Editor.eventBar := Editor.eventBar state;
  Editor.resources := Editor.resources state;
  Editor.currentResource := payload
|}.

(** [Vue.set(state.objects, payload.nodeId, payload)] *)
Definition updateObjects (payload : NodeObject.t)
    (state : EditorStore) : EditorStore := {|
  Editor.mode := Editor.mode state;
  Editor.context := Editor.context state;
  Editor.mouseTrackSelection := Editor.mouseTrackSelection state;
  Editor.isSaving := Editor.isSaving state;
  Editor.editSaveError := Editor.editSaveError state;
  Editor.changeSetsOpen := Editor.changeSetsOpen state;
  Editor.changeSet := Editor.changeSet state;
  Editor.changeSetParticipantCount := Editor.changeSetParticipantCount state;
  Editor.editSession := Editor.editSession state;
  Editor.application := Editor.application state;
  Editor.system := Editor.system state;
  Editor.systems := Editor.systems state;
  Editor.nodes := Editor.nodes state;
  Editor.objects := <[ NodeObject.nodeId payload := payload ]> (Editor.objects state);
  Editor.edges := Editor.edges state;
  Editor.node := Editor.node state;
  Editor.directSuccessors := Editor.directSuccessors state;
  Editor.newConfiguresInputTypes := Editor.newConfiguresInputTypes state;
  Editor.propertyList := Editor.propertyList state;
  Editor.secretList := Editor.secretList state;
  Editor.secretName := Editor.secretName state;
  Editor.editObject := Editor.editObject state;
  Editor.diff := Editor.diff state;
  Editor.eventBar := Editor.eventBar state;
  Editor.resources := Editor.resources state;
  Editor.currentResource := Editor.currentResource state
|}.

Definition setMode (mode : Mode)
    (state : EditorStore) : EditorStore := {|
  Editor.mode := mode;
  Editor.context := Editor.context state;
  Editor.mouseTrackSelection := Editor.mouseTrackSelection state;
  Editor.isSaving := Editor.isSaving state;
  Editor.editSaveError := Editor.editSaveError state;
  Editor.changeSetsOpen := Editor.changeSetsOpen state;
  Editor.changeSet := Editor.changeSet state;
  Editor.changeSetParticipantCount := Editor.changeSetParticipantCount state;
  Editor.editSession := Editor.editSession state;
  Editor.application := Editor.application state;
  Editor.system := Editor.system state;
  Editor.systems := Editor.systems state;
  Editor.nodes := Editor.nodes state;
  Editor.objects := Editor.objects state;
  Editor.edges := Editor.edges state;
  Editor.node := Editor.node state;
  Editor.directSuccessors := Editor.directSuccessors state;
  Editor.newConfiguresInputTypes := Editor.newConfiguresInputTypes state;
  Editor.propertyList := Editor.propertyList state;
  Editor.secretList := Editor.secretList state;
  Editor.secretName := Editor.secretName state;
  Editor.editObject := Editor.editObject state;
  Editor.diff := Editor.diff state;
  Editor.eventBar := Editor.eventBar state;
  Editor.resources := Editor.resources state;
  Editor.currentResource := Editor.currentResource state
|}.

Definition diff (payload : DiffResult)
    (state : EditorStore) : EditorStore := {|
  Editor.mode := Editor.mode state;
  Editor.context := Editor.context state;
  Editor.mouseTrackSelection := Editor.mouseTrackSelection state;
  Editor.isSaving := Editor.isSaving state;
  Editor.editSaveError := Editor.editSaveError state;
  Editor.changeSetsOpen := Editor.changeSetsOpen state;
  Editor.changeSet := Editor.changeSet state;
  Editor.changeSetParticipantCount := Editor.changeSetParticipantCount state;
  Editor.editSession := Editor.editSession state;
  Editor.application := Editor.application state;
  Editor.system := Editor.system state;
  Editor.systems := Editor.systems state;
  Editor.nodes := Editor.nodes state;
  Editor.objects := Editor.objects state;
  Editor.edges := Editor.edges state;
  Editor.node := Editor.node state;
  Editor.directSuccessors := Editor.directSuccessors state;
  Editor.newConfiguresInputTypes := Editor.newConfiguresInputTypes state;
  Editor.propertyList := Editor.propertyList state;
  Editor.secretList := Editor.secretList state;
  Editor.secretName := Editor.secretName state;
  Editor.editObject := Editor.editObject state;
  Editor.diff := payload;
  Editor.eventBar := Editor.eventBar state;
  Editor.resources := Editor.resources state;
  Editor.currentResource := Editor.currentResource state
|}.

(** [clear] assigns the fields below and empties the module's table of
    debounced position setters, given here by the node ids it has. *)
Definition clear (state : EditorStore) (SET_POSITION_FUNCTIONS : gset string)
  : EditorStore * gset string :=
  ({|
     Editor.mode := view;
     Editor.context := "none";
     Editor.mouseTrackSelection := None;
     Editor.isSaving := false;
     Editor.editSaveError := None;
     Editor.changeSetsOpen := [];
     Editor.changeSet := None;
     Editor.changeSetParticipantCount := 0%Z;
     Editor.editSession := None;
     Editor.application := None;
     Editor.system := None;
     Editor.systems := [];
     Editor.nodes := [];
     Editor.objects := ∅;
     Editor.edges := [];
     Editor.node := None;
     Editor.directSuccessors := [];
     Editor.newConfiguresInputTypes := Editor.newConfiguresInputTypes state;
     Editor.propertyList := [];
     Editor.secretList := None;
     Editor.secretName := None;
     Editor.editObject := None;
     Editor.diff := {| entries := []; count := 0%Z |};
     Editor.eventBar := [];
     Editor.resources := [];
     Editor.currentResource := None
   |},
   ∅).

End mutations.

Inductive Mutation : Type :=
| CurrentResource (payload : option Resource.t)
| UpdateObjects (payload : NodeObject.t)
| SetMode (mode : Mode)
| Diff (payload : DiffResult).

Definition handler (m : Mutation) : EditorStore -> EditorStore :=
  match m with
  | CurrentResource p => mutations.currentResource p
  | UpdateObjects p => mutations.updateObjects p
  | SetMode mode => mutations.setMode mode
  | Diff p => mutations.diff p
  end.

Module Op.
Record EntityAction : Type := { action : string; systemId : string }.
Record EntityDelete : Type := { cascade : bool }.
Inductive t : Type :=
| entityAction (op : EntityAction)
| entityDelete (op : EntityDelete)
| nameSet (payload : string)
| entitySet (payload : string).
End Op.

Record OpRequest : Type := {
  op : Op.t;
  organizationId : string;
  workspaceId : string;
  changeSetId : string;
  editSessionId : string
}.

Record ExecuteWithAction : Type := {
  nodeId : string;
  action : string;
  systemId : string;
  execute_editSessionId : string
}.

Record ChangeSetCreateRequest : Type := {
  name : string;
  create_workspaceId : string;
  create_organizationId : string
}.

Record ActionEntityAction : Type := {
  entity_action : string;
  entity_nodeId : option string
}.

(** The payload of [entityDelete]: absent, or with [cascade] given or not. *)
Record ActionEntityDelete : Type := { delete_cascade : option bool }.

Record ActionChangeSetCreate : Type := { changeSet_name : string }.

Inductive Request : Type :=
| Node_get (id : string)
| Node_successors (node : Node.t)
| OpEntitySet_create (nodeId : string) (request : OpRequest)
| ChangeSet_execute (changeSet : ChangeSet.t) (hypothetical : bool)
| ChangeSet_executeWithAction (changeSet : ChangeSet.t)
    (request : ExecuteWithAction)
| ChangeSet_create (request : ChangeSetCreateRequest)
| Entity_diff (entity : PushedEntity.t)
| Node_syncResource (node : Node.t) (systemId : string)
    (changeSetId : option string).

Inductive Effect : Type :=
| Core (e : Editor.Effect)
| Commit (m : Mutation)
| Dispatch (action : string)
| Call (r : Request)
| Log (message : string).

Record Sdf : Type := {
  core : Backend;
  node_get : string -> Outcome Node.t;
  opEntitySet_create : string -> OpRequest -> Outcome unit;
  changeSet_execute : ChangeSet.t -> bool -> Outcome unit;
  changeSet_executeWithAction :
    ChangeSet.t -> ExecuteWithAction -> Outcome unit;
  changeSet_create : ChangeSetCreateRequest -> Outcome ChangeSet.t;
  entity_diff : PushedEntity.t -> Outcome DiffResult;
  node_syncResource : Node.t -> string -> option string -> Outcome unit
}.

Definition Act (A : Type) : Type := Action EditorStore Effect A.

(** An action or commit of the part of the module modelled in [Editor]. *)
Definition lift {A} (a : Editor.Act A) : Act A :=
  fun state => let '(r, state', t) := a state in (r, state', Core <$> t).

Definition mode_name (mode : Mode) : string :=
  match mode with
  | view => "view"
  | edit => "edit"
  end.

(** [setMode] also replaces the [mode] entry of the route query. *)
Definition commit (m : Mutation) : Act unit :=
  emit (Commit m) ;; modify (handler m) ;;
  match m with
  | SetMode mode => emit (Core (RouterReplace "mode" (Some (mode_name mode))))
  | _ => ret tt
  end.

Module getters.

(** [state.objects[id]]; the table is a plain object. *)
Definition object_of (state : EditorStore) (id : string)
  : Lookup NodeObject.t :=
  match objects state !! id with
  | Some object => Own object
  | None => if inherited id then Inherited id else Undefined
  end.

(** The predicate of [nodeList].  A member inherited from the prototype is
    truthy and has no [head]. *)
Definition listed (state : EditorStore) (n : Node.t) : bool :=
  match object_of state (Node.id n) with
  | Own object => negb (NodeObject.head object && NodeObject.deleted object)
  | Inherited _ => true
  | Undefined => false
  end.

Definition nodeList (state : EditorStore) : list Node.t :=
  List.filter (listed state) (nodes state).

End getters.

Module actions.

(** [await OpEntitySet.create(nodeId, request)], the last statement of each
    entity operation: the call is recorded and its result awaited. *)
Definition sendOp (api : Sdf) (nodeId : string) (request : OpRequest)
  : Act unit :=
  emit (Call (OpEntitySet_create nodeId request)) ;;
  await (opEntitySet_create api nodeId request).

Definition entityAction (api : Sdf) (rootGetters : RootGetters)
    (payload : ActionEntityAction) : Act unit :=
  state <~ read ;;
  node <~
    (if truthy (entity_nodeId payload) then
       emit (Call (Node_get (default "" (entity_nodeId payload)))) ;;
       node <~ await (node_get api (default "" (entity_nodeId payload))) ;;
       ret (Some node)
     else ret (Editor.node state)) ;;
  match organization_current rootGetters, workspace_current rootGetters,
        changeSet state, editSession state, node, system state with
  | Some organization, Some workspace, Some changeSet, Some editSession,
    Some node, Some system =>
      sendOp api (Node.id node)
        {| op := Op.entityAction
                   {| Op.action := entity_action payload;
                      Op.systemId := System.id system |};
           organizationId := Organization.id organization;
           workspaceId := Workspace.id workspace;
           changeSetId := ChangeSet.id changeSet;
           editSessionId := EditSession.id editSession |}
  | _, _, _, _, _, _ => ret tt
  end.

Definition entityDelete (api : Sdf) (rootGetters : RootGetters)
    (payload : option ActionEntityDelete) : Act unit :=
  state <~ read ;;
  match organization_current rootGetters, workspace_current rootGetters,
        changeSet state, editSession state, Editor.node state with
  | Some organization, Some workspace, Some changeSet, Some editSession,
    Some node =>
      let cascade :=
        match payload with
        | Some {| delete_cascade := Some false |} => false
        | _ => true
        end in
      sendOp api (Node.id node)
        {| op := Op.entityDelete {| Op.cascade := cascade |};
           organizationId := Organization.id organization;
           workspaceId := Workspace.id workspace;
           changeSetId := ChangeSet.id changeSet;
           editSessionId := EditSession.id editSession |}
  | _, _, _, _, _ => ret tt
  end.

Definition entityNameSet (api : Sdf) (rootGetters : RootGetters)
    (payload : string) : Act unit :=
  state <~ read ;;
  match organization_current rootGetters, workspace_current rootGetters,
        changeSet state, editSession state, Editor.node state with
  | Some organization, Some workspace, Some changeSet, Some editSession,
    Some node =>
      sendOp api (Node.id node)
        {| op := Op.nameSet payload;
           organizationId := Organization.id organization;
           workspaceId := Workspace.id workspace;
           changeSetId := ChangeSet.id changeSet;
           editSessionId := EditSession.id editSession |}
  | _, _, _, _, _ => ret tt
  end.

Definition entitySet (api : Sdf) (rootGetters : RootGetters)
    (payload : string) : Act unit :=
  state <~ read ;;
  match organization_current rootGetters, workspace_current rootGetters,
        changeSet state, editSession state, Editor.node state with
  | Some organization, Some workspace, Some changeSet, Some editSession,
    Some node =>
      sendOp api (Node.id node)
        {| op := Op.entitySet payload;
           organizationId := Organization.id organization;
           workspaceId := Workspace.id workspace;
           changeSetId := ChangeSet.id changeSet;
           editSessionId := EditSession.id editSession |}
  | _, _, _, _, _ => ret tt
  end.

Definition sendAction (api : Sdf) (rootGetters : RootGetters)
    (action : string) : Act unit :=
  if String.eqb action "delete" then
    emit (Dispatch "entityDelete") ;;
    entityDelete api rootGetters (Some {| delete_cascade := Some true |})
  else
    emit (Dispatch "entityAction") ;;
    entityAction api rootGetters
      {| entity_action := action; entity_nodeId := None |}.

Definition modeSwitch : Act unit :=
  state <~ read ;;
  match mode state with
  | view => commit (SetMode edit)
  | edit => commit (SetMode view)
  end.

Definition changeSetExecute (api : Sdf) : Act unit :=
  state <~ read ;;
  match changeSet state with
  | Some changeSet =>
      emit (Call (ChangeSet_execute changeSet false)) ;;
      await (changeSet_execute api changeSet false) ;;
      commit (SetMode view)
  | None => ret tt
  end.

Definition deployApplication (api : Sdf) : Act unit :=
  state <~ read ;;
  match changeSet state with
  | None =>
      emit (Log "changeSetExecuteWithAction called with no current changeSet--mistake??")
  | Some changeSet =>
      let nodeId := Entity.nodeId <$> application state in
      if negb (truthy nodeId) then
        emit (Log "changeSetExecuteWithAction called with no current application--mistake??")
      else
        let systemId := System.id <$> system state in
        if negb (truthy systemId) then
          emit (Log "changeSetExecuteWithAction called with no current system--mistake??")
        else
          let editSessionId := EditSession.id <$> editSession state in
          if negb (truthy editSessionId) then
            emit (Log "changeSetExecuteWithAction called with no current edit session--mistake??")
          else
            let request :=
              {| nodeId := default "" nodeId;
                 action := "deploy";
                 systemId := default "" systemId;
                 execute_editSessionId := default "" editSessionId |} in
            emit (Call (ChangeSet_executeWithAction changeSet request)) ;;
            await (changeSet_executeWithAction api changeSet request) ;;
            commit (SetMode view)
  end.

Definition changeSetCreate (api : Sdf) (rootGetters : RootGetters)
    (payload : ActionChangeSetCreate) : Act ChangeSet.t :=
  workspaceId <~
    lift (member "id" (workspace_current rootGetters) Workspace.id) ;;
  organizationId <~
    lift (member "id" (organization_current rootGetters) Organization.id) ;;
  let request :=
    {| name := changeSet_name payload;
       create_workspaceId := workspaceId;
       create_organizationId := organizationId |} in
  emit (Call (ChangeSet_create request)) ;;
  changeSet <~ await (changeSet_create api request) ;;
  lift (Editor.commit (SetChangeSet (Some changeSet))) ;;
  emit (Dispatch "editSessionCreate") ;;
  lift (Editor.actions.editSessionCreate (core api) rootGetters) ;;
  emit (Dispatch "modeSwitch") ;;
  modeSwitch ;;
  ret changeSet.

Fixpoint syncEach (api : Sdf) (systemId : string)
    (changeSetId : option string) (nodeList : list Node.t) : Act unit :=
  match nodeList with
  | [] => ret tt
  | node :: rest =>
      emit (Call (Node_syncResource node systemId changeSetId)) ;;
      await (node_syncResource api node systemId changeSetId) ;;
      syncEach api systemId changeSetId rest
  end.

Definition syncResources (api : Sdf) : Act unit :=
  state <~ read ;;
  match application state, system state with
  | Some _, Some system =>
      syncEach api (System.id system) (ChangeSet.id <$> changeSet state)
        (getters.nodeList state)
  | _, _ => ret tt
  end.

Definition fromEntity (api : Sdf) (payload : PushedEntity.t) : Act unit :=
  state <~ read ;;
  match application state with
  | Some application =>
      emit (Call (Node_get (Entity.nodeId application))) ;;
      appNode <~ await (node_get api (Entity.nodeId application)) ;;
      emit (Call (Node_successors appNode)) ;;
      successors <~ await (node_successors (core api) appNode) ;;
      match lodash.find Node.id (PushedEntity.nodeId payload) successors with
      | Some _ =>
          match changeSet state with
          | Some changeSet =>
              if String.eqb (PushedEntity.changeSetId payload)
                   (ChangeSet.id changeSet)
                 && negb (PushedEntity.head payload)
              then
                commit (UpdateObjects (as_object payload)) ;;
                state <~ read ;;
                if same_id (Entity.id <$> editObject state)
                     (PushedEntity.id payload)
                then
                  emit (Call (Entity_diff payload)) ;;
                  diffResult <~ await (entity_diff api payload) ;;
                  commit (Diff diffResult)
                else ret tt
              else ret tt
          | None =>
              if PushedEntity.head payload
              then commit (UpdateObjects (as_object payload))
              else ret tt
          end
      | None => ret tt
      end
  | None => ret tt
  end.

Definition fromEditSession (payload : EditSession.t) : Act unit :=
  state <~ read ;;
  if same_id (EditSession.id <$> editSession state) (EditSession.id payload)
  then
    if bool_decide (editSession state = Some payload)
    then ret tt
    else lift (Editor.commit (SetEditSession (Some payload)))
  else ret tt.

Definition fromResource (payload : Resource.t) : Act unit :=
  state <~ read ;;
  (match lodash.find Node.id (Resource.nodeId payload)
           (getters.nodeList state) with
   | Some _ => lift (Editor.commit (UpdateResources payload))
   | None => ret tt
   end) ;;
  state <~ read ;;
  if same_id (Resource.id <$> Editor.currentResource state)
       (Resource.id payload)
  then commit (CurrentResource (Some payload))
  else if same_id (System.id <$> system state) (Resource.systemId payload)
          && same_id (Node.id <$> Editor.node state) (Resource.nodeId payload)
  then commit (CurrentResource (Some payload))
  else ret tt.

End actions.

End EditorOps.

(** *** Notions used in the statements *)
Module EditorOpsNotions.
Import Editor EditorOps.

(** The request carries the ids of the current change set and edit session
    and of the current organization and workspace. *)
Definition in_edit_session (rootGetters : RootGetters) (state : EditorStore)
    (request : OpRequest) : Prop :=
  ChangeSet.id <$> changeSet state = Some (changeSetId request) /\
  EditSession.id <$> editSession state = Some (editSessionId request) /\
  Organization.id <$> organization_current rootGetters
    = Some (organizationId request) /\
  Workspace.id <$> workspace_current rootGetters
    = Some (workspaceId request).

(** Every op the run sends is addressed to the selected node, is of the given
    kind and is made in the current edit session. *)
Definition sends_only (rootGetters : RootGetters) (state : EditorStore)
    (kind : Op.t -> Prop) (run : Outcome unit * EditorStore * list Effect)
  : Prop :=
  forall nodeId request,
    Call (OpEntitySet_create nodeId request) ∈ trace run ->
    Node.id <$> node state = Some nodeId /\
    kind (op request) /\
    in_edit_session rootGetters state request.

(** The payload belongs to the view the editor shows: the selected change
    set's version when a change set is selected, the head version
    otherwise. *)
Definition in_view (payload : PushedEntity.t) (state : EditorStore) : Prop :=
  match changeSet state with
  | Some changeSet =>
      PushedEntity.changeSetId payload = ChangeSet.id changeSet /\
      PushedEntity.head payload = false
  | None => PushedEntity.head payload = true
  end.

(** An editor in an edit session with a node and a system selected. *)
Definition in_session : EditorStore :=
  Editor.mutations.node (Some service)
    (Editor.mutations.editSession
       (Some {| EditSession.id := "editSession:1";
                EditSession.name := "alice";
                EditSession.changeSetId := "changeSet:1" |})
       working).

Definition backend : Sdf := {|
  core := sdf;
  node_get := fun id =>
    Returned {| Node.id := id; Node.objectType := "application" |};
  opEntitySet_create := fun _ _ => Returned tt;
  changeSet_execute := fun _ _ => Returned tt;
  changeSet_executeWithAction := fun _ _ => Returned tt;
  changeSet_create := fun request =>
    Returned {| ChangeSet.id := "changeSet:3";
                ChangeSet.name := name request;
                ChangeSet.status := ChangeSetStatus.Open |};
  entity_diff := fun _ => Returned {| entries := ["name"]; count := 1%Z |};
  node_syncResource := fun _ _ _ => Returned tt
|}.

(** The version of the service entity in the first change set. *)
Definition service_entity : PushedEntity.t := {|
  PushedEntity.id := "entity:2";
  PushedEntity.nodeId := "node:2";
  PushedEntity.head := false;
  PushedEntity.changeSetId := "changeSet:1";
  PushedEntity.deleted := false
|}.

End EditorOpsNotions.

(** ** Calls of [external_provider_create_v1] in sequence *)
Module ExternalProviderCalls.
Import ExternalProviders.

(** The arguments of one call, with the value of [NOW()]. *)
Record Call : Type := {
  now : timestamptz;
  this_tenancy : option json;
  this_visibility : option json;
  this_prop_id : option bigint;
  this_schema_id : option bigint;
  this_schema_variant_id : option bigint;
  this_name : option string;
  this_type_definition : option string;
  this_attribute_prototype_id : option bigint
}.

Section Calls.
Variable tenancy_json_to_columns_v1 : option json -> tenancy_record_v1.t.
Variable visibility_json_to_columns_v1 : option json -> visibility_record_v1.t.
Variable timestamptz_out : timestamptz -> string.

Definition perform (call : Call) (db : Database) : Result json :=
  external_provider_create_v1
    tenancy_json_to_columns_v1 visibility_json_to_columns_v1 timestamptz_out
    (now call) (this_tenancy call) (this_visibility call)
    (this_prop_id call) (this_schema_id call) (this_schema_variant_id call)
    (this_name call) (this_type_definition call)
    (this_attribute_prototype_id call) db.

(** The database a call leaves, whether it completed or raised. *)
Definition left_by {A} (result : Result A) : Database :=
  match result with
  | Done _ db => db
  | Raised _ db => db
  end.

Definition perform_all (calls : list Call) (db : Database) : Database :=
  foldl (fun db call => left_by (perform call db)) db calls.

End Calls.

(** Keys and ids are unique and were handed out by the sequences. *)
Definition consistent (db : Database) : Prop :=
  keys_from_sequence db /\
  Forall (fun r => (id r <= external_providers_id_seq db)%Z)
    (external_providers db) /\
  NoDup (pk <$> external_providers db) /\
  NoDup (id <$> external_providers db).

(** A tenancy conversion that finds nothing in the json. *)
Definition no_tenancy (_ : option json) : tenancy_record_v1.t := {|
  tenancy_record_v1.tenancy_universal := None;
  tenancy_record_v1.tenancy_billing_account_ids := None;
  tenancy_record_v1.tenancy_organization_ids := None;
  tenancy_record_v1.tenancy_workspace_ids := None
|}.

Definition output_provider : Call := {|
  now := 0%Z;
  this_tenancy := None;
  this_visibility := None;
  this_prop_id := Some 1%Z;
  this_schema_id := Some 2%Z;
  this_schema_variant_id := Some 3%Z;
  this_name := Some "output";
  this_type_definition := Some "string";
  this_attribute_prototype_id := Some 4%Z
|}.

End ExternalProviderCalls.

(** ** The query for the nodes a change set modifies

    [change_set_modified_nodes.sql], over the two tables it reads. *)
Module ModifiedNodes.
Import ExternalProviders.

(** The columns of [entities_change_set_projection] the query reads. *)
Module projection.
Record row : Type := {
  id : option bigint;
  change_set_id : option bigint;
  obj : option json
}.
End projection.

(** The column of [entities_head] the query reads. *)
Module head.
Record row : Type := { id : option bigint }.
End head.

(** [object -> key]: the member of a json object, NULL for anything else.
    A jsonb object keeps the last of the values given for a key. *)
Fixpoint member (members : list (string * json)) (key : string)
  : option json :=
  match members with
  | [] => None
  | (k, v) :: rest =>
      match member rest key with
      | Some later => Some later
      | None => if String.eqb k key then Some v else None
      end
  end.

Definition arrow (object : option json) (key : string) : option json :=
  match object with
  | Some (JObject members) => member members key
  | _ => None
  end.

(** [a = b] on nullable integers is TRUE only for two equal values. *)
Definition eq_true (a b : option bigint) : bool :=
  match a, b with
  | Some a, Some b => Z.eqb a b
  | _, _ => false
  end.

(** [value = 'false'::jsonb] is TRUE only for the json [false]. *)
Definition is_json_false (value : option json) : bool :=
  match value with
  | Some (JBool false) => true
  | _ => false
  end.

(** [p LEFT OUTER JOIN entities_head ON p.id = entities_head.id]: every
    matching head row, or one row with the head columns NULL. *)
Definition left_outer_join (p : projection.row) (heads : list head.row)
  : list (projection.row * option head.row) :=
  match List.filter (fun h => eq_true (projection.id p) (head.id h)) heads with
  | [] => [(p, None)]
  | matches => (fun h => (p, Some h)) <$> matches
  end.

Section Query.
(** Defined by an earlier migration. *)
Variable si_id_to_primary_key_v1 : option string -> option bigint.

Definition where_clause (change_set : option string)
    (joined : projection.row * option head.row) : bool :=
  let '(p, h) := joined in
  eq_true (projection.change_set_id p) (si_id_to_primary_key_v1 change_set)
  && bool_decide (is_Some (h ≫= head.id))
  && is_json_false (arrow (arrow (projection.obj p) "siStorable") "deleted").

Definition change_set_modified_nodes (change_set : option string)
    (entities_change_set_projection : list projection.row)
    (entities_head : list head.row) : list (option bigint) :=
  (fun joined => projection.id joined.1)
    <$> List.filter (where_clause change_set)
          (entities_change_set_projection
             ≫= fun p => left_outer_join p entities_head).

End Query.

(** *** Scenario *)

Definition primary_key (si_id : option string) : option bigint :=
  match si_id with
  | Some si_id =>
      if String.eqb si_id "change_set:7" then Some 7%Z else None
  | None => None
  end.

Definition entity (deleted : bool) : option json :=
  Some (JObject [("siStorable", JObject [("deleted", JBool deleted)])]).

Definition projected : list projection.row :=
  [ {| projection.id := Some 1%Z; projection.change_set_id := Some 7%Z;
       projection.obj := entity false |};
    {| projection.id := Some 2%Z; projection.change_set_id := Some 7%Z;
       projection.obj := entity false |};
    {| projection.id := Some 3%Z; projection.change_set_id := Some 7%Z;
       projection.obj := entity true |};
    {| projection.id := Some 4%Z; projection.change_set_id := Some 8%Z;
       projection.obj := entity false |} ].

Definition heads : list head.row :=
  [ {| head.id := Some 1%Z |}; {| head.id := Some 3%Z |};
    {| head.id := Some 4%Z |} ].

End ModifiedNodes.

(** * Properties *)

(** ** The action monad *)

Lemma bind_ret_l {S E A B} (a : A) (k : A -> Action S E B) (s : S) :
  bind (ret a) k s = k a s.
Proof.
  unfold bind, ret. destruct (k a s) as [[r s2] t2]. reflexivity.
Qed.

Lemma bind_throw {S E A B} (e : Exception) (k : A -> Action S E B) (s : S) :
  bind (throw e) k s = (Thrown e, s, []).
Proof. reflexivity. Qed.

Module IconRegistryFacts.
Import IconRegistry.

(** *** The base name *)

Lemma split_nonempty_upto (n : nat) :
  forall name, (String.length name <= n)%nat -> split name <> [].
Proof.
  induction n as [|n IH]; intros name Hlen.
  - destruct name; simpl in *; [discriminate | lia].
  - destruct name as [|c tl]; simpl; [discriminate|].
    assert (Htl : split tl <> []) by (apply IH; simpl in Hlen; lia).
    destruct tl as [|d rest].
    + simpl. discriminate.
    + destruct (Ascii.eqb c "-" && Ascii.eqb d "-"); [discriminate|].
      destruct (split (String d rest)); [contradiction|]. discriminate.
Qed.

Lemma split_nonempty (name : string) : split name <> [].
Proof. apply (split_nonempty_upto (String.length name)). lia. Qed.

Lemma first_key_cons_head (c : ascii) (pieces : list string) :
  pieces <> [] -> first_key (cons_head c pieces) = String c (first_key pieces).
Proof. destruct pieces; [contradiction | reflexivity]. Qed.

Lemma nameWithoutModifiers_cons (c : ascii) (tl : string) :
  nameWithoutModifiers (String c tl) =
  if starts_with_separator (String c tl) then EmptyString
  else String c (nameWithoutModifiers tl).
Proof.
  unfold nameWithoutModifiers. destruct tl as [|d rest].
  - reflexivity.
  - change (split (String c (String d rest))) with
      (if Ascii.eqb c "-" && Ascii.eqb d "-"
       then EmptyString :: split rest
       else cons_head c (split (String d rest))).
    simpl starts_with_separator.
    destruct (Ascii.eqb c "-" && Ascii.eqb d "-"); [reflexivity|].
    apply first_key_cons_head, split_nonempty.
Qed.

Lemma starts_with_separator_true (name : string) :
  starts_with_separator name = true ->
  exists rest, name = "--" +:+ rest.
Proof.
  destruct name as [|c [|d rest]]; simpl; try discriminate.
  intros [Hc Hd]%andb_true_iff.
  apply Ascii.eqb_eq in Hc, Hd. subst. exists rest. reflexivity.
Qed.

(** The base name is the whole name, or is followed by a separator. *)
Lemma nameWithoutModifiers_prefix (name : string) :
  name = nameWithoutModifiers name \/
  exists rest, name = nameWithoutModifiers name +:+ "--" +:+ rest.
Proof.
  induction name as [|c tl IH]; [left; reflexivity|].
  rewrite nameWithoutModifiers_cons.
  destruct (starts_with_separator (String c tl)) eqn:Hsep.
  - right. apply starts_with_separator_true in Hsep as [rest ->].
    exists rest. reflexivity.
  - destruct IH as [IH | [rest IH]].
    + left. congruence.
    + right. exists rest.
      change (String c tl =
              String c (nameWithoutModifiers tl +:+ "--" +:+ rest)).
      f_equal. exact IH.
Qed.

(** No separator starts before the end of the base name. *)
Lemma nameWithoutModifiers_first (name p q : string) :
  name = p +:+ "--" +:+ q ->
  (String.length (nameWithoutModifiers name) <= String.length p)%nat.
Proof.
  revert p. induction name as [|c tl IH]; intros p Hname.
  - destruct p; discriminate.
  - rewrite nameWithoutModifiers_cons.
    destruct (starts_with_separator (String c tl)) eqn:Hsep; [simpl; lia|].
    destruct p as [|c' p'].
    + simpl in Hname. injection Hname as -> ->. discriminate.
    + simpl in Hname. injection Hname as -> Htl.
      simpl. apply IH in Htl. lia.
Qed.

Example split_pieces : split "a---b--" = ["a"; "-b"; ""].
Proof. reflexivity. Qed.

Example split_empty : split "" = [""].
Proof. reflexivity. Qed.

(** *** Lookups *)

Example getIconByName_spinnable : getIconByName "arrow--down" = Own Arrow.
Proof. reflexivity. Qed.

Example getIconByName_regular : getIconByName "refresh-active" = Own Refresh.
Proof. reflexivity. Qed.

Example getIconByName_unknown :
  getIconByName "no-such-icon--left" = Own QuestionMarkCircle.
Proof. reflexivity. Qed.

Example getIconByName_empty : getIconByName "" = Own QuestionMarkCircle.
Proof. reflexivity. Qed.

Lemma get_not_inherited {A} (obj : list (string * A)) (key : string) :
  inherited key = false ->
  get obj key = match own obj key with Some v => Own v | None => Undefined end.
Proof. unfold get. intros ->. reflexivity. Qed.

(** For a base name that [Object.prototype] does not define, the lookup is
    the one the registry intends: the spinnable entry, else the regular
    entry, else the fallback (the alias table is empty). *)
Lemma getIconByName_registered (name : string) :
  inherited (nameWithoutModifiers name) = false ->
  getIconByName name =
  match own SPINNABLE_ICONS (nameWithoutModifiers name) with
  | Some icon => Own icon
  | None =>
      match own ICONS (nameWithoutModifiers name) with
      | Some icon => Own icon
      | None => Own QuestionMarkCircle
      end
  end.
Proof.
  intros Hbase. unfold getIconByName.
  generalize dependent (nameWithoutModifiers name). intros base Hbase.
  cbv zeta. rewrite !(get_not_inherited _ base Hbase).
  change (own ICON_NAME_ALIASES base) with (@None string).
  change (to_key Undefined) with "undefined".
  change (get ICONS "undefined") with (@Undefined Asset).
  change (get ICONS "help-circle") with (Own QuestionMarkCircle).
  destruct (own SPINNABLE_ICONS base); [reflexivity|].
  destruct (own ICONS base); reflexivity.
Qed.

(** For a base name that [Object.prototype] defines, the first lookup
    already finds the inherited member, and that is what comes back. *)
Lemma getIconByName_inherited (name : string) :
  inherited (nameWithoutModifiers name) = true ->
  getIconByName name = Inherited (nameWithoutModifiers name).
Proof.
  unfold getIconByName.
  generalize (nameWithoutModifiers name). intros base Hbase. cbv zeta.
  apply bool_decide_eq_true in Hbase. unfold OBJECT_PROTOTYPE in Hbase.
  repeat (apply elem_of_cons in Hbase as [-> | Hbase]; [reflexivity|]).
  by apply elem_of_nil in Hbase.
Qed.

(** C3. [getIconByName] does not fall back to the help-circle icon for every
    unregistered name: the base name [constructor] is neither a spinnable
    key, nor a regular key, nor an alias, yet the lookup returns the member
    of that name inherited from [Object.prototype], which is no icon of the
    registry. *)
Theorem getIconByName_constructor :
  own SPINNABLE_ICONS (nameWithoutModifiers "constructor") = None /\
  own ICONS (nameWithoutModifiers "constructor") = None /\
  own ICON_NAME_ALIASES (nameWithoutModifiers "constructor") = None /\
  getIconByName "constructor" = Inherited "constructor" /\
  getIconByName "constructor" <> get ICONS "help-circle".
Proof. repeat split; try reflexivity. discriminate. Qed.

End IconRegistryFacts.

Module lodashFacts.
Import lodash.

Lemma filter_ext_elem {A} (P Q : A -> Prop)
    `{!forall x, Decision (P x)} `{!forall x, Decision (Q x)} (l : list A) :
  (forall x, x ∈ l -> P x <-> Q x) -> filter P l = filter Q l.
Proof.
  induction l as [|y rest IH]; intros Hiff; [done|].
  assert (Hrest : filter P rest = filter Q rest).
  { apply IH. intros x Hx. apply Hiff. by right. }
  destruct (decide (P y)) as [Hy | Hy].
  - rewrite !filter_cons_True; [by f_equal | by apply Hiff; [left|] | done].
  - rewrite !filter_cons_False; [done | | done].
    intros HQ. apply Hy, Hiff; [by left | done].
Qed.

Section Uniq.
Context {A K : Type} `{EqDecision K}.
Variable iteratee : A -> K.

Lemma baseUniq_elem (seen : list K) (array : list A) (x : A) :
  x ∈ baseUniq iteratee seen array -> x ∈ array /\ iteratee x ∉ seen.
Proof.
  revert seen. induction array as [|y rest IH]; intros seen; simpl.
  - intros H. by apply elem_of_nil in H.
  - case_bool_decide as Hseen.
    + intros [Hin Hfresh]%IH. split; [by right | done].
    + intros [-> | Hin]%elem_of_cons.
      * split; [by left | done].
      * apply IH in Hin as [Hin Hfresh]. split; [by right|].
        intros Hx. apply Hfresh. by right.
Qed.

Lemma baseUniq_NoDup (seen : list K) (array : list A) :
  NoDup (iteratee <$> baseUniq iteratee seen array).
Proof.
  revert seen. induction array as [|y rest IH]; intros seen; simpl.
  - constructor.
  - case_bool_decide as Hseen; [apply IH|].
    rewrite fmap_cons. constructor; [|apply IH].
    intros (z & Hz & Hin)%list_elem_of_fmap.
    apply baseUniq_elem in Hin as [_ Hfresh].
    apply Hfresh. rewrite Hz. by left.
Qed.

(** An array that holds each value once only loses what was seen. *)
Lemma baseUniq_filter (seen : list K) (array : list A) :
  NoDup (iteratee <$> array) ->
  baseUniq iteratee seen array = filter (fun x => iteratee x ∉ seen) array.
Proof.
  revert seen. induction array as [|y rest IH]; intros seen Hnd; [done|].
  rewrite fmap_cons in Hnd. apply NoDup_cons in Hnd as [Hy Hnd]. simpl.
  case_bool_decide as Hseen.
  - rewrite filter_cons_False by (intros Hn; by apply Hn).
    by apply IH.
  - rewrite filter_cons_True by done. f_equal.
    rewrite IH by done. apply filter_ext_elem.
    intros x Hx. split.
    + intros Hn Hs. apply Hn. by right.
    + intros Hn [Heq|Hs]%elem_of_cons; [|done].
      apply Hy. apply list_elem_of_fmap. by exists x.
Qed.

Lemma baseUniq_values (seen : list K) (array : list A) (k : K) :
  k ∈ iteratee <$> baseUniq iteratee seen array <->
  k ∈ iteratee <$> array /\ k ∉ seen.
Proof.
  revert seen. induction array as [|y rest IH]; intros seen; simpl.
  - split; [intros Hk; by apply elem_of_nil in Hk | intros [Hk _]; done].
  - case_bool_decide as Hseen.
    + rewrite IH, elem_of_cons. split.
      * intros [Hin Hfresh]. split; [by right | done].
      * intros [[-> | Hin] Hfresh]; [done | done].
    + rewrite ?fmap_cons, !elem_of_cons, IH. split.
      * intros [-> | [Hin Hfresh]]; [by split; [left|]|].
        split; [by right|]. intros Hk. apply Hfresh. by right.
      * intros [[-> | Hin] Hfresh]; [by left|].
        destruct (decide (k = iteratee y)) as [-> | Hne]; [by left|].
        right. split; [done|]. intros [? | ?]%elem_of_cons; done.
Qed.

Lemma unionBy_cons (x : A) (array : list A) :
  unionBy iteratee [ [x]; array ] =
  x :: baseUniq iteratee [iteratee x] array.
Proof.
  unfold unionBy. simpl. by rewrite app_nil_r.
Qed.

Lemma find_None (v : K) (array : list A) :
  find iteratee v array = None <-> v ∉ iteratee <$> array.
Proof.
  induction array as [|y rest IH]; simpl.
  - split; [intros _ H; by apply elem_of_nil in H | done].
  - rewrite not_elem_of_cons. case_bool_decide as Hy.
    + split; [discriminate | intros [Hne _]; by subst].
    + rewrite IH. split; [intros Hin; split; [congruence | done] | by intros [_ Hin]].
Qed.

Lemma remove_elem (v : K) (array : list A) (x : A) :
  x ∈ remove iteratee v array <-> x ∈ array /\ iteratee x <> v.
Proof. unfold remove. rewrite list_elem_of_filter. tauto. Qed.

End Uniq.

Section Order.
Context {A K : Type}.
Variable iteratee : A -> K.
Variable compareAscending : K -> K -> comparison.

Lemma place_Permutation (order : Order) (x : A) (sorted : list A) :
  place iteratee compareAscending order x sorted ≡ₚ x :: sorted.
Proof.
  induction sorted as [|y rest IH]; simpl; [done|].
  destruct (compareMultiple _ _ _ _ _); try done.
  rewrite IH. apply Permutation_swap.
Qed.

Lemma orderBy_Permutation (order : Order) (array : list A) :
  orderBy iteratee compareAscending order array ≡ₚ array.
Proof.
  induction array as [|x rest IH]; simpl; [done|].
  rewrite place_Permutation. by rewrite IH.
Qed.

End Order.

(** Elements with equal values keep their order, in either direction. *)
Example orderBy_is_stable :
  orderBy fst Z.compare desc [(1, "a"); (2, "b"); (1, "c"); (2, "d")]%Z
    = [(2, "b"); (2, "d"); (1, "a"); (1, "c")]%Z /\
  orderBy fst Z.compare asc [(2, "b"); (1, "a"); (2, "d"); (1, "c")]%Z
    = [(1, "a"); (1, "c"); (2, "b"); (2, "d")]%Z.
Proof. split; reflexivity. Qed.

Example unionBy_keeps_first :
  unionBy fst [ [(1, "new")]; [(2, "b"); (1, "old"); (2, "c")] ]%Z
    = [(1, "new"); (2, "b")]%Z.
Proof. reflexivity. Qed.

Section Descending.
Context {A : Type}.
Variable iteratee : A -> Z.

Lemma place_descending (x : A) (sorted : list A) :
  StronglySorted (descending iteratee) sorted ->
  StronglySorted (descending iteratee) (place iteratee Z.compare desc x sorted).
Proof.
  induction 1 as [|y rest Hsorted IH Hall]; simpl.
  - repeat constructor.
  - unfold compareMultiple. destruct (Z.compare_spec (iteratee x) (iteratee y)) as [Heq | Hlt | Hgt]; simpl.
    + constructor; [by constructor|]. constructor; [unfold descending; lia|].
      eapply Forall_impl; [exact Hall|]. unfold descending. intros; lia.
    + constructor; [exact IH|].
      rewrite place_Permutation. constructor; [unfold descending; lia | done].
    + constructor; [by constructor|]. constructor; [unfold descending; lia|].
      eapply Forall_impl; [exact Hall|]. unfold descending. intros; lia.
Qed.

Lemma orderBy_descending (array : list A) :
  StronglySorted (descending iteratee) (orderBy iteratee Z.compare desc array).
Proof.
  induction array as [|x rest IH]; simpl; [constructor|].
  by apply place_descending.
Qed.

Lemma take_descending (n : nat) (array : list A) :
  StronglySorted (descending iteratee) array -> StronglySorted (descending iteratee) (take n array).
Proof.
  intros Hsorted. revert n.
  induction Hsorted as [|y rest Hsorted IH Hall]; intros [|n]; simpl;
    try constructor; [apply IH | by apply Forall_take].
Qed.

End Descending.

Lemma NoDup_fmap_take {A K} (f : A -> K) (n : nat) (l : list A) :
  NoDup (f <$> l) -> NoDup (f <$> take n l).
Proof.
  intros Hnd. rewrite <- (take_drop n l), fmap_app in Hnd.
  by apply NoDup_app in Hnd as (? & _).
Qed.

Section Placing.
Context {A : Type}.
Variable iteratee : A -> Z.

(** [place] puts an element behind the elements that start later and in
    front of the others. *)
Lemma place_split (x : A) (sorted : list A) :
  StronglySorted (descending iteratee) sorted ->
  exists later rest,
    sorted = later ++ rest /\
    place iteratee Z.compare desc x sorted = later ++ x :: rest /\
    Forall (fun y => (iteratee x < iteratee y)%Z) later /\
    Forall (fun y => (iteratee y <= iteratee x)%Z) rest.
Proof.
  induction 1 as [|y rest Hsorted IH Hall]; simpl.
  - exists [], []. repeat split; constructor.
  - unfold compareMultiple.
    destruct (Z.compare_spec (iteratee x) (iteratee y)) as [Heq | Hlt | Hgt];
      simpl.
    + exists [], (y :: rest). repeat split; [constructor|].
      constructor; [lia|].
      eapply Forall_impl; [exact Hall|]. unfold descending. intros; lia.
    + destruct IH as (later & rest' & -> & -> & Hlater & Hrest).
      exists (y :: later), rest'. repeat split; [|done].
      by constructor.
    + exists [], (y :: rest). repeat split; [constructor|].
      constructor; [lia|].
      eapply Forall_impl; [exact Hall|]. unfold descending. intros; lia.
Qed.

Lemma filter_all (P : A -> Prop) `{!forall x, Decision (P x)} (l : list A) :
  Forall P l -> filter P l = l.
Proof.
  induction 1 as [|y rest Hy _ IH]; [done|].
  by rewrite filter_cons_True, IH.
Qed.

Lemma filter_none (P : A -> Prop) `{!forall x, Decision (P x)} (l : list A) :
  Forall (fun x => ~ P x) l -> filter P l = [].
Proof.
  induction 1 as [|y rest Hy _ IH]; [done|].
  by rewrite filter_cons_False.
Qed.

(** Where [orderBy] puts the first element of the array: behind the
    elements with a strictly greater value, and so within the first [n]
    exactly when there are fewer than [n] of them. *)
Lemma orderBy_head_taken (n : nat) (x : A) (array : list A) :
  x ∈ take n (orderBy iteratee Z.compare desc (x :: array)) <->
  (length (filter (fun y => (iteratee x < iteratee y)%Z) array) < n)%nat.
Proof.
  simpl.
  destruct (place_split x (orderBy iteratee Z.compare desc array))
    as (later & rest & Hsplit & -> & Hlater & Hrest).
  { apply orderBy_descending. }
  assert (Hcount : filter (fun y => (iteratee x < iteratee y)%Z) array
                   ≡ₚ later).
  { rewrite <- (orderBy_Permutation iteratee Z.compare desc array),
      Hsplit, filter_app.
    rewrite (filter_all _ later) by done.
    rewrite (filter_none _ rest), app_nil_r; [done|].
    eapply Forall_impl; [exact Hrest|]. simpl. intros; lia. }
  rewrite Hcount. rewrite take_app. split.
  - intros [Hin | Hin]%elem_of_app.
    + apply subseteq_take in Hin.
      rewrite Forall_forall in Hlater. apply Hlater in Hin. lia.
    + destruct (n - length later)%nat as [|k] eqn:Hk; [|lia].
      by apply elem_of_nil in Hin.
  - intros Hlt. apply elem_of_app. right.
    destruct (n - length later)%nat as [|k] eqn:Hk; [lia|].
    simpl. by left.
Qed.

End Placing.

Lemma filter_shorter {A K} `{EqDecision K} (f : A -> K) (k : K) (l : list A) :
  k ∈ f <$> l ->
  (length (filter (fun x => f x <> k) l) < length l)%nat.
Proof.
  induction l as [|y rest IH]; [intros H; by apply elem_of_nil in H|].
  rewrite fmap_cons. intros Hin.
  destruct (decide (f y = k)) as [Heq | Hne].
  - rewrite filter_cons_False by (intros Hn; by apply Hn).
    pose proof (length_filter (fun x => f x <> k) rest). simpl. lia.
  - rewrite filter_cons_True by done. simpl.
    apply elem_of_cons in Hin as [Hk | Hin]; [by subst|].
    apply IH in Hin. lia.
Qed.

End lodashFacts.

Module ApplicationContextFacts.
Import ApplicationContext.

(** *** Replies that carry an error *)

Section DalError.
Variable dal : ApplicationContextDal.
Variable state : ApplicationContextStore.
Variable error : DalError.

Lemma loadApplicationContext_error request :
  getApplicationContext dal request = Failure error ->
  actions.loadApplicationContext dal request state =
  (Returned (Failure error), state, []).
Proof. unfold actions.loadApplicationContext. by intros ->. Qed.

Lemma loadChangeSetAndEditSession_error request :
  getChangeSetAndEditSession dal request = Failure error ->
  actions.loadChangeSetAndEditSession dal request state =
  (Returned (Failure error), state, []).
Proof. unfold actions.loadChangeSetAndEditSession. by intros ->. Qed.

Lemma createEditSessionAndLoadChangeSet_error request :
  createEditSessionAndGetChangeSet dal request = Failure error ->
  actions.createEditSessionAndLoadChangeSet dal request state =
  (Returned (Failure error), state, []).
Proof. unfold actions.createEditSessionAndLoadChangeSet. by intros ->. Qed.

Lemma createChangeSetAndEditSession_error request :
  createChangeSetAndEditSession dal request = Failure error ->
  actions.createChangeSetAndEditSession dal request state =
  (Returned (Failure error), state, []).
Proof. unfold actions.createChangeSetAndEditSession. by intros ->. Qed.

Lemma createEditSession_error request :
  createEditSession dal request = Failure error ->
  actions.createEditSession dal request state =
  (Returned (Failure error), state, []).
Proof. unfold actions.createEditSession. by intros ->. Qed.

Lemma cancelEditSession_error request :
  cancelEditSession dal request = Failure error ->
  actions.cancelEditSession dal request state =
  (Returned (Failure error), state, []).
Proof. unfold actions.cancelEditSession. by intros ->. Qed.

End DalError.

(** C1. Each of the six actions that call the backend, when the reply
    carries an error, commits no mutation (its trace is empty and the store
    is the one it started from) and returns that reply as it came. *)
Theorem dal_error_leaves_store_untouched
    (dal : ApplicationContextDal) (state : ApplicationContextStore)
    (error : DalError) :
  (forall request,
      getApplicationContext dal request = Failure error ->
      actions.loadApplicationContext dal request state =
      (Returned (getApplicationContext dal request), state, [])) /\
  (forall request,
      getChangeSetAndEditSession dal request = Failure error ->
      actions.loadChangeSetAndEditSession dal request state =
      (Returned (getChangeSetAndEditSession dal request), state, [])) /\
  (forall request,
      createEditSessionAndGetChangeSet dal request = Failure error ->
      actions.createEditSessionAndLoadChangeSet dal request state =
      (Returned (createEditSessionAndGetChangeSet dal request), state, [])) /\
  (forall request,
      createChangeSetAndEditSession dal request = Failure error ->
      actions.createChangeSetAndEditSession dal request state =
      (Returned (createChangeSetAndEditSession dal request), state, [])) /\
  (forall request,
      createEditSession dal request = Failure error ->
      actions.createEditSession dal request state =
      (Returned (createEditSession dal request), state, [])) /\
  (forall request,
      cancelEditSession dal request = Failure error ->
      actions.cancelEditSession dal request state =
      (Returned (cancelEditSession dal request), state, [])).
Proof.
  repeat split; intros request Hreply; rewrite Hreply.
  - by apply loadApplicationContext_error.
  - by apply loadChangeSetAndEditSession_error.
  - by apply createEditSessionAndLoadChangeSet_error.
  - by apply createChangeSetAndEditSession_error.
  - by apply createEditSession_error.
  - by apply cancelEditSession_error.
Qed.

Lemma dal_error_leaves_store_untouched_witness :
  actions.loadApplicationContext (refusing unauthorized)
    {| applicationId_ := "application:1" |} editing =
  (Returned (Failure unauthorized), editing, []) /\
  actions.cancelEditSession (refusing unauthorized)
    {| cancel_editSessionId := "editSession:1" |} editing =
  (Returned (Failure unauthorized), editing, []).
Proof.
  destruct (dal_error_leaves_store_untouched
              (refusing unauthorized) editing unauthorized)
    as (Hload & _ & _ & _ & _ & Hcancel).
  split; [apply Hload | apply Hcancel]; reflexivity.
Defined.

(** *** Deactivation *)

Lemma deactivate_run (payload : InstanceStoreContext)
    (state : ApplicationContextStore) :
  actions.deactivate payload state =
  let removed :=
    mutations.removeFromActivatedBy (activateName payload) state in
  if Nat.eqb (size (activatedBy removed)) 0
  then (Returned tt, mutations.clear removed,
        [Commit (RemoveFromActivatedBy (activateName payload)); Commit Clear])
  else (Returned tt, removed,
        [Commit (RemoveFromActivatedBy (activateName payload))]).
Proof.
  unfold actions.deactivate, commit, bind, emit, modify, read, ret. simpl.
  destruct (Nat.eqb _ 0); reflexivity.
Qed.

Lemma size_zero_empty (names : gset string) :
  Nat.eqb (size names) 0 = true <-> names = ∅.
Proof. rewrite Nat.eqb_eq, size_empty_iff. apply leibniz_equiv_iff. Qed.

(** C2. [deactivate] takes the activator's name out of [activatedBy].  The
    store is cleared exactly when no activator is left: then the application
    id and name, the current system and the current change set are null, both
    lists are empty and the status bar context is unset.  While an activator
    is left, every field but [activatedBy] keeps its value. *)
Theorem deactivate_clears_with_last_activator
    (payload : InstanceStoreContext) (state : ApplicationContextStore) :
  let run := actions.deactivate payload state in
  let after := store run in
  activatedBy after = activatedBy state ∖ {[ activateName payload ]} /\
  (Commit Clear ∈ trace run <-> activatedBy after = ∅) /\
  (activatedBy after = ∅ ->
     applicationId after = None /\
     applicationName after = None /\
     systemsList after = [] /\
     currentSystem after = None /\
     openChangeSetsList after = [] /\
     currentChangeSet after = None /\
     statusBarCtx after = Unset) /\
  (activatedBy after <> ∅ ->
     applicationId after = applicationId state /\
     applicationName after = applicationName state /\
     systemsList after = systemsList state /\
     currentSystem after = currentSystem state /\
     openChangeSetsList after = openChangeSetsList state /\
     currentChangeSet after = currentChangeSet state /\
     currentEditSession after = currentEditSession state /\
     statusBarCtx after = statusBarCtx state /\
     editMode after = editMode state).
Proof.
  intros run after. subst run after. rewrite deactivate_run. cbv zeta.
  destruct (Nat.eqb _ 0) eqn:Hsize; simpl.
  - apply size_zero_empty in Hsize. simpl in Hsize.
    split; [done|]. split; [|split; [done|]].
    + split; [done|]. intros _. apply elem_of_cons. right. by left.
    + intros Hne. contradiction.
  - assert (Hne : activatedBy state ∖ {[ activateName payload ]} <> ∅).
    { intros Hempty. apply size_zero_empty in Hempty. simpl in Hsize.
      congruence. }
    split; [done|]. split; [|split; [done|]].
    + split; [|done]. intros [Heq | Hin]%elem_of_cons; [discriminate|].
      by apply elem_of_nil in Hin.
    + intros _. repeat split.
Qed.

Lemma deactivate_clears_with_last_activator_witness :
  applicationId (store (actions.deactivate editor_ctx editing)) = None /\
  statusBarCtx (store (actions.deactivate editor_ctx editing)) = Unset.
Proof.
  destruct (deactivate_clears_with_last_activator editor_ctx editing)
    as (Hnames & _ & Hcleared & _).
  assert (Hlast : activatedBy (store (actions.deactivate editor_ctx editing))
                  = ∅).
  { rewrite Hnames. simpl. apply difference_diag_L. }
  destruct (Hcleared Hlast) as (Hid & _ & _ & _ & _ & _ & Hctx).
  split; [exact Hid | exact Hctx].
Defined.

(** C9. [clear] is not a reset to the initial state: it leaves
    [currentEditSession], [editMode] and [activatedBy] as they are, gives the
    application id and name, both lists, the current system and the current
    change set their initial values, and unsets [statusBarCtx].  So when the
    last activator deactivates, the edit session that was current and the
    edit mode that was on are still in the store. *)
Theorem clear_keeps_edit_session_and_mode
    (payload : InstanceStoreContext) (state : ApplicationContextStore) :
  (currentEditSession (mutations.clear state) = currentEditSession state /\
   editMode (mutations.clear state) = editMode state /\
   activatedBy (mutations.clear state) = activatedBy state) /\
  (applicationId (mutations.clear state) = applicationId ApplicationContext.state /\
   applicationName (mutations.clear state) = applicationName ApplicationContext.state /\
   systemsList (mutations.clear state) = systemsList ApplicationContext.state /\
   currentSystem (mutations.clear state) = currentSystem ApplicationContext.state /\
   openChangeSetsList (mutations.clear state) = openChangeSetsList ApplicationContext.state /\
   currentChangeSet (mutations.clear state) = currentChangeSet ApplicationContext.state /\
   statusBarCtx (mutations.clear state) = Unset) /\
  (activatedBy state ⊆ {[ activateName payload ]} ->
   Commit Clear ∈ trace (actions.deactivate payload state) /\
   currentEditSession (store (actions.deactivate payload state)) =
     currentEditSession state /\
   editMode (store (actions.deactivate payload state)) = editMode state) /\
  (is_Some (currentEditSession state) \/ editMode state = true ->
   mutations.clear state <> ApplicationContext.state).
Proof.
  split; [done|]. split; [done|]. split.
  - intros Hlast. rewrite deactivate_run. cbv zeta.
    assert (Hempty : activatedBy state ∖ {[ activateName payload ]} = ∅).
    { apply leibniz_equiv, elem_of_equiv_empty.
      intros x [Hin Hnot]%elem_of_difference. by apply Hnot, Hlast. }
    apply size_zero_empty in Hempty. simpl. rewrite Hempty. simpl.
    split; [|done]. apply elem_of_cons. right. by left.
  - intros Hset Hclear.
    assert (Hes : currentEditSession (mutations.clear state) = None)
      by (by rewrite Hclear).
    assert (Hmode : editMode (mutations.clear state) = false)
      by (by rewrite Hclear).
    simpl in Hes, Hmode. destruct Hset as [[es Hsome] | Htrue]; congruence.
Qed.

Lemma clear_keeps_edit_session_and_mode_witness :
  currentEditSession (store (actions.deactivate editor_ctx editing)) =
    Some {| editSessionId := "editSession:1" |} /\
  editMode (store (actions.deactivate editor_ctx editing)) = true /\
  mutations.clear editing <> ApplicationContext.state.
Proof.
  destruct (clear_keeps_edit_session_and_mode editor_ctx editing)
    as (_ & _ & Hlast & Hdiffers).
  assert (Honly : activatedBy editing ⊆ {[ activateName editor_ctx ]})
    by (simpl; set_solver).
  destruct (Hlast Honly) as (_ & Hes & Hmode).
  split; [exact Hes|]. split; [exact Hmode|].
  apply Hdiffers. right. reflexivity.
Defined.

End ApplicationContextFacts.

Module EditorFacts.
Import Editor.

Ltac run_action :=
  unfold bind, commit, router, emit, modify, read, ret, throw, await, member;
  simpl.

Lemma same_id_true (a : option string) (b : string) :
  same_id a b = true <-> a = Some b.
Proof.
  destruct a as [a|]; simpl; [|split; discriminate].
  rewrite String.eqb_eq. split; congruence.
Qed.

(** *** Creating an edit session *)

Lemma editSessionCreate_without_changeSet api rootGetters state :
  changeSet state = None ->
  actions.editSessionCreate api rootGetters state =
  (Thrown no_change_set, state, []).
Proof.
  intros Hnone. unfold actions.editSessionCreate. run_action.
  rewrite Hnone. reflexivity.
Qed.

Lemma editSessionCreate_with_changeSet api rootGetters state cs :
  changeSet state = Some cs ->
  let run := actions.editSessionCreate api rootGetters state in
  (exists e, run = (Thrown e, state, [])) \/
  (exists user workspace organization,
      let request := create_request api user workspace organization in
      match editSession_create api (ChangeSet.id cs) request with
      | Returned created =>
          run = (Returned tt, mutations.editSession (Some created) state,
                 [ Call (EditSession_create (ChangeSet.id cs) request);
                   Commit (SetEditSession (Some created));
                   RouterReplace "editSessionId"
                     (Some (EditSession.id created)) ])
      | Thrown e =>
          run = (Thrown e, state,
                 [ Call (EditSession_create (ChangeSet.id cs) request) ])
      end).
Proof.
  intros Hcs run. subst run. unfold actions.editSessionCreate. run_action.
  rewrite Hcs.
  destruct (user_current rootGetters) as [user|]; simpl;
    [|left; eexists; reflexivity].
  destruct (workspace_current rootGetters) as [workspace|]; simpl;
    [|left; eexists; reflexivity].
  destruct (organization_current rootGetters) as [organization|]; simpl;
    [|left; eexists; reflexivity].
  right. exists user, workspace, organization. unfold create_request. simpl.
  destruct (editSession_create api _ _); reflexivity.
Qed.

Example editSessionCreate_in_selected_changeSet :
  let run := actions.editSessionCreate sdf signed_in working in
  outcome run = Returned tt /\
  (EditSession.changeSetId <$> editSession (store run)) = Some "changeSet:1" /\
  head (trace run) =
    Some (Call (EditSession_create "changeSet:1"
                  {| request_name := "alice 2021-03-04T05:06:07.000Z";
                     workspaceId := "workspace:1";
                     organizationId := "organization:1" |})).
Proof. repeat split. Qed.

(** C4. With no change set selected, [editSessionCreate] throws its error
    and the store is the one it started from.  An edit session is created
    only in the selected change set: every [EditSession.create] the action
    sends carries the id of [state.changeSet], and the session it commits is
    the one that request returned. *)
Theorem editSessionCreate_needs_changeSet
    (api : Backend) (rootGetters : RootGetters) (state : EditorStore) :
  let run := actions.editSessionCreate api rootGetters state in
  (changeSet state = None ->
   run = (Thrown (Error "cannot start an edit session without a change set!"),
          state, [])) /\
  (forall changeSetId request,
      Call (EditSession_create changeSetId request) ∈ trace run ->
      exists cs, changeSet state = Some cs /\ changeSetId = ChangeSet.id cs) /\
  (forall session,
      Commit (SetEditSession session) ∈ trace run ->
      exists cs request created,
        changeSet state = Some cs /\
        editSession_create api (ChangeSet.id cs) request = Returned created /\
        session = Some created /\
        editSession (store run) = Some created).
Proof.
  intros run. split; [apply editSessionCreate_without_changeSet|].
  destruct (changeSet state) as [cs|] eqn:Hcs.
  - destruct (editSessionCreate_with_changeSet api rootGetters state cs Hcs)
      as [[e Hrun] | (user & workspace & organization & Hrun)];
      fold run in Hrun.
    + rewrite Hrun. simpl.
      split; intros; exfalso; eapply not_elem_of_nil; eassumption.
    + cbv zeta in Hrun.
      destruct (editSession_create api (ChangeSet.id cs) _) as [created|e]
        eqn:Hcreate; rewrite Hrun; simpl; split.
      * intros changeSetId request Hin.
        apply elem_of_cons in Hin as [Heq | Hin].
        { injection Heq as -> _. by exists cs. }
        repeat (apply elem_of_cons in Hin as [Heq | Hin]; [discriminate|]).
        by apply elem_of_nil in Hin.
      * intros session Hin.
        apply elem_of_cons in Hin as [Heq | Hin]; [discriminate|].
        apply elem_of_cons in Hin as [Heq | Hin].
        { injection Heq as ->. eexists cs, _, created. eauto. }
        apply elem_of_cons in Hin as [Heq | Hin]; [discriminate|].
        by apply elem_of_nil in Hin.
      * intros changeSetId request Hin.
        apply elem_of_cons in Hin as [Heq | Hin].
        { injection Heq as -> _. by exists cs. }
        by apply elem_of_nil in Hin.
      * intros session Hin.
        apply elem_of_cons in Hin as [Heq | Hin]; [discriminate|].
        by apply elem_of_nil in Hin.
  - subst run. rewrite editSessionCreate_without_changeSet by done. simpl.
    split; intros; exfalso; eapply not_elem_of_nil; eassumption.
Qed.

Lemma editSessionCreate_needs_changeSet_witness :
  actions.editSessionCreate sdf signed_in Editor.state =
  (Thrown (Error "cannot start an edit session without a change set!"),
   Editor.state, []).
Proof.
  destruct (editSessionCreate_needs_changeSet sdf signed_in Editor.state)
    as [Hthrows _].
  apply Hthrows. reflexivity.
Defined.

(** *** Change sets pushed by the server *)

Lemma fromChangeSet_open payload state :
  ChangeSet.status payload = ChangeSetStatus.Open ->
  actions.fromChangeSet payload state =
  (Returned tt, mutations.changeSetsOpenAdd payload state,
   [ Commit (ChangeSetsOpenAdd payload) ]).
Proof.
  intros Hopen. unfold actions.fromChangeSet. rewrite Hopen. reflexivity.
Qed.

Lemma changeSetsOpenAdd_list payload state :
  changeSetsOpen (mutations.changeSetsOpenAdd payload state) =
  payload :: lodash.baseUniq ChangeSet.id [ChangeSet.id payload]
               (changeSetsOpen state).
Proof. apply lodashFacts.unionBy_cons. Qed.

Lemma fromChangeSet_current payload state status :
  ChangeSet.status payload = ChangeSetStatus.Other status ->
  same_id (ChangeSet.id <$> changeSet state) (ChangeSet.id payload) = true ->
  store (actions.fromChangeSet payload state) =
    mutations.changeSetsOpenRemove payload (unselected state) /\
  Dispatch_setChangeSet {| setChangeSet_id := None |}
    ∈ trace (actions.fromChangeSet payload state).
Proof.
  intros Hother Hsame. unfold actions.fromChangeSet, actions.setChangeSet.
  rewrite Hother. run_action. rewrite Hsame. simpl.
  destruct (application state); simpl; (split; [reflexivity | by left]).
Qed.

Lemma fromChangeSet_not_current payload state status :
  ChangeSet.status payload = ChangeSetStatus.Other status ->
  same_id (ChangeSet.id <$> changeSet state) (ChangeSet.id payload) = false ->
  actions.fromChangeSet payload state =
  (Returned tt, mutations.changeSetsOpenRemove payload state,
   [ Commit (ChangeSetsOpenRemove payload) ]).
Proof.
  intros Hother Hsame. unfold actions.fromChangeSet.
  rewrite Hother. run_action. rewrite Hsame. reflexivity.
Qed.

Example fromChangeSet_opened :
  changeSetsOpen (store (actions.fromChangeSet second working))
    = [second; first] /\
  changeSetsOpen (store (actions.fromChangeSet first working)) = [first].
Proof. split; reflexivity. Qed.

Example fromChangeSet_closed :
  let run := actions.fromChangeSet first_closed working in
  changeSetsOpen (store run) = [] /\
  changeSet (store run) = None /\
  trace run =
    [ Dispatch_setChangeSet {| setChangeSet_id := None |};
      Commit (SetChangeSet None);
      RouterReplace "changeSetId" None;
      Commit (SetChangeSetParticipantCount 0);
      Call (Node_get "node:1");
      Suspend "setChangeSet";
      Commit (ChangeSetsOpenRemove first_closed) ].
Proof. repeat split. Qed.

(** C5. A pushed change set whose status is Open is put in [changeSetsOpen]
    under its id: it is there, no id occurs twice, the only entry with its id
    is the payload itself, and the other ids are the ones that were there.
    A pushed change set with any other status loses every entry with its id,
    the other entries staying as they were; when it is the selected change
    set, [setChangeSet] is dispatched with an undefined id and the selection
    is gone, and otherwise the selection stays. *)
Theorem fromChangeSet_keeps_open_change_sets
    (payload : ChangeSet.t) (state : EditorStore) :
  let run := actions.fromChangeSet payload state in
  let after := store run in
  (ChangeSet.status payload = ChangeSetStatus.Open ->
   payload ∈ changeSetsOpen after /\
   NoDup (ChangeSet.id <$> changeSetsOpen after) /\
   (forall cs, cs ∈ changeSetsOpen after ->
               ChangeSet.id cs = ChangeSet.id payload -> cs = payload) /\
   (forall cs, cs ∈ changeSetsOpen after ->
               cs = payload \/ cs ∈ changeSetsOpen state) /\
   (forall i, i <> ChangeSet.id payload ->
              i ∈ ChangeSet.id <$> changeSetsOpen after <->
              i ∈ ChangeSet.id <$> changeSetsOpen state) /\
   changeSet after = changeSet state) /\
  (ChangeSet.status payload <> ChangeSetStatus.Open ->
   changeSetsOpen after =
     filter (fun cs => ChangeSet.id cs <> ChangeSet.id payload)
       (changeSetsOpen state) /\
   (forall cs, cs ∈ changeSetsOpen after ->
               ChangeSet.id cs <> ChangeSet.id payload) /\
   (ChangeSet.id <$> changeSet state = Some (ChangeSet.id payload) ->
    changeSet after = None /\
    Dispatch_setChangeSet {| setChangeSet_id := None |} ∈ trace run) /\
   (ChangeSet.id <$> changeSet state <> Some (ChangeSet.id payload) ->
    changeSet after = changeSet state /\
    forall p, Dispatch_setChangeSet p ∉ trace run)).
Proof.
  intros run after. subst after run. split.
  - intros Hopen. rewrite fromChangeSet_open by done.
    unfold store. cbn [fst snd]. rewrite changeSetsOpenAdd_list.
    split; [by left|]. split.
    { rewrite <- changeSetsOpenAdd_list. apply lodashFacts.baseUniq_NoDup. }
    split; [|split; [|split; [|done]]].
    + intros cs [-> | Hin]%elem_of_cons Hid; [done|].
      apply lodashFacts.baseUniq_elem in Hin as [_ Hfresh].
      exfalso. apply Hfresh. rewrite Hid. by left.
    + intros cs [-> | Hin]%elem_of_cons; [by left|].
      right. by apply lodashFacts.baseUniq_elem in Hin as [Hin _].
    + intros i Hne. rewrite fmap_cons, elem_of_cons.
      rewrite lodashFacts.baseUniq_values. split.
      * intros [Heq | [Hin _]]; [contradiction | done].
      * intros Hin. right. split; [done|].
        intros [Heq | Hnil]%elem_of_cons; [contradiction|].
        by apply elem_of_nil in Hnil.
  - intros Hstatus.
    destruct (ChangeSet.status payload) as [|status] eqn:Hother;
      [contradiction|].
    destruct (same_id (ChangeSet.id <$> changeSet state) (ChangeSet.id payload))
      eqn:Hsame.
    + destruct (fromChangeSet_current payload state status Hother Hsame)
        as [Hstore Htrace].
      rewrite Hstore. simpl. split; [done|]. split.
      { intros cs Hin. by apply lodashFacts.remove_elem in Hin as [_ Hne]. }
      split; [done|]. intros Hne. apply same_id_true in Hsame. contradiction.
    + rewrite (fromChangeSet_not_current payload state status Hother Hsame).
      simpl. split; [done|]. split.
      { intros cs Hin. by apply lodashFacts.remove_elem in Hin as [_ Hne]. }
      split.
      * intros Heq. apply same_id_true in Heq. congruence.
      * intros _. split; [done|].
        intros p [Heq | Hin]%elem_of_cons; [discriminate|].
        by apply elem_of_nil in Hin.
Qed.

Lemma fromChangeSet_keeps_open_change_sets_witness :
  second ∈ changeSetsOpen (store (actions.fromChangeSet second working)) /\
  changeSet (store (actions.fromChangeSet first_closed working)) = None.
Proof.
  split.
  - destruct (fromChangeSet_keeps_open_change_sets second working)
      as [Hopen _].
    apply Hopen. reflexivity.
  - destruct (fromChangeSet_keeps_open_change_sets first_closed working)
      as [_ Hclosed].
    destruct Hclosed as (_ & _ & Hcurrent & _); [discriminate|].
    apply Hcurrent. reflexivity.
Defined.

(** *** Nodes pushed by the server *)

Lemma find_Some_elem (v : string) (successors : list Node.t) (n : Node.t) :
  lodash.find Node.id v successors = Some n -> v ∈ Node.id <$> successors.
Proof.
  intros Hfound. destruct (decide (v ∈ Node.id <$> successors)) as [|Hnot];
    [done|].
  apply lodashFacts.find_None in Hnot. congruence.
Qed.

(** Either the action left the store alone and committed nothing, or the
    payload is a successor of the application's node. *)
Lemma fromNode_cases (api : Backend) (payload : Node.t) (state : EditorStore) :
  let run := actions.fromNode api payload state in
  (store run = state /\ forall m, Commit m ∉ trace run) \/
  (exists application appNode successors,
      Editor.application state = Some application /\
      entity_node api application = Returned appNode /\
      node_successors api appNode = Returned successors /\
      Node.id payload ∈ Node.id <$> successors).
Proof.
  intros run. subst run. unfold actions.fromNode. run_action.
  destruct (application state) as [application|] eqn:Happ; simpl.
  - destruct (entity_node api application) as [appNode|e] eqn:HappNode; simpl.
    + destruct (node_successors api appNode) as [successors|e] eqn:Hsucc;
        simpl.
      * destruct (lodash.find Node.id (Node.id payload) successors)
          as [found|] eqn:Hfind.
        { right. exists application, appNode, successors.
          repeat split; try done. by eapply find_Some_elem. }
        left. simpl. split; [done|].
        intros m Hin.
        repeat (apply elem_of_cons in Hin as [Heq | Hin]; [discriminate|]).
        by apply elem_of_nil in Hin.
      * left. split; [done|]. intros m Hin.
        repeat (apply elem_of_cons in Hin as [Heq | Hin]; [discriminate|]).
        by apply elem_of_nil in Hin.
    + left. split; [done|]. intros m Hin.
      repeat (apply elem_of_cons in Hin as [Heq | Hin]; [discriminate|]).
      by apply elem_of_nil in Hin.
  - left. split; [done|]. intros m Hin. by apply elem_of_nil in Hin.
Qed.

Example fromNode_successor :
  let run :=
    actions.fromNode sdf
      {| Node.id := "node:2"; Node.objectType := "database" |} working in
  nodes (store run) = [ {| Node.id := "node:2"; Node.objectType := "database" |} ] /\
  Commit (UpdateNodes {| Node.id := "node:2"; Node.objectType := "database" |})
    ∈ trace run.
Proof. split; [reflexivity|]. simpl. do 2 right. by left. Qed.

(** C6. [fromNode] leaves the whole editor store as it is, and commits
    nothing, when no application is selected and when the payload's id is not
    among the successors of the application's node.  Only a successor of the
    current application's node makes it commit or change the store. *)
Theorem fromNode_ignores_other_nodes
    (api : Backend) (payload : Node.t) (state : EditorStore) :
  let run := actions.fromNode api payload state in
  (application state = None -> run = (Returned tt, state, [])) /\
  (forall application appNode successors,
      Editor.application state = Some application ->
      entity_node api application = Returned appNode ->
      node_successors api appNode = Returned successors ->
      Node.id payload ∉ Node.id <$> successors ->
      outcome run = Returned tt /\
      store run = state /\
      forall m, Commit m ∉ trace run) /\
  (store run <> state \/ (exists m, Commit m ∈ trace run) ->
   exists application appNode successors,
     Editor.application state = Some application /\
     entity_node api application = Returned appNode /\
     node_successors api appNode = Returned successors /\
     Node.id payload ∈ Node.id <$> successors).
Proof.
  intros run. split; [|split].
  - intros Hnone. subst run. unfold actions.fromNode. run_action.
    by rewrite Hnone.
  - intros application appNode successors Happ HappNode Hsucc Hforeign.
    subst run. unfold actions.fromNode. run_action.
    rewrite Happ. simpl. rewrite HappNode. simpl. rewrite Hsucc. simpl.
    apply lodashFacts.find_None in Hforeign. rewrite Hforeign. simpl.
    split; [done|]. split; [done|]. intros m Hin.
    repeat (apply elem_of_cons in Hin as [Heq | Hin]; [discriminate|]).
    by apply elem_of_nil in Hin.
  - intros Hchanged.
    destruct (fromNode_cases api payload state) as [[Hsame Hquiet] | Hsucc];
      [|exact Hsucc].
    fold run in Hsame, Hquiet.
    destruct Hchanged as [Hne | [m Hin]]; [contradiction|].
    by apply Hquiet in Hin.
Qed.

Lemma fromNode_ignores_other_nodes_witness :
  store (actions.fromNode sdf stranger working) = working.
Proof.
  destruct (fromNode_ignores_other_nodes sdf stranger working)
    as (_ & Hforeign & _).
  destruct (Hforeign demo {| Node.id := "node:1";
                             Node.objectType := "application" |} [service])
    as (_ & Hstore & _);
    [reflexivity | reflexivity | reflexivity | | exact Hstore].
  simpl. intros [Heq | Hin]%elem_of_cons; [discriminate|].
  by apply elem_of_nil in Hin.
Defined.

(** *** The event bar *)

Lemma updateEventBar_eventBar event logs state :
  eventBar (mutations.updateEventBar event logs state) =
  take 60
    (lodash.orderBy startUnixTimestamp Z.compare lodash.desc
       (item_of event logs
          :: lodash.baseUniq id [Event.id event] (eventBar state))).
Proof.
  unfold mutations.updateEventBar. cbn [eventBar].
  by rewrite lodashFacts.unionBy_cons.
Qed.

Lemma updateEventBar_ok event logs state :
  event_bar_ok (eventBar (mutations.updateEventBar event logs state)).
Proof.
  rewrite updateEventBar_eventBar. split; [|split].
  - rewrite length_take. lia.
  - apply lodashFacts.NoDup_fmap_take.
    rewrite lodashFacts.orderBy_Permutation.
    apply (lodashFacts.baseUniq_NoDup id []
             (item_of event logs :: eventBar state)).
  - apply lodashFacts.take_descending, lodashFacts.orderBy_descending.
Qed.

Lemma updateEventBar_elem event logs state item :
  item ∈ eventBar (mutations.updateEventBar event logs state) ->
  item = item_of event logs \/
  (item ∈ eventBar state /\ id item <> Event.id event).
Proof.
  rewrite updateEventBar_eventBar. intros Hin.
  apply (subseteq_take _ _ _) in Hin.
  rewrite lodashFacts.orderBy_Permutation in Hin.
  apply elem_of_cons in Hin as [-> | Hin]; [by left|].
  apply lodashFacts.baseUniq_elem in Hin as [Hin Hfresh].
  right. split; [done|]. intros Hid. apply Hfresh. rewrite Hid. by left.
Qed.

(** The items with another id than the pushed event's, in a bar that has
    one item for an id. *)
Lemma updateEventBar_others event (bar : list EventBarItem) :
  NoDup (id <$> bar) ->
  lodash.baseUniq id [Event.id event] bar
  = filter (fun old => id old <> Event.id event) bar.
Proof.
  intros Hnd. rewrite lodashFacts.baseUniq_filter by done.
  apply lodashFacts.filter_ext_elem. intros x _.
  by rewrite list_elem_of_singleton.
Qed.

(** Pushing an event whose id is in the bar drops nothing but the item it
    replaces. *)
Lemma updateEventBar_all event logs state :
  NoDup (id <$> eventBar state) ->
  (length (eventBar state) <= 60)%nat ->
  Event.id event ∈ id <$> eventBar state ->
  eventBar (mutations.updateEventBar event logs state)
  ≡ₚ item_of event logs
     :: filter (fun old => id old <> Event.id event) (eventBar state).
Proof.
  intros Hnd Hlen Hin. rewrite updateEventBar_eventBar.
  rewrite updateEventBar_others by done.
  rewrite take_ge; [apply lodashFacts.orderBy_Permutation|].
  rewrite lodashFacts.orderBy_Permutation. simpl.
  pose proof (lodashFacts.filter_shorter id (Event.id event)
                (eventBar state) Hin).
  lia.
Qed.

(** What the limit of 60 cuts off starts no later than what it keeps. *)
Lemma updateEventBar_dropped event logs state dropped kept :
  let bar := eventBar (mutations.updateEventBar event logs state) in
  dropped ∈ item_of event logs
              :: lodash.baseUniq id [Event.id event] (eventBar state) ->
  dropped ∉ bar -> kept ∈ bar ->
  (startUnixTimestamp dropped <= startUnixTimestamp kept)%Z.
Proof.
  intros bar. subst bar. rewrite updateEventBar_eventBar.
  set (sorted := lodash.orderBy startUnixTimestamp Z.compare lodash.desc _).
  intros Hin Hout Hkept.
  assert (Hsorted : StronglySorted (lodash.descending startUnixTimestamp)
                      (take 60 sorted ++ drop 60 sorted)).
  { rewrite take_drop. apply lodashFacts.orderBy_descending. }
  apply (StronglySorted_app_1_elem_of _ _ _ kept dropped Hsorted); [done|].
  rewrite <- (lodashFacts.orderBy_Permutation
                startUnixTimestamp Z.compare lodash.desc) in Hin.
  fold sorted in Hin. rewrite <- (take_drop 60 sorted) in Hin.
  apply elem_of_app in Hin as [Hin | Hin]; [contradiction | done].
Qed.

Example pushes_replace_and_sort :
  id <$> eventBar (pushes [ (deploy, []); (sync, []) ])
    = ["event:2"; "event:1"] /\
  Editor.event <$> eventBar (pushes [ (deploy, []); (sync, []); (deploy_again, []) ])
    = [deploy_again; sync].
Proof. split; reflexivity. Qed.

(** C8. After an [updateEventBar] the event bar has at most 60 items, has at
    most one item for an event id, and is in descending order of
    [event.startUnixTimestamp]; an item that carries the id of the pushed
    event is the item built from that push, and every other item was in the
    bar before.  In a bar that was within these bounds, the new bar has the
    pushed item and the other items up to the limit of 60; the pushed item
    is in it exactly when fewer than 60 of the others start later, a push
    with an id that was in the bar replaces the old item and loses no other
    item, and what the limit cuts off starts no later than what it keeps.
    The bounds hold of the bar after any sequence of [updateEventBar]
    mutations of the initial store, where a push with an id that is in the
    bar gives the bar with the old item replaced by the pushed one. *)
Theorem updateEventBar_keeps_bar_bounded_unique_sorted :
  (forall event logs state,
      let bar := eventBar (mutations.updateEventBar event logs state) in
      let pushed := item_of event logs in
      let others :=
        filter (fun old => id old <> Event.id event) (eventBar state) in
      (length bar <= 60)%nat /\
      NoDup (id <$> bar) /\
      StronglySorted
        (fun earlier later =>
           (Event.startUnixTimestamp (Editor.event later)
            <= Event.startUnixTimestamp (Editor.event earlier))%Z) bar /\
      (forall item, item ∈ bar -> id item = Event.id event ->
                    item = pushed) /\
      (forall item, item ∈ bar -> id item <> Event.id event ->
                    item ∈ eventBar state) /\
      (event_bar_ok (eventBar state) ->
       length bar = (60 `min` S (length others))%nat /\
       (pushed ∈ bar <->
        (length
           (filter
              (fun old =>
                 (Event.startUnixTimestamp event
                  < Event.startUnixTimestamp (Editor.event old))%Z)
              others) < 60)%nat) /\
       (Event.id event ∈ id <$> eventBar state -> bar ≡ₚ pushed :: others) /\
       (forall dropped kept,
           dropped ∈ pushed :: others -> dropped ∉ bar -> kept ∈ bar ->
           (Event.startUnixTimestamp (Editor.event dropped)
            <= Event.startUnixTimestamp (Editor.event kept))%Z))) /\
  (forall updates, event_bar_ok (eventBar (pushes updates))) /\
  (forall updates event logs,
      Event.id event ∈ id <$> eventBar (pushes updates) ->
      eventBar (pushes (updates ++ [(event, logs)]))
      ≡ₚ item_of event logs
         :: filter (fun old => id old <> Event.id event)
              (eventBar (pushes updates))).
Proof.
  assert (Hruns : forall updates, event_bar_ok (eventBar (pushes updates))).
  { intros updates. induction updates as [|update updates IH] using rev_ind.
    - repeat split; simpl; [lia | constructor | constructor].
    - unfold pushes. rewrite foldl_app. simpl. apply updateEventBar_ok. }
  split; [|split; [exact Hruns|]].
  - intros event logs state bar pushed others. subst bar pushed others.
    destruct (updateEventBar_ok event logs state) as (Hlen & Hnodup & Hsorted).
    split; [done|]. split; [done|]. split; [exact Hsorted|].
    split; [|split].
    + intros item [-> | [_ Hne]]%updateEventBar_elem Hid; [done | contradiction].
    + intros item [-> | [Hin _]]%updateEventBar_elem Hid; [|done].
      by contradict Hid.
    + intros (Hlen0 & Hnd0 & _).
      rewrite <- (updateEventBar_others event) by done.
      split; [|split; [|split]].
      * rewrite updateEventBar_eventBar, length_take.
        by rewrite lodashFacts.orderBy_Permutation.
      * rewrite updateEventBar_eventBar.
        apply (lodashFacts.orderBy_head_taken startUnixTimestamp 60
                 (item_of event logs)).
      * intros Hin. rewrite updateEventBar_others by done.
        by apply updateEventBar_all.
      * intros dropped kept. apply updateEventBar_dropped.
  - intros updates event logs Hin.
    destruct (Hruns updates) as (Hlen & Hnd & _).
    unfold pushes at 1. rewrite foldl_app. simpl.
    by apply updateEventBar_all.
Qed.

Lemma updateEventBar_keeps_bar_bounded_unique_sorted_witness :
  event_bar_ok
    (eventBar (pushes [ (deploy, []); (sync, []); (deploy_again, []) ])) /\
  item_of deploy_again []
    ∈ eventBar (pushes [ (deploy, []); (sync, []); (deploy_again, []) ]).
Proof.
  destruct updateEventBar_keeps_bar_bounded_unique_sorted
    as (Hstep & Hruns & _).
  split; [apply Hruns|].
  destruct (Hstep deploy_again [] (pushes [ (deploy, []); (sync, []) ]))
    as (_ & _ & _ & _ & _ & Hpushed).
  destruct (Hpushed (Hruns _)) as (_ & Hin & _).
  apply Hin. vm_compute. lia.
Defined.

End EditorFacts.

Module ExternalProvidersFacts.
Import ExternalProviders.

Section Procedure.
Variable tenancy_json_to_columns_v1 : option json -> tenancy_record_v1.t.
Variable visibility_json_to_columns_v1 : option json -> visibility_record_v1.t.
Variable timestamptz_out : timestamptz -> string.

Variable now : timestamptz.
Variables this_tenancy this_visibility : option json.
Variables this_prop_id this_schema_id this_schema_variant_id : option bigint.
Variables this_name this_type_definition : option string.
Variable this_attribute_prototype_id : option bigint.
Variable db : Database.

Local Abbreviation call :=
  (external_provider_create_v1
     tenancy_json_to_columns_v1 visibility_json_to_columns_v1 timestamptz_out
     now this_tenancy this_visibility
     this_prop_id this_schema_id this_schema_variant_id
     this_name this_type_definition this_attribute_prototype_id db).

(** A NULL [tenancy_universal] violates the column's NOT NULL. *)
Lemma create_null_tenancy_universal :
  tenancy_record_v1.tenancy_universal
    (tenancy_json_to_columns_v1 this_tenancy) = None ->
  call = Raised (not_null_violation "tenancy_universal") (advance db).
Proof.
  intros Hnull. unfold external_provider_create_v1.
  cbv zeta. by rewrite Hnull.
Qed.

(** Raising leaves every table as it was. *)
Lemma create_raised_tables e db' :
  call = Raised e db' ->
  external_providers db' = external_providers db /\
  standard_models db' = standard_models db /\
  other_tables db' = other_tables db.
Proof.
  unfold external_provider_create_v1. cbv zeta.
  destruct (tenancy_record_v1.tenancy_universal _);
    [case_bool_decide|]; intros Hcall; inversion Hcall; done.
Qed.

End Procedure.

Lemma keys_from_sequence_fresh (db : Database) :
  keys_from_sequence db ->
  (external_providers_pk_seq db + 1)%Z ∉ pk <$> external_providers db.
Proof.
  unfold keys_from_sequence. rewrite Forall_forall.
  intros Hkeys (r & Hpk & Hin)%list_elem_of_fmap.
  apply Hkeys in Hin. lia.
Qed.




End ExternalProvidersFacts.

Module ExistsCheckFacts.
Import ExistsCheck.

Lemma truthy_and_then (a b : JsValue) :
  truthy (and_then a b) = truthy a && truthy b.
Proof. unfold and_then. destruct (truthy a) eqn:Ha; [done | exact Ha]. Qed.

(** [truthy] is [ToBoolean]: false on the falsy values and on them only. *)
Lemma truthy_not_Falsy (v : JsValue) : truthy v = true <-> ~ Falsy v.
Proof.
  split.
  - intros Htrue Hfalsy. destruct Hfalsy; discriminate.
  - intros Hnot. destruct v as [| |[]|[| |negative mantissa exponent]|s|];
      simpl; try done; try (exfalso; apply Hnot; constructor).
    + destruct mantissa; [exfalso; apply Hnot; constructor | done].
    + destruct s; [exfalso; apply Hnot; constructor | done].
Qed.

(** [resource?.value] is truthy only for an object with a truthy own
    property [value]. *)
Lemma optional_value_truthy (resource : JsValue) :
  truthy (optional_value resource) = true <->
  exists properties value,
    resource = JsObject properties /\
    own properties "value" = Some value /\
    ~ Falsy value.
Proof.
  split.
  - destruct resource as [| | | | |properties]; simpl; try discriminate.
    destruct (own properties "value") as [value|] eqn:Hown; [|discriminate].
    simpl. intros Htrue%truthy_not_Falsy. by exists properties, value.
  - intros (properties & value & -> & Hown & Hvalue). simpl.
    rewrite Hown. simpl. by apply truthy_not_Falsy.
Qed.

Example exists_deleted_resource :
  exists_ {| resource := JsObject [("value", JsString "vpc-1")];
             deleted_at := JsString "2022-05-01T00:00:00Z" |}
  = Returned {| success := false; recommendedActions := ["delete"] |}.
Proof. reflexivity. Qed.

Example exists_no_resource :
  exists_ {| resource := JsUndefined;
             deleted_at := JsString "2022-05-01T00:00:00Z" |}
  = Returned {| success := true; recommendedActions := [] |}.
Proof. reflexivity. Qed.

Example exists_live_resource :
  exists_ {| resource := JsObject [("value", JsString "vpc-1")];
             deleted_at := JsUndefined |}
  = Returned {| success := true; recommendedActions := [] |}.
Proof. reflexivity. Qed.

Example exists_empty_value :
  exists_ {| resource := JsObject [("value", JsString "")];
             deleted_at := JsString "2022-05-01T00:00:00Z" |}
  = Returned {| success := true; recommendedActions := [] |}.
Proof. reflexivity. Qed.

(** C10. [exists] returns [{ success: false, recommendedActions: ["delete"] }]
    exactly when the input's resource is an object whose own property
    [value] is not one of the falsy values and [deleted_at] is not falsy
    either, returns [{ success: true, recommendedActions: [] }] in every
    other case, and never throws. *)
Theorem exists_recommends_delete_iff_deleted_resource (input : Input) :
  let deleted_resource :=
    (exists properties value,
        resource input = JsObject properties /\
        own properties "value" = Some value /\
        ~ Falsy value) /\
    ~ Falsy (deleted_at input) in
  (exists_ input =
     Returned {| success := false; recommendedActions := ["delete"] |}
   <-> deleted_resource) /\
  (exists_ input = Returned {| success := true; recommendedActions := [] |}
   <-> ~ deleted_resource) /\
  (exists_ input =
     Returned {| success := false; recommendedActions := ["delete"] |} \/
   exists_ input = Returned {| success := true; recommendedActions := [] |}) /\
  (forall e, exists_ input <> Thrown e).
Proof.
  intros deleted_resource. subst deleted_resource.
  rewrite <- optional_value_truthy, <- truthy_not_Falsy.
  unfold exists_. rewrite truthy_and_then.
  destruct (truthy (optional_value (resource input)));
    destruct (truthy (deleted_at input)); simpl;
    (split; [split; [try discriminate; done | intros [? ?]; try discriminate; done]|]);
    (split; [split; [try discriminate; intros _ [? ?]; discriminate
                    | try done; intros Hnot; exfalso; by apply Hnot]|]);
    (split; [by (left + right) | discriminate]).
Qed.

Lemma exists_recommends_delete_iff_deleted_resource_witness :
  exists_ {| resource := JsObject [("value", JsString "vpc-1")];
             deleted_at := JsString "2022-05-01T00:00:00Z" |}
  = Returned {| success := false; recommendedActions := ["delete"] |}.
Proof.
  apply (exists_recommends_delete_iff_deleted_resource
           {| resource := JsObject [("value", JsString "vpc-1")];
              deleted_at := JsString "2022-05-01T00:00:00Z" |}).
  split.
  - exists [("value", JsString "vpc-1")], (JsString "vpc-1").
    split; [reflexivity|]. split; [reflexivity|]. intros Hfalsy.
    inversion Hfalsy.
  - intros Hfalsy. inversion Hfalsy.
Defined.

End ExistsCheckFacts.

Module IconNamesFacts.
Import IconRegistry JsArray IconNames IconRegistryFacts.

(** *** Splitting and joining *)

Lemma join_cons_head (c : ascii) (pieces : list string) :
  pieces <> [] ->
  join "--" (cons_head c pieces) = String c (join "--" pieces).
Proof.
  destruct pieces as [|piece [|next more]]; [contradiction | done | done].
Qed.

Lemma split_unfold (c d : ascii) (rest : string) :
  split (String c (String d rest)) =
  if Ascii.eqb c "-" && Ascii.eqb d "-"
  then EmptyString :: split rest
  else cons_head c (split (String d rest)).
Proof. reflexivity. Qed.

Lemma join_split_upto (n : nat) :
  forall name, (String.length name <= n)%nat -> join "--" (split name) = name.
Proof.
  induction n as [|n IH]; intros name Hlen.
  - destruct name; simpl in *; [done | lia].
  - destruct name as [|c [|d rest]]; [done | done |].
    rewrite split_unfold.
    destruct (Ascii.eqb c "-" && Ascii.eqb d "-") eqn:Hsep.
    + apply andb_true_iff in Hsep as [Hc Hd].
      apply Ascii.eqb_eq in Hc, Hd. subst c d.
      assert (Hrest : join "--" (split rest) = rest)
        by (apply IH; simpl in Hlen; lia).
      pose proof (split_nonempty rest) as Hne.
      destruct (split rest) as [|piece more]; [contradiction|].
      change (join "--" ("" :: piece :: more))
        with ("--" +:+ join "--" (piece :: more)).
      by rewrite Hrest.
    + rewrite join_cons_head by apply split_nonempty.
      f_equal. apply IH. simpl in Hlen. simpl. lia.
Qed.

Lemma nameWithoutModifiers_idempotent (name : string) :
  nameWithoutModifiers (nameWithoutModifiers name) = nameWithoutModifiers name.
Proof.
  induction name as [|c tl IH]; [done|].
  rewrite nameWithoutModifiers_cons.
  destruct (starts_with_separator (String c tl)) eqn:Hsep; [done|].
  rewrite nameWithoutModifiers_cons.
  assert (Hbase : starts_with_separator (String c (nameWithoutModifiers tl))
                  = false).
  { destruct tl as [|d rest]; [done|].
    rewrite nameWithoutModifiers_cons.
    destruct (starts_with_separator (String d rest)); [done|].
    exact Hsep. }
  rewrite Hbase. by rewrite IH.
Qed.

Lemma split_pieces_upto (n : nat) :
  forall name, (String.length name <= n)%nat ->
  Forall (fun piece => nameWithoutModifiers piece = piece) (split name).
Proof.
  induction n as [|n IH]; intros name Hlen.
  - destruct name; simpl in *; [|lia]. by repeat constructor.
  - destruct name as [|c [|d rest]].
    + by repeat constructor.
    + by repeat constructor.
    + assert (Htl : Forall (fun piece => nameWithoutModifiers piece = piece)
                      (split (String d rest)))
        by (apply IH; simpl in *; lia).
      assert (Hhead : first_key (cons_head c (split (String d rest)))
                      = nameWithoutModifiers (String c (String d rest))
                      \/ Ascii.eqb c "-" && Ascii.eqb d "-" = true).
      { unfold nameWithoutModifiers at 1. rewrite split_unfold.
        destruct (Ascii.eqb c "-" && Ascii.eqb d "-"); [by right | by left]. }
      rewrite split_unfold.
      destruct (Ascii.eqb c "-" && Ascii.eqb d "-") eqn:Hsep.
      * constructor; [done|]. apply IH. simpl in *. lia.
      * destruct Hhead as [Hhead | Habs]; [|discriminate].
        pose proof (split_nonempty (String d rest)) as Hne.
        destruct (split (String d rest)) as [|piece more]; [contradiction|].
        simpl in *. apply Forall_cons in Htl as [_ Hmore].
        constructor; [|exact Hmore].
        rewrite Hhead. apply nameWithoutModifiers_idempotent.
Qed.

(** X1. Splitting a name at its separators loses nothing: joining the pieces
    with the separator gives the name back, and no piece holds a separator
    (each piece is its own base name). *)
Theorem join_split_round_trip (name : string) :
  join "--" (split name) = name /\
  Forall (fun piece => nameWithoutModifiers piece = piece) (split name).
Proof.
  split.
  - apply (join_split_upto (String.length name)). lia.
  - apply (split_pieces_upto (String.length name)). lia.
Qed.

(** *** Only the base name counts *)

Lemma getIconByName_base (name : string) :
  getIconByName name = getIconByName (nameWithoutModifiers name).
Proof. unfold getIconByName. by rewrite nameWithoutModifiers_idempotent. Qed.

(** X2. [getIconByName] looks at nothing but the part of the name before the
    first separator: a name and its base name get the same result, and so do
    any two names with the same base name. *)
Theorem getIconByName_depends_on_base_only (name other : string) :
  getIconByName name = getIconByName (nameWithoutModifiers name) /\
  (nameWithoutModifiers name = nameWithoutModifiers other ->
   getIconByName name = getIconByName other).
Proof.
  split.
  - apply getIconByName_base.
  - intros Hbase. unfold getIconByName. by rewrite Hbase.
Qed.

Lemma getIconByName_depends_on_base_only_witness :
  getIconByName "chevron--left" = getIconByName "chevron--down".
Proof.
  destruct (getIconByName_depends_on_base_only "chevron--left" "chevron--down")
    as [_ Hsame].
  apply Hsame. reflexivity.
Defined.

Lemma starts_with_separator_append (c : ascii) (tl more : string) :
  starts_with_separator (String c (tl +:+ "-" +:+ more)) =
  starts_with_separator (String c (tl +:+ "-")).
Proof. destruct tl; reflexivity. Qed.

(** A key with no separator up to and including a trailing dash is the base
    name of the key followed by a separator and anything. *)
Lemma nameWithoutModifiers_modified (key modifiers : string) :
  nameWithoutModifiers (key +:+ "-") = key +:+ "-" ->
  nameWithoutModifiers (key +:+ "--" +:+ modifiers) = key.
Proof.
  induction key as [|c tl IH]; intros Hkey; [done|].
  change (String c tl +:+ "-") with (String c (tl +:+ "-")) in Hkey.
  rewrite nameWithoutModifiers_cons in Hkey.
  change (String c tl +:+ "--" +:+ modifiers)
    with (String c (tl +:+ "-" +:+ ("-" +:+ modifiers))).
  rewrite nameWithoutModifiers_cons, starts_with_separator_append.
  destruct (starts_with_separator (String c (tl +:+ "-"))); [discriminate|].
  injection Hkey as Htl. f_equal. by apply IH.
Qed.

Lemma own_elem {A} (table : list (string * A)) (key : string) (v : A) :
  own table key = Some v -> (key, v) ∈ table.
Proof.
  induction table as [|[k w] rest IH]; simpl; [discriminate|].
  destruct (String.eqb k key) eqn:Hk.
  - apply String.eqb_eq in Hk. intros [= ->]. subst. by left.
  - intros Hown. right. by apply IH.
Qed.

(** X3. Every key of the two tables finds its own entry, bare or followed by
    a separator and any modifiers: no key is shadowed by another key, by the
    other table or by [Object.prototype]. *)
Theorem getIconByName_finds_every_key
    (key modifiers : string) (icon : Asset) :
  (key, icon) ∈ SPINNABLE_ICONS ++ ICONS ->
  getIconByName key = Own icon /\
  getIconByName (key +:+ "--" +:+ modifiers) = Own icon.
Proof.
  intros Hin.
  assert (Hbare : getIconByName key = Own icon /\
                  nameWithoutModifiers (key +:+ "-") = key +:+ "-").
  { unfold SPINNABLE_ICONS, ICONS in Hin. simpl in Hin.
    repeat (apply elem_of_cons in Hin as [[= -> ->] | Hin];
            [split; reflexivity|]).
    by apply elem_of_nil in Hin. }
  destruct Hbare as [Hbare Hkey]. split; [exact Hbare|].
  rewrite (getIconByName_base (key +:+ "--" +:+ modifiers)),
    (nameWithoutModifiers_modified key modifiers Hkey).
  exact Hbare.
Qed.

Lemma getIconByName_finds_every_key_witness :
  getIconByName "arrow" = Own Arrow /\
  getIconByName ("arrow" +:+ "--" +:+ "down") = Own Arrow.
Proof.
  apply (getIconByName_finds_every_key "arrow" "down" Arrow).
  by left.
Defined.

(** X4. [getIconByName] never returns [undefined]: the result is an icon of
    one of the two tables, or the member of [Object.prototype] that the base
    name names. *)
Theorem getIconByName_never_undefined (name : string) :
  getIconByName name <> Undefined /\
  ((exists icon,
       getIconByName name = Own icon /\
       icon ∈ icons SPINNABLE_ICONS ++ icons ICONS) \/
   (getIconByName name = Inherited (nameWithoutModifiers name) /\
    nameWithoutModifiers name ∈ OBJECT_PROTOTYPE)).
Proof.
  destruct (inherited (nameWithoutModifiers name)) eqn:Hinh.
  - rewrite (getIconByName_inherited name Hinh). split; [done|].
    right. split; [done|]. by apply bool_decide_eq_true in Hinh.
  - rewrite (getIconByName_registered name Hinh).
    destruct (own SPINNABLE_ICONS _) as [icon|] eqn:Hspin.
    { split; [done|]. left. exists icon. split; [done|].
      apply elem_of_app. left. apply own_elem in Hspin.
      apply list_elem_of_fmap. by exists (nameWithoutModifiers name, icon). }
    destruct (own ICONS _) as [icon|] eqn:Hreg.
    { split; [done|]. left. exists icon. split; [done|].
      apply elem_of_app. right. apply own_elem in Hreg.
      apply list_elem_of_fmap. by exists (nameWithoutModifiers name, icon). }
    split; [done|]. left. exists QuestionMarkCircle. split; [done|].
    apply elem_of_app. right. unfold icons, ICONS. simpl.
    do 23 right. by left.
Qed.

End IconNamesFacts.

Module ApplicationContextMoreFacts.
Import ApplicationContext ApplicationContextRegistry.

Ltac run_action :=
  unfold bind, commit, emit, modify, read, ret; simpl.

Lemma store_eq (a b : ApplicationContextStore) :
  applicationId a = applicationId b ->
  activatedBy a = activatedBy b ->
  applicationName a = applicationName b ->
  systemsList a = systemsList b ->
  currentSystem a = currentSystem b ->
  openChangeSetsList a = openChangeSetsList b ->
  currentChangeSet a = currentChangeSet b ->
  currentEditSession a = currentEditSession b ->
  statusBarCtx a = statusBarCtx b ->
  editMode a = editMode b ->
  a = b.
Proof. destruct a, b. simpl. by intros -> -> -> -> -> -> -> -> -> ->. Qed.

Lemma activate_store (payload : InstanceStoreContext)
    (state : ApplicationContextStore) :
  store (actions.activate payload state) =
  mutations.addToActivatedBy (activateName payload) state.
Proof. reflexivity. Qed.

Lemma deactivate_store (payload : InstanceStoreContext)
    (state : ApplicationContextStore) :
  store (actions.deactivate payload state) =
  let removed :=
    mutations.removeFromActivatedBy (activateName payload) state in
  if Nat.eqb (size (activatedBy removed)) 0
  then mutations.clear removed else removed.
Proof.
  unfold actions.deactivate. run_action.
  destruct (Nat.eqb _ 0); reflexivity.
Qed.

(** X5. Activation is by name and is not counted.  Activating twice is the
    same as activating once, and one [deactivate] takes the name out however
    often it was activated.  When the name is new and another activator is
    there, [activate] followed by [deactivate] gives the store back as it
    was. *)
Theorem activate_then_deactivate
    (payload : InstanceStoreContext) (state : ApplicationContextStore) :
  let activated := store (actions.activate payload state) in
  let back := store (actions.deactivate payload activated) in
  activatedBy activated = activatedBy state ∪ {[ activateName payload ]} /\
  store (actions.activate payload activated) = activated /\
  activatedBy back = activatedBy state ∖ {[ activateName payload ]} /\
  (activateName payload ∉ activatedBy state ->
   activatedBy state <> ∅ ->
   back = state).
Proof.
  intros activated back. subst back activated.
  rewrite !activate_store, deactivate_store. cbv zeta.
  split; [done|]. split; [|split].
  - apply store_eq; try done. simpl.
    apply leibniz_equiv. intros x. rewrite !elem_of_union. tauto.
  - assert (Hnames :
      (activatedBy state ∪ {[ activateName payload ]})
        ∖ {[ activateName payload ]}
      = activatedBy state ∖ {[ activateName payload ]}).
    { apply leibniz_equiv. intros x.
      rewrite !elem_of_difference, elem_of_union. tauto. }
    destruct (Nat.eqb _ 0); simpl; exact Hnames.
  - intros Hnew Hothers.
    assert (Hnames :
      (activatedBy state ∪ {[ activateName payload ]})
        ∖ {[ activateName payload ]}
      = activatedBy state).
    { apply leibniz_equiv. intros x.
      rewrite elem_of_difference, elem_of_union, elem_of_singleton.
      split; [tauto|]. intros Hx. split; [by left|]. by intros ->. }
    simpl. rewrite Hnames.
    destruct (Nat.eqb (size (activatedBy state)) 0) eqn:Hsize.
    + apply Nat.eqb_eq, size_empty_iff, leibniz_equiv_iff in Hsize.
      contradiction.
    + apply store_eq; done.
Qed.

Lemma activate_then_deactivate_witness :
  store (actions.deactivate
           attributes_ctx
           (store (actions.activate attributes_ctx editing)))
  = editing.
Proof.
  destruct (activate_then_deactivate attributes_ctx editing)
    as (_ & _ & _ & Hback).
  apply Hback.
  - simpl. rewrite elem_of_singleton. discriminate.
  - simpl. intros Hempty.
    assert (Hin : "editor" ∈ ({[ "editor" ]} : gset string))
      by (by apply elem_of_singleton).
    rewrite Hempty in Hin. by apply not_elem_of_empty in Hin.
Defined.

(** X6. A successful [createEditSession] followed by a successful
    [cancelEditSession] leaves no current edit session and changes nothing
    else: when there was no edit session before, the store is back as it
    was. *)
Theorem createEditSession_then_cancel
    (dal : ApplicationContextDal)
    (create : ICreateEditSessionRequest) (cancel : ICancelEditSessionRequest)
    (session : EditSession) (state : ApplicationContextStore) :
  createEditSession dal create = Success session ->
  cancelEditSession dal cancel = Success tt ->
  let created := store (actions.createEditSession dal create state) in
  let cancelled := store (actions.cancelEditSession dal cancel created) in
  currentEditSession created = Some session /\
  cancelled = mutations.setCurrentEditSession None state /\
  (currentEditSession state = None -> cancelled = state).
Proof.
  intros Hcreate Hcancel created cancelled. subst cancelled created.
  unfold actions.createEditSession, actions.cancelEditSession.
  rewrite Hcreate, Hcancel. run_action.
  split; [done|]. split; [done|].
  intros Hnone. apply store_eq; done.
Qed.

Lemma createEditSession_then_cancel_witness :
  store (actions.cancelEditSession accepting
           {| cancel_editSessionId := "editSession:2" |}
           (store (actions.createEditSession accepting
                     {| create_changeSetId := "changeSet:1" |}
                     ApplicationContext.state)))
  = ApplicationContext.state.
Proof.
  destruct (createEditSession_then_cancel accepting
              {| create_changeSetId := "changeSet:1" |}
              {| cancel_editSessionId := "editSession:2" |}
              {| editSessionId := "editSession:2" |}
              ApplicationContext.state) as (_ & _ & Hback);
    [reflexivity | reflexivity |].
  apply Hback. reflexivity.
Defined.

(** X7. A successful [loadApplicationContext] takes the application name and
    both lists from the reply and appends a blank entry to the list of open
    change sets.  The list is the reply's own array, so the reply the action
    returns ends with the blank entry too.  The application id, the current
    system, change set and edit session, the edit mode and the activators
    stay as they were, and the name is sent on to the status bar exactly when
    a status bar context is set. *)
Theorem loadApplicationContext_success
    (dal : ApplicationContextDal) (request : IGetApplicationContextRequest)
    (reply : IGetApplicationContextReplySuccess)
    (state : ApplicationContextStore) :
  getApplicationContext dal request = Success reply ->
  let run := actions.loadApplicationContext dal request state in
  let blank := {| value := ""; label := "" |} in
  (exists returned,
      outcome run = Returned (Success returned) /\
      reply_openChangeSetsList returned = openChangeSetsList (store run)) /\
  openChangeSetsList (store run) = reply_openChangeSetsList reply ++ [blank] /\
  applicationName (store run) = Some (reply_applicationName reply) /\
  systemsList (store run) = reply_systemsList reply /\
  (applicationId (store run) = applicationId state /\
   activatedBy (store run) = activatedBy state /\
   currentSystem (store run) = currentSystem state /\
   currentChangeSet (store run) = currentChangeSet state /\
   currentEditSession (store run) = currentEditSession state /\
   statusBarCtx (store run) = statusBarCtx state /\
   editMode (store run) = editMode state) /\
  ((exists path,
       DispatchApplicationName path (reply_applicationName reply) ∈ trace run)
   <-> is_set (statusBarCtx state) = true).
Proof.
  intros Hreply run blank. subst run blank.
  unfold actions.loadApplicationContext. rewrite Hreply. run_action.
  destruct (statusBarCtx state) as [| |ctx] eqn:Hctx; simpl.
  - split; [by eexists|]. repeat (split; [done|]).
    split; [|discriminate]. intros [path Hin].
    apply elem_of_cons in Hin as [Heq | Hin]; [discriminate|].
    by apply elem_of_nil in Hin.
  - split; [by eexists|]. repeat (split; [done|]).
    split; [|discriminate]. intros [path Hin].
    apply elem_of_cons in Hin as [Heq | Hin]; [discriminate|].
    by apply elem_of_nil in Hin.
  - split; [by eexists|]. repeat (split; [done|]).
    intros _.
    exists (dispatchPath ctx (Some "setApplicationName")). right. by left.
Qed.

Lemma loadApplicationContext_success_witness :
  openChangeSetsList
    (store (actions.loadApplicationContext accepting
              {| applicationId_ := "application:1" |} editing))
  = [ {| value := "changeSet:1"; label := "first" |};
      {| value := ""; label := "" |} ].
Proof.
  destruct (loadApplicationContext_success accepting
              {| applicationId_ := "application:1" |}
              {| reply_applicationName := "demo";
                 reply_systemsList :=
                   [ {| value := "system:1"; label := "production" |} ];
                 reply_openChangeSetsList :=
                   [ {| value := "changeSet:1"; label := "first" |} ] |}
              editing) as (_ & Hlist & _); [reflexivity|].
  exact Hlist.
Defined.

(** X8. [loadChangeSetAndEditSession] and [createEditSessionAndLoadChangeSet]
    do the same with a successful reply: the reply's change set and edit
    session become the current ones, nothing else in the store changes, and
    the change set is published whether or not a status bar context is
    set. *)
Theorem select_changeSet_and_editSession
    (dal : ApplicationContextDal)
    (load : IGetChangeSetAndEditSessionRequest)
    (create : ICreateEditSessionAndGetChangeSetRequest)
    (reply : ChangeSetAndEditSession) (state : ApplicationContextStore) :
  getChangeSetAndEditSession dal load = Success reply ->
  createEditSessionAndGetChangeSet dal create = Success reply ->
  let run := actions.loadChangeSetAndEditSession dal load state in
  actions.createEditSessionAndLoadChangeSet dal create state = run /\
  outcome run = Returned (Success reply) /\
  store run =
    mutations.setCurrentChangeSetAndEditSession
      (Some (changeSet reply), Some (editSession reply)) state /\
  currentChangeSet (store run) = Some (changeSet reply) /\
  currentEditSession (store run) = Some (editSession reply) /\
  Publish (Some (changeSet reply)) ∈ trace run.
Proof.
  intros Hload Hcreate run. subst run.
  unfold actions.loadChangeSetAndEditSession,
    actions.createEditSessionAndLoadChangeSet.
  rewrite Hload, Hcreate. run_action.
  repeat (split; [done|]). right. by left.
Qed.

Lemma select_changeSet_and_editSession_witness :
  currentChangeSet
    (store (actions.loadChangeSetAndEditSession accepting
              {| get_changeSetId := "changeSet:1";
                 get_editSessionId := "editSession:1" |}
              ApplicationContext.state))
  = Some {| id := "changeSet:1"; name := "first" |}.
Proof.
  destruct (select_changeSet_and_editSession accepting
              {| get_changeSetId := "changeSet:1";
                 get_editSessionId := "editSession:1" |}
              {| cesgcs_changeSetId := "changeSet:1" |}
              {| changeSet := {| id := "changeSet:1"; name := "first" |};
                 editSession := {| editSessionId := "editSession:1" |} |}
              ApplicationContext.state)
    as (_ & _ & _ & Hcurrent & _); [reflexivity | reflexivity |].
  exact Hcurrent.
Defined.

(** X9. A successful [createChangeSetAndEditSession] puts an entry for the
    new change set, with its id as value and its name as label, in front of
    the open change sets, makes the change set and the edit session current,
    and publishes the change set exactly when a status bar context is set. *)
Theorem createChangeSetAndEditSession_success
    (dal : ApplicationContextDal)
    (request : ICreateChangeSetAndEditSessionRequest)
    (reply : ChangeSetAndEditSession) (state : ApplicationContextStore) :
  createChangeSetAndEditSession dal request = Success reply ->
  let run := actions.createChangeSetAndEditSession dal request state in
  outcome run = Returned (Success reply) /\
  openChangeSetsList (store run) =
    {| value := id (changeSet reply); label := name (changeSet reply) |}
      :: openChangeSetsList state /\
  currentChangeSet (store run) = Some (changeSet reply) /\
  currentEditSession (store run) = Some (editSession reply) /\
  (Publish (Some (changeSet reply)) ∈ trace run
   <-> is_set (statusBarCtx state) = true) /\
  (forall other, Publish other ∈ trace run -> other = Some (changeSet reply)).
Proof.
  intros Hreply run. subst run.
  unfold actions.createChangeSetAndEditSession. rewrite Hreply. run_action.
  destruct (is_set (statusBarCtx state)) eqn:Hctx; simpl.
  - repeat (split; [done|]). split.
    + split; [done|]. intros _. do 2 right. by left.
    + intros other Hin.
      repeat (apply elem_of_cons in Hin as [Heq | Hin];
              [by (discriminate || injection Heq as ->)|]).
      by apply elem_of_nil in Hin.
  - repeat (split; [done|]). split.
    + split; [|discriminate]. intros Hin.
      repeat (apply elem_of_cons in Hin as [Heq | Hin]; [discriminate|]).
      by apply elem_of_nil in Hin.
    + intros other Hin.
      repeat (apply elem_of_cons in Hin as [Heq | Hin]; [discriminate|]).
      by apply elem_of_nil in Hin.
Qed.

Lemma createChangeSetAndEditSession_success_witness :
  openChangeSetsList
    (store (actions.createChangeSetAndEditSession accepting
              {| changeSetName := "second" |} editing))
  = [ {| value := "changeSet:2"; label := "second" |};
      {| value := "changeSet:1"; label := "first" |} ].
Proof.
  destruct (createChangeSetAndEditSession_success accepting
              {| changeSetName := "second" |}
              {| changeSet := {| id := "changeSet:2"; name := "second" |};
                 editSession := {| editSessionId := "editSession:2" |} |}
              editing) as (_ & Hlist & _); [reflexivity|].
  exact Hlist.
Defined.

End ApplicationContextMoreFacts.

Module RegistryFacts.
Import ApplicationContext ApplicationContextRegistry.

Ltac run_action :=
  unfold bind, emit, modify, read, ret; simpl.

Lemma hasModule_true (path : list string) (store : SiVuexStore) :
  hasModule path store = true <-> path ∈ registered store.
Proof. unfold hasModule. apply bool_decide_eq_true. Qed.

Lemma hasModule_false (path : list string) (store : SiVuexStore) :
  hasModule path store = false <-> path ∉ registered store.
Proof. unfold hasModule. apply bool_decide_eq_false. Qed.

Lemma register_run (instance : Instance) (statusBarCtx : InstanceStoreContext)
    (store : SiVuexStore) :
  registerApplicationContext instance statusBarCtx store =
  if hasModule [storeName instance] store
     && negb (hasModule [storeName instance; instanceId instance] store)
  then (Returned tt,
        setStatusBarCtx_at [storeName instance; instanceId instance]
          statusBarCtx
          (registerModule [storeName instance; instanceId instance] store),
        [Dispatch (dispatchPath (ctx instance) (Some "setStatusBarCtx"))
           statusBarCtx])
  else (Returned tt, store, []).
Proof.
  unfold registerApplicationContext, dispatch_setStatusBarCtx. run_action.
  by destruct (hasModule [storeName instance] store && _).
Qed.

(** The instance module right after its registration and the dispatch. *)
Lemma registered_instances (path : list string)
    (statusBarCtx : InstanceStoreContext) (store : SiVuexStore) :
  instances (setStatusBarCtx_at path statusBarCtx (registerModule path store))
  = <[ path := mutations.setStatusBarCtx (Present statusBarCtx)
                 ApplicationContext.state ]> (instances store).
Proof.
  unfold setStatusBarCtx_at, registerModule. cbn [instances].
  by rewrite alter_insert_eq.
Qed.

Lemma registered_hasModule (path : list string)
    (statusBarCtx : InstanceStoreContext) (store : SiVuexStore) :
  hasModule path
    (setStatusBarCtx_at path statusBarCtx (registerModule path store)) = true.
Proof.
  apply hasModule_true. simpl. apply elem_of_union. right.
  by apply elem_of_singleton.
Qed.

Lemma unregister_run (instance : Instance) (store : SiVuexStore) :
  unregisterApplicationContext instance store =
  if hasModule [storeName instance; instanceId instance] store
  then (Returned tt,
        unregisterModule [storeName instance; instanceId instance] store, [])
  else (Returned tt, store, []).
Proof.
  unfold unregisterApplicationContext. run_action.
  by destruct (hasModule _ store).
Qed.

(** X10. [registerApplicationContext] registers the instance module and
    dispatches [setStatusBarCtx] to it only when the module of the store
    name is registered and the instance is not.  When the call resolves the
    new module holds the initial state with the given status bar context as
    [statusBarCtx], and no other module has changed.  It never resets an
    instance that is registered, so registering a second time changes
    nothing and dispatches nothing. *)
Theorem registerApplicationContext_registers_once
    (instance : Instance) (statusBarCtx : InstanceStoreContext)
    (store0 : SiVuexStore) :
  let path := [storeName instance; instanceId instance] in
  let first := registerApplicationContext instance statusBarCtx store0 in
  let second := registerApplicationContext instance statusBarCtx (store first) in
  ([storeName instance] ∈ registered store0 ->
   path ∉ registered store0 ->
   (registered (store first) = registered store0 ∪ {[ path ]}) /\
   (instances (store first) !! path =
      Some (mutations.setStatusBarCtx (Present statusBarCtx)
              ApplicationContext.state)) /\
   (forall state,
       instances (store first) !! path = Some state ->
       ApplicationContext.statusBarCtx state = Present statusBarCtx /\
       mutations.setStatusBarCtx Null state = ApplicationContext.state) /\
   (forall other,
       other <> path ->
       instances (store first) !! other = instances store0 !! other) /\
   trace first =
     [Dispatch (dispatchPath (ctx instance) (Some "setStatusBarCtx"))
        statusBarCtx]) /\
  ([storeName instance] ∉ registered store0 \/ path ∈ registered store0 ->
   store first = store0 /\ trace first = []) /\
  store second = store first /\
  trace second = [].
Proof.
  intros path first second. subst second first path.
  rewrite !register_run.
  destruct (hasModule [storeName instance] store0) eqn:Hparent;
    destruct (hasModule [storeName instance; instanceId instance] store0)
      eqn:Hinstance; unfold store, trace; cbn [fst snd andb negb].
  - rewrite Hparent, Hinstance. cbn [fst snd andb negb].
    apply hasModule_true in Hinstance.
    split; [intros _ Hnot; contradiction|]. done.
  - apply hasModule_true in Hparent. apply hasModule_false in Hinstance.
    rewrite registered_hasModule, andb_false_r. cbn [fst snd]. split.
    + intros _ _. rewrite registered_instances.
      split; [done|]. split; [apply lookup_insert_eq|].
      split; [|split; [|done]].
      * intros state. rewrite lookup_insert_eq. by intros [= <-].
      * intros other Hother. by apply lookup_insert_ne.
    + split; [|done]. intros [Hno | Hyes]; contradiction.
  - rewrite Hparent. cbn [fst snd andb]. apply hasModule_false in Hparent.
    split; [intros Hyes; contradiction | done].
  - rewrite Hparent. cbn [fst snd andb]. apply hasModule_false in Hparent.
    split; [intros Hyes; contradiction | done].
Qed.

Lemma registerApplicationContext_registers_once_witness :
  ApplicationContext.statusBarCtx
    <$> instances
          (store (registerApplicationContext application_instance
                    attributes_ctx booted))
        !! ["applicationContext"; "1"]
  = Some (Present attributes_ctx).
Proof.
  destruct (registerApplicationContext_registers_once
              application_instance attributes_ctx booted)
    as (Hfresh & _).
  destruct Hfresh as (_ & Hstate & _).
  - simpl. apply elem_of_union. left. by apply elem_of_singleton.
  - simpl. intros [Heq | Heq]%elem_of_union;
      apply elem_of_singleton in Heq; discriminate.
  - simpl in Hstate. by rewrite Hstate.
Defined.

(** X11. [unregisterApplicationContext] undoes a registration: after
    registering an instance that was not there and unregistering it, the
    module tree is as it was.  Unregistering an instance that is not
    registered changes nothing. *)
Theorem unregister_undoes_register
    (instance : Instance) (statusBarCtx : InstanceStoreContext)
    (store0 : SiVuexStore) :
  let path := [storeName instance; instanceId instance] in
  (path ∉ registered store0 ->
   store (unregisterApplicationContext instance store0) = store0) /\
  (path ∉ registered store0 ->
   instances store0 !! path = None ->
   store (unregisterApplicationContext instance
            (store (registerApplicationContext instance statusBarCtx store0)))
   = store0) /\
  (path ∉ registered (store (unregisterApplicationContext instance store0))) /\
  (instances (store (unregisterApplicationContext instance store0))) !! path
    = (if hasModule path store0 then None else instances store0 !! path).
Proof.
  intros path. subst path. rewrite !unregister_run, register_run.
  split; [|split; [|split]].
  - intros Hnot. apply hasModule_false in Hnot. by rewrite Hnot.
  - intros Hnot Hnone. pose proof Hnot as Hfalse.
    apply hasModule_false in Hfalse. rewrite Hfalse, andb_true_r.
    destruct (hasModule [storeName instance] store0) eqn:Hparent;
      unfold store; cbn [fst snd andb].
    + rewrite registered_hasModule. cbn [fst snd].
      unfold unregisterModule. rewrite registered_instances.
      destruct store0 as [paths states]. simpl in *. f_equal.
      * apply leibniz_equiv. intros p.
        rewrite elem_of_difference, elem_of_union, elem_of_singleton.
        split; [tauto|]. intros Hp. split; [by left|]. by intros ->.
      * by apply delete_insert_id.
    + by rewrite Hfalse.
  - destruct (hasModule _ store0) eqn:Hhas; unfold store; cbn [fst snd].
    + simpl. intros [_ Hnot]%elem_of_difference.
      apply Hnot. by apply elem_of_singleton.
    + by apply hasModule_false.
  - destruct (hasModule _ store0) eqn:Hhas; unfold store; cbn [fst snd];
      [|done].
    apply lookup_delete_eq.
Qed.

Lemma unregister_undoes_register_witness :
  store (unregisterApplicationContext application_instance
           (store (registerApplicationContext application_instance
                     attributes_ctx booted)))
  = booted.
Proof.
  destruct (unregister_undoes_register application_instance attributes_ctx
              booted) as (_ & Hundo & _).
  apply Hundo.
  - simpl. intros [Heq | Heq]%elem_of_union;
      apply elem_of_singleton in Heq; discriminate.
  - reflexivity.
Defined.

End RegistryFacts.

Module EditorMoreFacts.
Import Editor.

Ltac run_action :=
  unfold bind, commit, router, emit, modify, read, ret, throw, await, member;
  simpl.

(** *** Resources *)

Section OrderDescending.
Context {A : Type}.
Variable iteratee : A -> string.

(** [x] may stand before [y]: its id is not the smaller one. *)
Local Abbreviation before :=
  (fun x y : A => String.compare (iteratee x) (iteratee y) <> Lt).

Lemma place_desc_sorted (x : A) (sorted : list A) :
  Sorted before sorted ->
  Sorted before (lodash.place iteratee String.compare lodash.desc x sorted).
Proof.
  induction 1 as [|y rest Hsorted IH Hhd]; simpl.
  - repeat constructor.
  - unfold lodash.compareMultiple.
    destruct (String.compare (iteratee x) (iteratee y)) eqn:Hcmp; simpl.
    + repeat constructor; [done | done |]. by rewrite Hcmp.
    + constructor; [exact IH|].
      assert (Hyx : before y x).
      { rewrite String.compare_antisym, Hcmp. done. }
      destruct rest as [|z rest']; simpl; [by constructor|].
      destruct (CompOpp (String.compare (iteratee x) (iteratee z)));
        constructor;
        try exact Hyx; by apply HdRel_inv in Hhd.
    + repeat constructor; [done | done |]. by rewrite Hcmp.
Qed.

Lemma orderBy_desc_sorted (array : list A) :
  Sorted before (lodash.orderBy iteratee String.compare lodash.desc array).
Proof.
  induction array as [|x rest IH]; simpl; [constructor|].
  by apply place_desc_sorted.
Qed.

(** With one element for a value, the order is strict. *)
Lemma sorted_strict (array : list A) :
  Sorted before array ->
  NoDup (iteratee <$> array) ->
  Sorted (fun x y => String.compare (iteratee y) (iteratee x) = Lt) array.
Proof.
  induction 1 as [|x rest Hsorted IH Hhd]; intros Hnodup; [constructor|].
  rewrite fmap_cons in Hnodup. apply NoDup_cons in Hnodup as [Hx Hnodup].
  constructor; [by apply IH|].
  destruct Hhd as [|y rest Hxy]; constructor.
  rewrite String.compare_antisym.
  destruct (String.compare (iteratee x) (iteratee y)) eqn:Hcmp; try done.
  apply String.compare_eq_iff in Hcmp. exfalso. apply Hx.
  rewrite Hcmp, fmap_cons. by left.
Qed.

End OrderDescending.

Lemma updateResources_elem (payload : Resource.t) (state : EditorStore) :
  payload ∈ resources (mutations.updateResources payload state).
Proof.
  unfold mutations.updateResources. cbn [resources].
  rewrite lodashFacts.orderBy_Permutation, lodashFacts.unionBy_cons.
  by left.
Qed.

(** X12. After [updateResources] the payload is among the resources, no id
    occurs twice, the ids are in strictly descending order, every other
    resource was there before and every id that was there still is. *)
Theorem updateResources_sorted_unique
    (payload : Resource.t) (state : EditorStore) :
  let after := resources (mutations.updateResources payload state) in
  payload ∈ after /\
  NoDup (Resource.id <$> after) /\
  Sorted (fun earlier later =>
            String.compare (Resource.id later) (Resource.id earlier) = Lt)
    after /\
  (forall r, r ∈ after ->
             r = payload \/
             (r ∈ resources state /\ Resource.id r <> Resource.id payload)) /\
  (forall i, i ∈ Resource.id <$> resources state ->
             i ∈ Resource.id <$> after).
Proof.
  intros after. subst after.
  unfold mutations.updateResources. cbn [resources].
  rewrite lodashFacts.unionBy_cons.
  set (merged := payload :: lodash.baseUniq Resource.id [Resource.id payload]
                              (resources state)).
  assert (Hperm :
    lodash.orderBy Resource.id String.compare lodash.desc merged ≡ₚ merged)
    by apply lodashFacts.orderBy_Permutation.
  assert (Hnodup : NoDup (Resource.id <$> merged)).
  { apply (lodashFacts.baseUniq_NoDup Resource.id []
             (payload :: resources state)). }
  split; [|split; [|split; [|split]]].
  - rewrite Hperm. by left.
  - by rewrite Hperm.
  - apply sorted_strict; [apply orderBy_desc_sorted | by rewrite Hperm].
  - intros r Hin. rewrite Hperm in Hin.
    apply elem_of_cons in Hin as [-> | Hin]; [by left|].
    apply lodashFacts.baseUniq_elem in Hin as [Hin Hfresh].
    right. split; [done|]. intros Hid. apply Hfresh. rewrite Hid. by left.
  - intros i Hin. rewrite Hperm. subst merged. rewrite fmap_cons.
    destruct (decide (i = Resource.id payload)) as [-> | Hne]; [by left|].
    right. apply lodashFacts.baseUniq_values. split; [done|].
    intros [Heq | Hnil]%elem_of_cons; [done | by apply elem_of_nil in Hnil].
Qed.

(** *** Nodes of the application *)

Lemma find_head {A} (iteratee : A -> string) (x : A) (rest : list A) :
  lodash.find iteratee (iteratee x) (x :: rest) = Some x.
Proof. simpl. by rewrite bool_decide_eq_true_2. Qed.

Lemma find_Some_elem' (v : string) (successors : list Node.t) :
  v ∈ Node.id <$> successors ->
  exists n, lodash.find Node.id v successors = Some n.
Proof.
  intros Hin. destruct (lodash.find Node.id v successors) eqn:Hfind;
    [by eexists|].
  apply lodashFacts.find_None in Hfind. contradiction.
Qed.

(** X13. When the pushed node is a successor of the application's node,
    [fromNode] puts it in [nodes], where looking up its id finds it and no id
    occurs twice.  The selected node is replaced by the payload when it has
    the payload's id and stays otherwise.  With a system selected, the
    resource the backend returns for the node is merged into [resources];
    with none, [resources] stay as they are. *)
Theorem fromNode_takes_successor
    (api : Backend) (payload : Node.t) (state : EditorStore)
    (application : Entity.t) (appNode : Node.t) (successors : list Node.t) :
  Editor.application state = Some application ->
  entity_node api application = Returned appNode ->
  node_successors api appNode = Returned successors ->
  Node.id payload ∈ Node.id <$> successors ->
  let run := actions.fromNode api payload state in
  let after := store run in
  lodash.find Node.id (Node.id payload) (nodes after) = Some payload /\
  NoDup (Node.id <$> nodes after) /\
  node after =
    (if same_id (Node.id <$> node state) (Node.id payload)
     then Some payload else node state) /\
  match system state with
  | None => resources after = resources state /\ outcome run = Returned tt
  | Some system =>
      match resource_getByEntityIdAndSystemId api
              (Node.id payload) (System.id system) with
      | Returned resource =>
          resource ∈ resources after /\ outcome run = Returned tt
      | Thrown e =>
          resources after = resources state /\ outcome run = Thrown e
      end
  end.
Proof.
  intros Happ HappNode Hsucc Hin run after. subst after run.
  apply find_Some_elem' in Hin as [found Hfind].
  unfold actions.fromNode. run_action.
  rewrite Happ. simpl. rewrite HappNode. simpl. rewrite Hsucc. simpl.
  rewrite Hfind. simpl.
  assert (Hnodes : forall s,
    nodes s = lodash.unionBy Node.id [ [payload]; nodes state ] ->
    lodash.find Node.id (Node.id payload) (nodes s) = Some payload /\
    NoDup (Node.id <$> nodes s)).
  { intros s ->. split.
    - rewrite lodashFacts.unionBy_cons. apply find_head.
    - apply lodashFacts.baseUniq_NoDup. }
  destruct (same_id (Node.id <$> node state) (Node.id payload)) eqn:Hsame;
    simpl;
    (destruct (system state) as [system|] eqn:Hsys; simpl;
     [destruct (resource_getByEntityIdAndSystemId api _ _)
        as [resource|e] eqn:Hres; simpl|]);
    (destruct (Hnodes (mutations.updateNodes payload state) eq_refl)
       as [Hfound Hnodup]);
    (split; [exact Hfound|]; split; [exact Hnodup|]; split; [done|]);
    try (split; done).
  - split; [|done]. apply updateResources_elem.
  - split; [|done]. apply updateResources_elem.
Qed.

Lemma fromNode_takes_successor_witness :
  let payload := {| Node.id := "node:2"; Node.objectType := "database" |} in
  lodash.find Node.id "node:2"
    (nodes (store (actions.fromNode sdf payload working)))
  = Some payload.
Proof.
  intros payload.
  destruct (fromNode_takes_successor sdf payload working demo
              {| Node.id := "node:1"; Node.objectType := "application" |}
              [service]) as (Hfound & _);
    [reflexivity | reflexivity | reflexivity | | exact Hfound].
  simpl. by left.
Defined.

End EditorMoreFacts.

Module EditorOpsFacts.
Import Editor EditorOps.

Ltac run_action :=
  unfold lift, bind, commit, Editor.commit, router, emit, modify, read, ret,
    throw, await, member;
  simpl.

(** *** Switching the mode *)

Lemma setMode_setMode (mode : Mode) (state : EditorStore) :
  mutations.setMode (Editor.mode state) (mutations.setMode mode state) = state.
Proof. by destruct state. Qed.

(** X14. [modeSwitch] turns view into edit and edit into view, writes the new
    mode to the route query, touches no other field, and switching twice
    gives the store back. *)
Theorem modeSwitch_twice (state : EditorStore) :
  let once := actions.modeSwitch state in
  let twice := actions.modeSwitch (store once) in
  mode (store once) = match mode state with view => edit | edit => view end /\
  store once = mutations.setMode (mode (store once)) state /\
  Core (RouterReplace "mode" (Some (mode_name (mode (store once)))))
    ∈ trace once /\
  store twice = state.
Proof.
  intros once twice. subst twice once.
  unfold actions.modeSwitch. run_action.
  destruct state as [m]. simpl.
  destruct m; simpl; repeat split; do 1 right; by left.
Qed.

(** *** Clearing the editor *)

(** X15. The editor's [clear] gives every field its initial value except
    [newConfiguresInputTypes], which it leaves alone, and empties the table
    of position setters: the cleared store is the initial store exactly when
    that list was empty, and depends on nothing else of the old store. *)
Theorem clear_leaves_newConfiguresInputTypes
    (state other : EditorStore) (setters : gset string) :
  let cleared := (mutations.clear state setters).1 in
  (mutations.clear state setters).2 = ∅ /\
  newConfiguresInputTypes cleared = newConfiguresInputTypes state /\
  (cleared = Editor.state <-> newConfiguresInputTypes state = []) /\
  (newConfiguresInputTypes other = newConfiguresInputTypes state ->
   (mutations.clear other setters).1 = cleared) /\
  (mutations.clear cleared ∅).1 = cleared.
Proof.
  intros cleared. subst cleared. simpl.
  split; [done|]. split; [done|]. split; [|split; [|done]].
  - split.
    + intros Heq.
      by apply (f_equal newConfiguresInputTypes) in Heq.
    + intros ->. reflexivity.
  - by intros ->.
Qed.

Lemma clear_leaves_newConfiguresInputTypes_witness :
  (mutations.clear working ∅).1 = Editor.state.
Proof.
  destruct (clear_leaves_newConfiguresInputTypes working working ∅)
    as (_ & _ & Hinitial & _).
  apply Hinitial. reflexivity.
Defined.

(** *** Edit sessions pushed by the server *)

Lemma fromEditSession_run (payload : EditSession.t) (state : EditorStore) :
  actions.fromEditSession payload state =
  if same_id (EditSession.id <$> editSession state) (EditSession.id payload)
  then
    if bool_decide (editSession state = Some payload)
    then (Returned tt, state, [])
    else (Returned tt, Editor.mutations.editSession (Some payload) state,
          [ Core (Editor.Commit (SetEditSession (Some payload)));
            Core (RouterReplace "editSessionId"
                    (Some (EditSession.id payload))) ])
  else (Returned tt, state, []).
Proof.
  unfold actions.fromEditSession. run_action.
  destruct (same_id _ _); [|done]. by case_bool_decide.
Qed.

(** X16. [fromEditSession] never switches to another edit session: the id of
    the current session is the same before and after.  When the payload has
    the id of the current session it becomes the current session; otherwise
    the store is left alone.  Nothing is committed for a payload that equals
    the current session, so handling the same push again commits nothing. *)
Theorem fromEditSession_refreshes_current
    (payload : EditSession.t) (state : EditorStore) :
  let run := actions.fromEditSession payload state in
  let after := store run in
  EditSession.id <$> editSession after = EditSession.id <$> editSession state /\
  (EditSession.id <$> editSession state = Some (EditSession.id payload) ->
   editSession after = Some payload) /\
  (EditSession.id <$> editSession state <> Some (EditSession.id payload) ->
   after = state /\ trace run = []) /\
  (editSession state = Some payload -> after = state /\ trace run = []) /\
  trace (actions.fromEditSession payload after) = [].
Proof.
  intros run after. subst after run.
  rewrite !fromEditSession_run.
  destruct (same_id (EditSession.id <$> editSession state)
              (EditSession.id payload)) eqn:Hsame.
  - pose proof Hsame as Hid. apply EditorFacts.same_id_true in Hid.
    case_bool_decide as Heq; unfold store, trace;
      cbn [fst snd editSession Editor.mutations.editSession].
    + rewrite Hsame, bool_decide_eq_true_2 by done. done.
    + assert (Hself : same_id (EditSession.id <$> Some payload)
                        (EditSession.id payload) = true)
        by (by apply EditorFacts.same_id_true).
      rewrite Hself, bool_decide_eq_true_2 by done.
      split; [by rewrite Hid|]. done.
  - unfold store, trace; cbn [fst snd]. rewrite Hsame.
    split; [done|]. split; [|done].
    intros Hid. apply EditorFacts.same_id_true in Hid. congruence.
Qed.

Lemma fromEditSession_refreshes_current_witness :
  let renamed := {| EditSession.id := "editSession:1";
                    EditSession.name := "renamed";
                    EditSession.changeSetId := "changeSet:1" |} in
  let state :=
    Editor.mutations.editSession
      (Some {| EditSession.id := "editSession:1";
               EditSession.name := "alice";
               EditSession.changeSetId := "changeSet:1" |}) working in
  editSession (store (actions.fromEditSession renamed state)) = Some renamed.
Proof.
  intros renamed state.
  destruct (fromEditSession_refreshes_current renamed state)
    as (_ & Hsame & _).
  apply Hsame. reflexivity.
Defined.

(** *** The nodes on display *)

Lemma listed_spec (state : EditorStore) (n : Node.t) :
  getters.listed state n = true <->
  (exists object,
      objects state !! Node.id n = Some object /\
      ~ (NodeObject.head object = true /\ NodeObject.deleted object = true)) \/
  (objects state !! Node.id n = None /\ Node.id n ∈ OBJECT_PROTOTYPE).
Proof.
  unfold getters.listed, getters.object_of.
  destruct (objects state !! Node.id n) as [object|].
  - rewrite negb_true_iff, andb_false_iff. split.
    + intros Hshown. left. exists object. split; [done|].
      intros [Hh Hd]. destruct Hshown; congruence.
    + intros [(o & [= <-] & Hshown) | [Hnone _]]; [|done].
      destruct (NodeObject.head object); [|by left].
      destruct (NodeObject.deleted object); [|by right].
      exfalso. by apply Hshown.
  - unfold inherited. case_bool_decide as Hin.
    + split; [by right | done].
    + split; [done|]. intros [(o & Hsome & _) | [_ Hmember]]; done.
Qed.

(** X17. [nodeList] keeps the nodes, in their order, that have an entry in
    [objects] which is not a deleted head object.  The table is a plain
    object, so a node whose id names a member of [Object.prototype] counts as
    having an entry. *)
Theorem nodeList_shows_live_objects (state : EditorStore) (n : Node.t) :
  getters.nodeList state `sublist_of` nodes state /\
  (n ∈ getters.nodeList state <->
   n ∈ nodes state /\
   ((exists object,
        objects state !! Node.id n = Some object /\
        ~ (NodeObject.head object = true /\
           NodeObject.deleted object = true)) \/
    (objects state !! Node.id n = None /\ Node.id n ∈ OBJECT_PROTOTYPE))).
Proof.
  unfold getters.nodeList. split.
  - induction (nodes state) as [|m rest IH]; simpl; [constructor|].
    destruct (getters.listed state m); by constructor.
  - rewrite <- listed_spec, !list_elem_of_In, filter_In. tauto.
Qed.

(** *** Resources pushed by the server *)

(** X18. [fromResource] merges the payload into [resources] only when its
    node is on display, and then the payload is among them.  The current
    resource becomes the payload when it has the payload's id, or when the
    payload belongs to the selected system and the selected node; otherwise
    it stays.  The action always returns. *)
Theorem fromResource_follows_display
    (payload : Resource.t) (state : EditorStore) :
  let run := actions.fromResource payload state in
  let after := store run in
  outcome run = Returned tt /\
  (Resource.nodeId payload ∉ Node.id <$> getters.nodeList state ->
   resources after = resources state) /\
  (Resource.nodeId payload ∈ Node.id <$> getters.nodeList state ->
   payload ∈ resources after) /\
  currentResource after =
    (if same_id (Resource.id <$> currentResource state) (Resource.id payload)
        || (same_id (System.id <$> system state) (Resource.systemId payload)
            && same_id (Node.id <$> node state) (Resource.nodeId payload))
     then Some payload
     else currentResource state).
Proof.
  intros run after. subst after run.
  unfold actions.fromResource. run_action.
  destruct (lodash.find Node.id (Resource.nodeId payload)
              (getters.nodeList state)) as [found|] eqn:Hfind; simpl.
  - assert (Hin : Resource.nodeId payload ∈ Node.id <$> getters.nodeList state).
    { destruct (decide (Resource.nodeId payload
                          ∈ Node.id <$> getters.nodeList state)); [done|].
      apply lodashFacts.find_None in n. congruence. }
    destruct (same_id (Resource.id <$> currentResource state) _); simpl;
      [|destruct (same_id (System.id <$> system state) _ && _); simpl];
      (split; [done|]; split; [done|]; split; [|done]);
      intros _; apply EditorMoreFacts.updateResources_elem.
  - apply lodashFacts.find_None in Hfind.
    destruct (same_id (Resource.id <$> currentResource state) _); simpl;
      [|destruct (same_id (System.id <$> system state) _ && _); simpl];
      (split; [done|]; split; [done|]; split; [done|done]).
Qed.

Lemma fromResource_follows_display_witness :
  resources
    (store (actions.fromResource
              {| Resource.id := "resource:1";
                 Resource.nodeId := "node:2";
                 Resource.systemId := "system:1" |} working))
  = resources working.
Proof.
  destruct (fromResource_follows_display
              {| Resource.id := "resource:1";
                 Resource.nodeId := "node:2";
                 Resource.systemId := "system:1" |} working)
    as (_ & Hhidden & _).
  apply Hhidden. simpl. apply not_elem_of_nil.
Defined.

End EditorOpsFacts.

Module EntityOpsFacts.
Import Editor EditorOps EditorOpsNotions.

Ltac run_action :=
  unfold lift, bind, commit, Editor.commit, router, emit, modify, read, ret,
    throw, await, member;
  simpl.

Ltac sent :=
  repeat match goal with
         | H : _ ∈ _ :: _ |- _ =>
             apply elem_of_cons in H as [H | H];
             [first [discriminate | injection H as -> ->]|]
         end;
  try match goal with
      | H : _ ∈ [] |- _ => by apply elem_of_nil in H
      end.

Lemma bind_emit {S E A} (e : E) (k : Action S E A) (s : S) :
  bind (emit e) (fun _ => k) s =
  ((k s).1.1, (k s).1.2, e :: (k s).2).
Proof. unfold bind, emit. by destruct (k s) as [[r s'] t]. Qed.

Lemma sendOp_run (api : Sdf) (nodeId : string) (request : OpRequest)
    (state : EditorStore) :
  actions.sendOp api nodeId request state =
  (opEntitySet_create api nodeId request, state,
   [Call (OpEntitySet_create nodeId request)]).
Proof.
  unfold actions.sendOp. run_action.
  destruct (opEntitySet_create api nodeId request); reflexivity.
Qed.

Lemma entityDelete_sends api rootGetters payload state :
  let run := actions.entityDelete api rootGetters payload state in
  store run = state /\
  sends_only rootGetters state
    (fun op => op = Op.entityDelete
                 {| Op.cascade :=
                      match payload with
                      | Some {| delete_cascade := Some false |} => false
                      | _ => true
                      end |}) run.
Proof.
  intros run. subst run.
  unfold actions.entityDelete, actions.sendOp, sends_only. run_action.
  destruct (organization_current rootGetters) eqn:Horg,
    (workspace_current rootGetters) eqn:Hws,
    (changeSet state) eqn:Hcs, (editSession state) eqn:Hes,
    (node state) eqn:Hnode; simpl;
    try destruct (opEntitySet_create api _ _); simpl;
    (split; [done|]); intros nodeId request Hin; sent;
    (split; [done|]; split; [done|]).
  all: unfold in_edit_session; rewrite Horg, Hws, Hcs, Hes; simpl; done.
Qed.

Lemma entityNameSet_sends api rootGetters payload state :
  let run := actions.entityNameSet api rootGetters payload state in
  store run = state /\
  sends_only rootGetters state (fun op => op = Op.nameSet payload) run.
Proof.
  intros run. subst run.
  unfold actions.entityNameSet, actions.sendOp, sends_only. run_action.
  destruct (organization_current rootGetters) eqn:Horg,
    (workspace_current rootGetters) eqn:Hws,
    (changeSet state) eqn:Hcs, (editSession state) eqn:Hes,
    (node state) eqn:Hnode; simpl;
    try destruct (opEntitySet_create api _ _); simpl;
    (split; [done|]); intros nodeId request Hin; sent;
    (split; [done|]; split; [done|]).
  all: unfold in_edit_session; rewrite Horg, Hws, Hcs, Hes; simpl; done.
Qed.

Lemma entitySet_sends api rootGetters payload state :
  let run := actions.entitySet api rootGetters payload state in
  store run = state /\
  sends_only rootGetters state (fun op => op = Op.entitySet payload) run.
Proof.
  intros run. subst run.
  unfold actions.entitySet, actions.sendOp, sends_only. run_action.
  destruct (organization_current rootGetters) eqn:Horg,
    (workspace_current rootGetters) eqn:Hws,
    (changeSet state) eqn:Hcs, (editSession state) eqn:Hes,
    (node state) eqn:Hnode; simpl;
    try destruct (opEntitySet_create api _ _); simpl;
    (split; [done|]); intros nodeId request Hin; sent;
    (split; [done|]; split; [done|]).
  all: unfold in_edit_session; rewrite Horg, Hws, Hcs, Hes; simpl; done.
Qed.

Lemma entityAction_selected_sends api rootGetters action state :
  let run :=
    actions.entityAction api rootGetters
      {| entity_action := action; entity_nodeId := None |} state in
  store run = state /\
  sends_only rootGetters state
    (fun op => exists systemId,
         System.id <$> system state = Some systemId /\
         op = Op.entityAction
                {| Op.action := action; Op.systemId := systemId |}) run.
Proof.
  intros run. subst run.
  unfold actions.entityAction, actions.sendOp, sends_only. run_action.
  destruct (organization_current rootGetters) eqn:Horg,
    (workspace_current rootGetters) eqn:Hws,
    (changeSet state) eqn:Hcs, (editSession state) eqn:Hes,
    (node state) eqn:Hnode, (system state) eqn:Hsys; simpl;
    try destruct (opEntitySet_create api _ _); simpl;
    (split; [done|]); intros nodeId request Hin; sent;
    (split; [done|]; split; [by eexists|]).
  all: unfold in_edit_session; rewrite Horg, Hws, Hcs, Hes; simpl; done.
Qed.

(** X19. The entity operations ([entityDelete], [entityNameSet], [entitySet],
    [entityAction] on the selected node, and [sendAction]) never change the
    store, and send an op only inside an edit session: the op goes to the
    selected node and carries the ids of the current change set, edit
    session, organization and workspace.  [entityDelete] cascades unless its
    payload says [cascade: false], and [sendAction] turns the action
    [delete] into a cascading delete and any other action into an entity
    action on the selected system. *)
Theorem entity_ops_stay_in_edit_session
    (api : Sdf) (rootGetters : RootGetters) (state : EditorStore)
    (deletion : option ActionEntityDelete) (payload action : string) :
  let deleting := actions.entityDelete api rootGetters deletion state in
  let naming := actions.entityNameSet api rootGetters payload state in
  let setting := actions.entitySet api rootGetters payload state in
  let sending := actions.sendAction api rootGetters action state in
  (store deleting = state /\
   sends_only rootGetters state
     (fun op => op = Op.entityDelete
                  {| Op.cascade :=
                       match deletion with
                       | Some {| delete_cascade := Some false |} => false
                       | _ => true
                       end |}) deleting) /\
  (store naming = state /\
   sends_only rootGetters state (fun op => op = Op.nameSet payload) naming) /\
  (store setting = state /\
   sends_only rootGetters state (fun op => op = Op.entitySet payload) setting) /\
  (store sending = state /\
   sends_only rootGetters state
     (fun op =>
        if String.eqb action "delete"
        then op = Op.entityDelete {| Op.cascade := true |}
        else exists systemId,
            System.id <$> system state = Some systemId /\
            op = Op.entityAction
                   {| Op.action := action; Op.systemId := systemId |})
     sending).
Proof.
  intros deleting naming setting sending.
  split; [apply entityDelete_sends|].
  split; [apply entityNameSet_sends|].
  split; [apply entitySet_sends|].
  subst sending. clear deleting naming setting. unfold actions.sendAction.
  destruct (String.eqb action "delete").
  - destruct (entityDelete_sends api rootGetters
                (Some {| delete_cascade := Some true |}) state)
      as [Hstore Hsends].
    rewrite bind_emit. split; [exact Hstore|].
    intros nodeId request Hin. apply (Hsends nodeId request).
    apply elem_of_cons in Hin as [Heq | Hin]; [discriminate | exact Hin].
  - destruct (entityAction_selected_sends api rootGetters action state)
      as [Hstore Hsends].
    rewrite bind_emit. split; [exact Hstore|].
    intros nodeId request Hin. apply (Hsends nodeId request).
    apply elem_of_cons in Hin as [Heq | Hin]; [discriminate | exact Hin].
Qed.

Lemma entity_ops_stay_in_edit_session_witness :
  changeSetId
    {| op := Op.entityDelete {| Op.cascade := true |};
       organizationId := "organization:1";
       workspaceId := "workspace:1";
       changeSetId := "changeSet:1";
       editSessionId := "editSession:1" |} = "changeSet:1" /\
  in_edit_session signed_in in_session
    {| op := Op.entityDelete {| Op.cascade := true |};
       organizationId := "organization:1";
       workspaceId := "workspace:1";
       changeSetId := "changeSet:1";
       editSessionId := "editSession:1" |}.
Proof.
  destruct (entity_ops_stay_in_edit_session backend signed_in in_session
              None "" "delete") as (_ & _ & _ & _ & Hsends).
  split; [reflexivity|].
  apply (Hsends "node:2"). simpl. right. by left.
Defined.

End EntityOpsFacts.

Module EditorFlowFacts.
Import Editor EditorOps EditorOpsNotions.

Ltac run_action :=
  unfold lift, bind, commit, Editor.commit, router, emit, modify, read, ret,
    throw, await, member;
  simpl.

Ltac sent :=
  repeat match goal with
         | H : _ ∈ _ :: _ |- _ =>
             apply elem_of_cons in H as [H | H];
             [first [discriminate | injection H as -> ->]|]
         end;
  try match goal with
      | H : _ ∈ [] |- _ => by apply elem_of_nil in H
      end.

Lemma bind_read {S E A} (k : S -> Action S E A) (s : S) :
  bind read k s = k s s.
Proof. unfold bind, read. by destruct (k s s) as [[r s'] t]. Qed.

Lemma truthy_Some (value : option string) :
  truthy value = true -> value = Some (default "" value).
Proof. destruct value; [done | discriminate]. Qed.

(** *** Deploying *)

(** [changeSetExecute] does nothing without a change set.  With one, it
    executes it for real (not hypothetically) and switches the mode to view
    only when the execution succeeded; when it fails the action throws and
    the store is as before. *)
Theorem changeSetExecute_views_after_success (api : Sdf) (state : EditorStore) :
  let run := actions.changeSetExecute api state in
  (changeSet state = None -> run = (Returned tt, state, [])) /\
  (forall changeSet hypothetical,
      Call (ChangeSet_execute changeSet hypothetical) ∈ trace run ->
      Editor.changeSet state = Some changeSet /\ hypothetical = false) /\
  (forall changeSet,
      Editor.changeSet state = Some changeSet ->
      match changeSet_execute api changeSet false with
      | Returned _ =>
          outcome run = Returned tt /\
          store run = mutations.setMode view state
      | Thrown e => outcome run = Thrown e /\ store run = state
      end).
Proof.
  intros run. subst run. unfold actions.changeSetExecute. run_action.
  destruct (changeSet state) as [cs|] eqn:Hcs; simpl.
  - destruct (changeSet_execute api cs false) as [[]|e] eqn:Hexec; simpl;
      (split; [discriminate|]; split; [intros ? ? Hin; sent; done|]);
      intros ? [= <-]; rewrite Hexec; done.
  - split; [done|]. split; [intros ? ? Hin; sent|]. discriminate.
Qed.

Lemma changeSetExecute_views_after_success_witness :
  mode (store (actions.changeSetExecute backend
                 (mutations.setMode edit working))) = view.
Proof.
  destruct (changeSetExecute_views_after_success backend
              (mutations.setMode edit working)) as (_ & _ & Hexec).
  specialize (Hexec first eq_refl). simpl in Hexec.
  destruct Hexec as [_ ->]. reflexivity.
Defined.

(** X20. [deployApplication] sends the deploy request only when a change set,
    an application with a node id, a system and an edit session are all
    there, and the request names exactly those.  When one is missing it
    logs, sends nothing and leaves the store alone.  The mode becomes view
    only after the request went through. *)
Theorem deployApplication_needs_full_context (api : Sdf) (state : EditorStore) :
  let run := actions.deployApplication api state in
  (forall changeSet request,
      Call (ChangeSet_executeWithAction changeSet request) ∈ trace run ->
      Editor.changeSet state = Some changeSet /\
      action request = "deploy" /\
      Entity.nodeId <$> application state = Some (nodeId request) /\
      System.id <$> system state = Some (systemId request) /\
      EditSession.id <$> editSession state
        = Some (execute_editSessionId request)) /\
  (changeSet state = None \/ application state = None \/
   system state = None \/ editSession state = None ->
   store run = state /\ outcome run = Returned tt /\
   exists message, trace run = [Log message]) /\
  (store run = state \/
   (store run = mutations.setMode view state /\
    outcome run = Returned tt /\
    exists changeSet request,
      Call (ChangeSet_executeWithAction changeSet request) ∈ trace run /\
      changeSet_executeWithAction api changeSet request = Returned tt)).
Proof.
  intros run. subst run. unfold actions.deployApplication. run_action.
  destruct (changeSet state) as [cs|] eqn:Hcs; simpl.
  2: { split; [intros ? ? Hin; sent|]. split; [|by left].
       intros _. repeat split. by eexists. }
  destruct (truthy (Entity.nodeId <$> application state)) eqn:Hnode; simpl.
  2: { split; [intros ? ? Hin; sent|]. split; [|by left].
       intros _. repeat split. by eexists. }
  destruct (truthy (System.id <$> system state)) eqn:Hsys; simpl.
  2: { split; [intros ? ? Hin; sent|]. split; [|by left].
       intros _. repeat split. by eexists. }
  destruct (truthy (EditSession.id <$> editSession state)) eqn:Hes; simpl.
  2: { split; [intros ? ? Hin; sent|]. split; [|by left].
       intros _. repeat split. by eexists. }
  apply truthy_Some in Hnode, Hsys, Hes.
  destruct (changeSet_executeWithAction api cs _) as [[]|e] eqn:Hsent; simpl.
  - split; [intros ? ? Hin; sent; done|]. split.
    + intros [Hnone | [Hnone | [Hnone | Hnone]]];
        rewrite Hnone in *; discriminate.
    + right. split; [done|]. split; [done|].
      eexists cs, _. split; [by left | exact Hsent].
  - split; [intros ? ? Hin; sent; done|]. split; [|by left].
    intros [Hnone | [Hnone | [Hnone | Hnone]]];
      rewrite Hnone in *; discriminate.
Qed.

Lemma deployApplication_needs_full_context_witness :
  store (actions.deployApplication backend working) = working /\
  exists message,
    trace (actions.deployApplication backend working) = [Log message].
Proof.
  destruct (deployApplication_needs_full_context backend working)
    as (_ & Hmissing & _).
  destruct Hmissing as (Hstore & _ & Hlog).
  - right. right. left. reflexivity.
  - split; [exact Hstore | exact Hlog].
Defined.

(** *** Creating a change set *)

(** X21. When the backend creates the change set and then the edit session,
    [changeSetCreate] selects the new change set, creates the edit session
    in it (not in the change set that was selected before), selects that
    session, flips the mode and returns the change set.  When the edit
    session cannot be created because no user is signed in, the action
    throws after the new change set was selected, and the mode stays. *)
Theorem changeSetCreate_opens_session_in_new_change_set
    (api : Sdf) (rootGetters : RootGetters) (payload : ActionChangeSetCreate)
    (state : EditorStore)
    (workspace : Workspace.t) (organization : Organization.t)
    (created : ChangeSet.t) :
  workspace_current rootGetters = Some workspace ->
  organization_current rootGetters = Some organization ->
  changeSet_create api
    {| name := changeSet_name payload;
       create_workspaceId := Workspace.id workspace;
       create_organizationId := Organization.id organization |}
    = Returned created ->
  let run := actions.changeSetCreate api rootGetters payload state in
  changeSet (store run) = Some created /\
  (forall changeSetId request,
      Core (Editor.Call (EditSession_create changeSetId request)) ∈ trace run ->
      changeSetId = ChangeSet.id created) /\
  (forall user session,
      user_current rootGetters = Some user ->
      editSession_create (core api) (ChangeSet.id created)
        (create_request (core api) user workspace organization)
        = Returned session ->
      outcome run = Returned created /\
      editSession (store run) = Some session /\
      mode (store run) =
        match mode state with view => edit | edit => view end) /\
  (user_current rootGetters = None ->
   (exists e, outcome run = Thrown e) /\
   mode (store run) = mode state /\
   editSession (store run) = editSession state).
Proof.
  intros Hws Horg Hcreated run. subst run.
  unfold actions.changeSetCreate, actions.modeSwitch,
    Editor.actions.editSessionCreate.
  run_action. rewrite Hws, Horg. simpl. rewrite Hcreated. simpl.
  destruct (user_current rootGetters) as [user|] eqn:Huser; simpl.
  - destruct (editSession_create (core api) (ChangeSet.id created) _)
      as [session|e] eqn:Hsession; simpl.
    + destruct (mode state) eqn:Hmode; simpl;
        (split; [done|]; split; [intros ? ? Hin; sent; done|];
         split; [|discriminate]);
        intros user' session' [= <-] Hsession';
        unfold create_request in Hsession'; simpl in Hsession';
        rewrite Hsession in Hsession'; injection Hsession' as <-; done.
    + split; [done|]. split; [intros ? ? Hin; sent; done|].
      split; [|discriminate].
      intros user' session' [= <-] Hsession'.
      unfold create_request in Hsession'. simpl in Hsession'.
      rewrite Hsession in Hsession'. discriminate.
  - split; [done|]. split; [intros ? ? Hin; sent|].
    split; [discriminate|]. intros _. split; [by eexists | done].
Qed.

Lemma changeSetCreate_opens_session_in_new_change_set_witness :
  let run :=
    actions.changeSetCreate backend signed_in
      {| changeSet_name := "third" |} working in
  ChangeSet.id <$> changeSet (store run) = Some "changeSet:3" /\
  EditSession.changeSetId <$> editSession (store run) = Some "changeSet:3" /\
  mode (store run) = edit.
Proof.
  intros run.
  destruct (changeSetCreate_opens_session_in_new_change_set
              backend signed_in {| changeSet_name := "third" |} working
              {| Workspace.id := "workspace:1" |}
              {| Organization.id := "organization:1" |}
              {| ChangeSet.id := "changeSet:3";
                 ChangeSet.name := "third";
                 ChangeSet.status := ChangeSetStatus.Open |})
    as (Hselected & _ & Hsession & _); [reflexivity..|].
  fold run in Hselected, Hsession.
  destruct (Hsession {| User.name := "alice" |}
              {| EditSession.id := "editSession:1";
                 EditSession.name := "alice 2021-03-04T05:06:07.000Z";
                 EditSession.changeSetId := "changeSet:3" |})
    as (_ & Hes & Hmode); [reflexivity..|].
  rewrite Hselected, Hes, Hmode. repeat split.
Defined.

(** *** Syncing resources *)

Lemma syncEach_run (api : Sdf) (systemId : string)
    (changeSetId : option string) (nodeList : list Node.t)
    (state : EditorStore) :
  let run := actions.syncEach api systemId changeSetId nodeList state in
  store run = state /\
  (forall r, r ∈ trace run ->
     exists node, node ∈ nodeList /\
                  r = Call (Node_syncResource node systemId changeSetId)) /\
  ((forall node, node ∈ nodeList ->
      node_syncResource api node systemId changeSetId = Returned tt) ->
   outcome run = Returned tt /\
   trace run =
     (fun node => Call (Node_syncResource node systemId changeSetId))
       <$> nodeList).
Proof.
  induction nodeList as [|node rest IH]; simpl.
  - split; [done|]. split; [|done]. intros r Hin. by apply elem_of_nil in Hin.
  - destruct IH as (IHstore & IHcalls & IHall).
    run_action.
    destruct (node_syncResource api node systemId changeSetId) as [[]|e]
      eqn:Hsync; simpl.
    + destruct (actions.syncEach api systemId changeSetId rest state)
        as [[r s'] t] eqn:Hrest. simpl in *.
      split; [done|]. split.
      * intros r0 [-> | Hin]%elem_of_cons.
        { exists node. split; [by left | done]. }
        destruct (IHcalls r0 Hin) as (n & Hn & ->).
        exists n. split; [by right | done].
      * intros Hok. destruct IHall as [Hout Htrace].
        { intros n Hn. apply Hok. by right. }
        split; [done|]. by rewrite Htrace.
    + split; [done|]. split.
      * intros r0 [-> | Hin]%elem_of_cons; [|by apply elem_of_nil in Hin].
        exists node. split; [by left | done].
      * intros Hok. rewrite Hok in Hsync by (by left). discriminate.
Qed.

(** X22. [syncResources] syncs nothing without an application and a system.
    Otherwise it asks for a sync, in the selected system and change set, of
    nodes on display only, and never changes the store; when every sync
    succeeds it has asked for each node on display once, in order. *)
Theorem syncResources_syncs_displayed_nodes (api : Sdf) (state : EditorStore) :
  let run := actions.syncResources api state in
  store run = state /\
  (application state = None \/ system state = None -> trace run = []) /\
  (forall node systemId changeSetId,
      Call (Node_syncResource node systemId changeSetId) ∈ trace run ->
      node ∈ getters.nodeList state /\
      System.id <$> system state = Some systemId /\
      changeSetId = ChangeSet.id <$> changeSet state) /\
  (forall system,
      is_Some (application state) ->
      Editor.system state = Some system ->
      (forall node,
          node ∈ getters.nodeList state ->
          node_syncResource api node (System.id system)
            (ChangeSet.id <$> changeSet state) = Returned tt) ->
      trace run =
        (fun node =>
           Call (Node_syncResource node (System.id system)
                   (ChangeSet.id <$> changeSet state)))
          <$> getters.nodeList state).
Proof.
  intros run. subst run. unfold actions.syncResources.
  rewrite bind_read.
  destruct (application state) as [app|] eqn:Happ;
    [destruct (system state) as [sys|] eqn:Hsys|].
  - destruct (syncEach_run api (System.id sys)
                (ChangeSet.id <$> changeSet state)
                (getters.nodeList state) state) as (Hstore & Hcalls & Hall).
    destruct (actions.syncEach api _ _ _ state) as [[r s'] t] eqn:Hrun.
    simpl in *. split; [done|]. split.
    { intros [Hnone | Hnone]; discriminate. }
    split.
    + intros node systemId changeSetId Hin.
      destruct (Hcalls _ Hin) as (n & Hn & [= -> -> ->]). done.
    + intros system _ [= <-] Hok. by apply Hall.
  - simpl. split; [done|]. split; [done|]. split.
    + intros ? ? ? Hin. by apply elem_of_nil in Hin.
    + intros system _ Hsystem. discriminate.
  - simpl. split; [done|]. split; [done|]. split.
    + intros ? ? ? Hin. by apply elem_of_nil in Hin.
    + intros system [x Hx]. discriminate.
Qed.

Lemma syncResources_syncs_displayed_nodes_witness :
  trace (actions.syncResources backend working) = [].
Proof.
  destruct (syncResources_syncs_displayed_nodes backend working)
    as (_ & Hnone & _).
  apply Hnone. right. reflexivity.
Defined.

End EditorFlowFacts.

Module FromEntityFacts.
Import Editor EditorOps EditorOpsNotions.

Ltac run_action :=
  unfold lift, bind, commit, Editor.commit, router, emit, modify, read, ret,
    throw, await, member;
  simpl.

Ltac sent :=
  repeat match goal with
         | H : _ ∈ _ :: _ |- _ =>
             apply elem_of_cons in H as [H | H];
             [first [discriminate | injection H as ->]|]
         end;
  try match goal with
      | H : _ ∈ [] |- _ => by apply elem_of_nil in H
      end.

Ltac here :=
  solve [repeat (apply elem_of_cons; first [by left | right])].

(** X23. [fromEntity] stores a pushed entity in [objects], under its node id,
    only when the node is a successor of the application's node and the
    entity belongs to the view on display: with a change set selected, that
    change set's version and not the head; with none, the head.  Any other
    push leaves [objects] as they are. *)
Theorem fromEntity_follows_view
    (api : Sdf) (payload : PushedEntity.t) (state : EditorStore) :
  let run := actions.fromEntity api payload state in
  let after := store run in
  (forall object,
      Commit (UpdateObjects object) ∈ trace run ->
      object = as_object payload /\
      objects after !! PushedEntity.nodeId payload = Some (as_object payload) /\
      in_view payload state /\
      exists application appNode successors,
        Editor.application state = Some application /\
        node_get api (Entity.nodeId application) = Returned appNode /\
        node_successors (core api) appNode = Returned successors /\
        PushedEntity.nodeId payload ∈ Node.id <$> successors) /\
  ((forall object, Commit (UpdateObjects object) ∉ trace run) ->
   objects after = objects state) /\
  (forall application appNode successors,
      Editor.application state = Some application ->
      node_get api (Entity.nodeId application) = Returned appNode ->
      node_successors (core api) appNode = Returned successors ->
      PushedEntity.nodeId payload ∈ Node.id <$> successors ->
      in_view payload state ->
      Commit (UpdateObjects (as_object payload)) ∈ trace run).
Proof.
  intros run after. subst after run.
  unfold actions.fromEntity, in_view. run_action.
  destruct (application state) as [application|] eqn:Happ; simpl.
  2: { split; [intros ? Hin; sent|]. split; [done|]. intros; discriminate. }
  destruct (node_get api (Entity.nodeId application)) as [appNode|e]
    eqn:HappNode; simpl.
  2: { split; [intros ? Hin; sent|]. split; [done|].
       intros ? ? ? [= <-]. rewrite HappNode. discriminate. }
  destruct (node_successors (core api) appNode) as [successors|e]
    eqn:Hsucc; simpl.
  2: { split; [intros ? Hin; sent|]. split; [done|].
       intros ? ? ? [= <-]. rewrite HappNode. intros [= <-].
       rewrite Hsucc. discriminate. }
  destruct (lodash.find Node.id (PushedEntity.nodeId payload) successors)
    as [found|] eqn:Hfind; simpl.
  2: { split; [intros ? Hin; sent|]. split; [done|].
       intros ? ? ? [= <-]. rewrite HappNode. intros [= <-].
       rewrite Hsucc. intros [= <-] Hin.
       apply lodashFacts.find_None in Hfind. contradiction. }
  assert (Hin : PushedEntity.nodeId payload ∈ Node.id <$> successors)
    by (by eapply EditorFacts.find_Some_elem).
  assert (Hwhere : exists application' appNode successors,
    Some application = Some application' /\
    node_get api (Entity.nodeId application') = Returned appNode /\
    node_successors (core api) appNode = Returned successors /\
    PushedEntity.nodeId payload ∈ Node.id <$> successors)
    by (eexists _, _, _; eauto).
  destruct (changeSet state) as [cs|] eqn:Hcs; simpl.
  - destruct (String.eqb (PushedEntity.changeSetId payload) (ChangeSet.id cs))
      eqn:Hid; simpl.
    + apply String.eqb_eq in Hid.
      destruct (PushedEntity.head payload) eqn:Hhead; simpl.
      * split; [intros ? Hc; sent|]. split; [done|].
        intros ? ? ? _ _ _ _ [_ Habs]. discriminate.
      * destruct (same_id (Entity.id <$> editObject state)
                    (PushedEntity.id payload)); simpl;
          [destruct (entity_diff api payload); simpl|];
          (split; [|split; [intros Hnone; exfalso;
                            apply (Hnone (as_object payload)); here
                           |intros; here]]);
          intros object Hc; sent;
          (split; [done|]; split; [by apply lookup_insert_eq|];
           split; [done | exact Hwhere]).
    + split; [intros ? Hc; sent|]. split; [done|].
      intros ? ? ? _ _ _ _ [Habs _]. apply String.eqb_neq in Hid. contradiction.
  - destruct (PushedEntity.head payload) eqn:Hhead; simpl.
    + split; [|split; [intros Hnone; exfalso;
                       apply (Hnone (as_object payload)); here
                      |intros; here]].
      intros object Hc; sent.
      split; [done|]. split; [by apply lookup_insert_eq|].
      split; [done | exact Hwhere].
    + split; [intros ? Hc; sent|]. split; [done|].
      intros ? ? ? _ _ _ _ Habs. discriminate.
Qed.

Lemma fromEntity_follows_view_witness :
  Commit (UpdateObjects (as_object service_entity))
    ∈ trace (actions.fromEntity backend service_entity working).
Proof.
  destruct (fromEntity_follows_view backend service_entity working)
    as (_ & _ & Hstored).
  apply (Hstored demo {| Node.id := "node:1";
                         Node.objectType := "application" |} [service]);
    try reflexivity.
  - simpl. by left.
  - split; reflexivity.
Defined.

End FromEntityFacts.

Module ExternalProviderCallsFacts.
Import ExternalProviders ExternalProviderCalls.

Section Calls.
Variable tenancy_json_to_columns_v1 : option json -> tenancy_record_v1.t.
Variable visibility_json_to_columns_v1 : option json -> visibility_record_v1.t.
Variable timestamptz_out : timestamptz -> string.

Local Abbreviation perform :=
  (perform tenancy_json_to_columns_v1 visibility_json_to_columns_v1
     timestamptz_out).

Local Abbreviation perform_all :=
  (perform_all tenancy_json_to_columns_v1 visibility_json_to_columns_v1
     timestamptz_out).

Lemma perform_consistent (call : Call) (db : Database) :
  consistent db -> consistent (left_by (perform call db)).
Proof.
  intros (Hpk & Hid & Hpks & Hids).
  unfold ExternalProviderCalls.perform, external_provider_create_v1.
  cbv zeta.
  assert (Hraised : consistent (advance db)).
  { unfold consistent, keys_from_sequence. simpl.
    repeat split; try done.
    - eapply Forall_impl; [exact Hpk|]. simpl. intros; lia.
    - eapply Forall_impl; [exact Hid|]. simpl. intros; lia. }
  destruct (tenancy_record_v1.tenancy_universal _) as [universal|];
    [|exact Hraised].
  case_bool_decide as Htaken; [exact Hraised|].
  unfold consistent, keys_from_sequence in *. simpl.
  rewrite !fmap_app. simpl.
  split; [|split; [|split]].
  - apply Forall_app. split; [|by repeat constructor].
    eapply Forall_impl; [exact Hpk|]. simpl. intros; lia.
  - apply Forall_app. split; [|by repeat constructor].
    eapply Forall_impl; [exact Hid|]. simpl. intros; lia.
  - apply NoDup_app. split; [done|]. split; [|apply NoDup_singleton].
    intros k Hk [->|Hnil]%elem_of_cons; [|by apply elem_of_nil in Hnil].
    apply list_elem_of_fmap in Hk as (r & Hr & Hin).
    rewrite Forall_forall in Hpk. apply Hpk in Hin. lia.
  - apply NoDup_app. split; [done|]. split; [|apply NoDup_singleton].
    intros k Hk [->|Hnil]%elem_of_cons; [|by apply elem_of_nil in Hnil].
    apply list_elem_of_fmap in Hk as (r & Hr & Hin).
    rewrite Forall_forall in Hid. apply Hid in Hin. lia.
Qed.

Lemma perform_sequences (call : Call) (db : Database) :
  external_providers_pk_seq (left_by (perform call db))
    = (external_providers_pk_seq db + 1)%Z /\
  external_providers_id_seq (left_by (perform call db))
    = (external_providers_id_seq db + 1)%Z /\
  (length (external_providers (left_by (perform call db)))
     <= S (length (external_providers db)))%nat.
Proof.
  unfold ExternalProviderCalls.perform, external_provider_create_v1.
  cbv zeta.
  destruct (tenancy_record_v1.tenancy_universal _) as [universal|];
    [case_bool_decide|]; simpl; rewrite ?length_app; simpl;
    repeat split; lia.
Qed.



End Calls.

Lemma migrated_consistent : consistent migrated.
Proof. repeat split; constructor. Qed.



End ExternalProviderCallsFacts.

Module ModifiedNodesFacts.
Import ExternalProviders ModifiedNodes.

Lemma eq_true_spec (a b : option bigint) :
  eq_true a b = true <-> exists k, a = Some k /\ b = Some k.
Proof.
  destruct a as [a|], b as [b|]; simpl;
    try (split; [discriminate | intros (k & ? & ?); discriminate]).
  rewrite Z.eqb_eq. split.
  - intros ->. by exists b.
  - intros (k & [= ->] & [= ->]). done.
Qed.

Lemma left_outer_join_elem (p q : projection.row) (heads : list head.row)
    (h : option head.row) :
  (q, h) ∈ left_outer_join p heads <->
  q = p /\
  match h with
  | Some h =>
      h ∈ heads /\ eq_true (projection.id p) (head.id h) = true
  | None =>
      forall h', h' ∈ heads -> eq_true (projection.id p) (head.id h') = false
  end.
Proof.
  unfold left_outer_join.
  destruct (List.filter _ heads) as [|m matches] eqn:Hmatches.
  - assert (Hnone : forall h', h' ∈ heads ->
              eq_true (projection.id p) (head.id h') = false).
    { intros h' Hin.
      destruct (eq_true (projection.id p) (head.id h')) eqn:Heq; [|done].
      assert (Hf : In h' (List.filter
                (fun h => eq_true (projection.id p) (head.id h)) heads)).
      { apply filter_In. split; [by apply list_elem_of_In | done]. }
      rewrite Hmatches in Hf. destruct Hf. }
    rewrite list_elem_of_singleton. split.
    + intros [= -> ->]. done.
    + intros [-> Hh]. destruct h as [h|]; [|done].
      destruct Hh as [Hin Heq]. rewrite (Hnone h Hin) in Heq. discriminate.
  - rewrite <- Hmatches, list_elem_of_fmap. split.
    + intros (h' & [= -> ->] & Hin).
      apply list_elem_of_In, filter_In in Hin as [Hin Heq].
      split; [done|]. split; [by apply list_elem_of_In | done].
    + intros [-> Hh]. destruct h as [h|].
      * destruct Hh as [Hin Heq]. exists h. split; [done|].
        apply list_elem_of_In, filter_In. split; [by apply list_elem_of_In|done].
      * exfalso.
        assert (Hm : In m (List.filter
                  (fun h => eq_true (projection.id p) (head.id h)) heads))
          by (rewrite Hmatches; by left).
        apply filter_In in Hm as [Hin Heq].
        rewrite (Hh m) in Heq by (by apply list_elem_of_In). discriminate.
Qed.

(** X26. The query returns an id exactly when a row of the projection has it
    as a non-NULL id, belongs to the given change set, is not marked deleted
    ([obj -> 'siStorable' -> 'deleted'] is the json [false]) and a row of
    [entities_head] has the same id: the outer join with its IS NOT NULL
    test drops every entity that exists in the change set only.  Nothing is
    returned when the given change set id converts to NULL. *)
Theorem change_set_modified_nodes_are_on_head
    (si_id_to_primary_key_v1 : option string -> option bigint)
    (change_set : option string)
    (entities_change_set_projection : list projection.row)
    (entities_head : list head.row) (result : option bigint) :
  let returned :=
    change_set_modified_nodes si_id_to_primary_key_v1 change_set
      entities_change_set_projection entities_head in
  (result ∈ returned <->
   exists p h key node,
     p ∈ entities_change_set_projection /\
     h ∈ entities_head /\
     result = Some node /\
     projection.id p = Some node /\
     head.id h = Some node /\
     si_id_to_primary_key_v1 change_set = Some key /\
     projection.change_set_id p = Some key /\
     arrow (arrow (projection.obj p) "siStorable") "deleted"
       = Some (JBool false)) /\
  (si_id_to_primary_key_v1 change_set = None -> returned = []).
Proof.
  intros returned. subst returned. unfold change_set_modified_nodes. split.
  - rewrite list_elem_of_fmap. split.
    + intros ([q h] & -> & Hin).
      apply list_elem_of_In, filter_In in Hin as [Hin Hwhere].
      apply list_elem_of_In, list_elem_of_bind in Hin as (p & Hjoin & Hp).
      apply left_outer_join_elem in Hjoin as [-> Hh].
      unfold where_clause in Hwhere.
      apply andb_true_iff in Hwhere as [Hwhere Hlive].
      apply andb_true_iff in Hwhere as [Hcs Hhead].
      apply bool_decide_eq_true in Hhead.
      destruct h as [h|]; [|by destruct Hhead].
      destruct Hh as [Hh Hid].
      apply eq_true_spec in Hid as (node & Hpid & Hhid).
      apply eq_true_spec in Hcs as (key & Hpcs & Hkey).
      exists p, h, key, node. simpl. repeat split; try done.
      unfold is_json_false in Hlive.
      destruct (arrow _ "deleted") as [[| [|] | | | |]|]; done.
    + intros (p & h & key & node & Hp & Hh & -> & Hpid & Hhid & Hkey & Hpcs
              & Hlive).
      exists (p, Some h). split; [simpl; by rewrite Hpid|].
      apply list_elem_of_In, filter_In. split.
      * apply list_elem_of_In, list_elem_of_bind. exists p. split; [|done].
        apply left_outer_join_elem. split; [done|]. split; [done|].
        apply eq_true_spec. by exists node.
      * unfold where_clause. rewrite Hlive. simpl.
        rewrite andb_true_r. apply andb_true_iff. split.
        { apply eq_true_spec. by exists key. }
        apply bool_decide_eq_true. simpl. rewrite Hhid. by eexists.
  - intros Hnull.
    assert (Hnone : forall joined,
      where_clause si_id_to_primary_key_v1 change_set joined = false).
    { intros [p h]. unfold where_clause. rewrite Hnull.
      by destruct (projection.change_set_id p). }
    induction (entities_change_set_projection ≫= _) as [|joined rest IH];
      [done|].
    simpl. by rewrite Hnone.
Qed.

Lemma change_set_modified_nodes_are_on_head_witness :
  exists p h,
    p ∈ projected /\ h ∈ heads /\
    projection.id p = Some 1%Z /\ head.id h = Some 1%Z.
Proof.
  destruct (change_set_modified_nodes_are_on_head primary_key
              (Some "change_set:7") projected heads (Some 1%Z))
    as [[Hreturned _] _].
  destruct Hreturned as (p & h & key & node & Hp & Hh & [= <-] & Hpid & Hhid & _).
  - simpl. by left.
  - exists p, h. done.
Defined.

Example change_set_modified_nodes_example :
  change_set_modified_nodes primary_key (Some "change_set:7") projected heads
    = [Some 1%Z].
Proof. reflexivity. Qed.

End ModifiedNodesFacts.
